(** * Webhooks journal client: credential cache, HTTP gateway, resource
    clients and the journal cursor loop.

    The TypeScript sources are embedded as executable Rocq functions.
    JavaScript numbers that hold epoch milliseconds, durations, counters and
    identifiers are integers ([Z]); [Date.now()] is the [clock] field of the
    modelled world and advances by the latency of every awaited network
    exchange and by the delay of every timer.  A thrown exception is the
    [Throw] result of a computation; state changed before the throw stays
    changed, as it does in JavaScript.  Console output is not modelled. *)

From Stdlib Require Import ZArith List String Bool Lia.
From Stdlib Require Import DecimalString.
Import ListNotations.
Local Open Scope string_scope.
Local Open Scope Z_scope.
Local Open Scope list_scope.

(** Concatenation inside template strings. *)
Infix "+++" := String.append (right associativity, at level 60).

(** ** Data exchanged with the service: [types/api.ts], [types/config.ts] *)

Module Types.

(** Body of an error response, [ApiError]. *)
Record ApiError := {
  ae_message : option string;
  ae_correlationId : option string;
  ae_category : option string
}.

Inductive SubscriptionType := OBJECT | ASSOCIATION.

Record Subscription := {
  id : Z;
  appId : Z;
  subscriptionType : SubscriptionType;
  objectTypeId : string;
  portalId : Z;
  actions : list string
}.

(** [JournalEntry]; the code tests [url] for presence, so it is optional. *)
Record JournalEntry := {
  url : option string;
  expiresAt : string;
  currentOffset : string
}.

Record JournalEvent := {
  ev_type : string;
  ev_portalId : Z;
  ev_occurredAt : string;
  ev_action : string;
  ev_objectTypeId : string;
  ev_objectId : Z
}.

Record JournalData := {
  offset : string;
  journalEvents : list JournalEvent;
  publishedAt : string
}.

(** [JournalEntryWithData]: [{...entry, data}]. *)
Record JournalEntryWithData := {
  entry : JournalEntry;
  data : JournalData
}.

(** [AuthToken]; [obtained_at] is optional in the interface. *)
Record AuthToken := {
  access_token : string;
  token_type : string;
  expires_in : Z;
  refresh_token : option string;
  scope : option string;
  obtained_at : option Z
}.

(** A parsed response body.  The generic parameter of [get<T>] is erased at
    run time, so one type holds every shape a body can take. *)
Inductive Payload :=
| PNothing
| PText (text : string)
| PError (body : ApiError)
| PSubscriptions (results : list Subscription)
| PJournalEntry (e : JournalEntry).

End Types.
Import Types.

(** ** JavaScript values and exceptions *)

Module Js.

(** The exceptions the sources throw or receive.  [AxiosError] carries the
    status and body of the response when the server answered. *)
Inductive Exn :=
| ApiClientError (message : string) (statusCode : option Z)
                 (correlationId category : option string)
| AuthError (message : string) (correlationId category : option string)
| AxiosError (message : string) (response : option (Z * Payload))
| TypeError (message : string)
| Error (message : string).

Definition exn_name (e : Exn) : string :=
  match e with
  | ApiClientError _ _ _ _ => "ApiClientError"
  | AuthError _ _ _ => "AuthError"
  | AxiosError _ _ => "AxiosError"
  | TypeError _ => "TypeError"
  | Error _ => "Error"
  end.

Definition exn_message (e : Exn) : string :=
  match e with
  | ApiClientError m _ _ _ => m
  | AuthError m _ _ => m
  | AxiosError m _ => m
  | TypeError m => m
  | Error m => m
  end.

(** [error.statusCode], a property only [ApiClientError] has. *)
Definition exn_statusCode (e : Exn) : option Z :=
  match e with
  | ApiClientError _ sc _ _ => sc
  | _ => None
  end.

(** [error.response?.status] *)
Definition response_status (e : Exn) : option Z :=
  match e with
  | AxiosError _ (Some (st, _)) => Some st
  | _ => None
  end.

(** [error.response?.data] *)
Definition response_data (e : Exn) : option Payload :=
  match e with
  | AxiosError _ (Some (_, d)) => Some d
  | _ => None
  end.

(** [`${error}`]: [Error.prototype.toString]. *)
Definition toString (e : Exn) : string :=
  if String.eqb (exn_message e) "" then exn_name e
  else exn_name e +++ ": " +++ exn_message e.

(** [s || fallback] on an optional string: absent and empty are falsy. *)
Definition or_else (s : option string) (fallback : string) : string :=
  match s with
  | Some v => if String.eqb v "" then fallback else v
  | None => fallback
  end.

(** Truthiness of an optional string ([if (s)], [!s]). *)
Definition truthy_string (s : option string) : bool :=
  match s with
  | Some v => negb (String.eqb v "")
  | None => false
  end.

(** Truthiness of an optional number: [undefined] and [0] are falsy. *)
Definition truthy_number (n : option Z) : bool :=
  match n with
  | Some v => negb (v =? 0)
  | None => false
  end.

(** [x === n] for an optional number. *)
Definition is_number (x : option Z) (n : Z) : bool :=
  match x with
  | Some v => v =? n
  | None => false
  end.

(** Decimal rendering of an integer inside a template string. *)
Definition show_Z (z : Z) : string := NilZero.string_of_int (Z.to_int z).

(** [Math.ceil(a / b)] for a positive divisor. *)
Definition ceil_div (a b : Z) : Z := - ((- a) / b).

End Js.
Import Js.

(** ** Computations with state and exceptions *)

Inductive Result (A : Type) :=
| Ok (a : A)
| Throw (e : Exn).
Arguments Ok {A} a.
Arguments Throw {A} e.

Definition M (S A : Type) : Type := S -> Result A * S.

Definition ret {S A} (a : A) : M S A := fun s => (Ok a, s).
Definition throw {S A} (e : Exn) : M S A := fun s => (Throw e, s).
Definition bind {S A B} (c : M S A) (k : A -> M S B) : M S B :=
  fun s => match c s with
           | (Ok a, s') => k a s'
           | (Throw e, s') => (Throw e, s')
           end.
(** [try { c } catch (e) { h e }] *)
Definition try_catch {S A} (c : M S A) (h : Exn -> M S A) : M S A :=
  fun s => match c s with
           | (Ok a, s') => (Ok a, s')
           | (Throw e, s') => h e s'
           end.
Definition gets {S A} (f : S -> A) : M S A := fun s => (Ok (f s), s).
Definition modify {S} (f : S -> S) : M S unit := fun s => (Ok tt, f s).
(** A computation on a component [T] of the state [S]. *)
Definition zoom {S T A} (get : S -> T) (set : T -> S -> S) (c : M T A)
  : M S A :=
  fun s => let (r, t) := c (get s) in (r, set t s).

Declare Scope js_scope.
Delimit Scope js_scope with js.
Notation "x <- c ;; k" := (bind c (fun x => k))
  (at level 61, c at next level, right associativity) : js_scope.
Notation "c ;;; k" := (bind c (fun _ => k))
  (at level 61, right associativity) : js_scope.
Local Open Scope js_scope.

(** ** The wire: token endpoint and API server as the gateway sees them *)

Module Wire.

(** What the token endpoint answers to one exchange, and how long the
    exchange took. *)
Inductive TokenReply :=
| TokenGranted (latency : Z) (data : AuthToken)
| TokenRefused (latency : Z) (message : string) (body : option ApiError)
| TokenCrashed (latency : Z) (cause : Exn).

(** What the API server answers to one HTTP request. *)
Inductive HttpReply :=
| Responded (latency : Z) (status : Z) (data : Payload)
| Unreachable (latency : Z) (message : string).

Inductive Method := GET | POST | PUT | DELETE.

(** The paths the resource clients request. *)
Inductive Endpoint :=
| Subscriptions
| SubscriptionById (subscriptionId : Z)
| SubscriptionsOfPortal (portal : Z)
| SnapshotsCrm
| JournalEarliest
| JournalLatest
| JournalNext (after : string).

Definition path (e : Endpoint) : string :=
  match e with
  | Subscriptions => "/webhooks/v4/subscriptions"
  | SubscriptionById i => "/webhooks/v4/subscriptions/" +++ show_Z i
  | SubscriptionsOfPortal p =>
      "/webhooks/v4/subscriptions/portals/" +++ show_Z p
  | SnapshotsCrm => "/webhooks/v4/snapshots/crm"
  | JournalEarliest => "/webhooks/v4/journal/earliest"
  | JournalLatest => "/webhooks/v4/journal/latest"
  | JournalNext o => "/webhooks/v4/journal/offset/" +++ o +++ "/next"
  end.

Inductive WireEvent :=
| TokenExchange (at_ms : Z)
| ApiRequest (at_ms : Z) (m : Method) (e : Endpoint) (bearer : string).

(** How many token exchanges and how many API requests went out. *)
Fixpoint exchanges_in (l : list WireEvent) : nat :=
  match l with
  | [] => O
  | TokenExchange _ :: rest => S (exchanges_in rest)
  | ApiRequest _ _ _ _ :: rest => exchanges_in rest
  end.

Fixpoint requests_in (l : list WireEvent) : nat :=
  match l with
  | [] => O
  | TokenExchange _ :: rest => requests_in rest
  | ApiRequest _ _ _ _ :: rest => S (requests_in rest)
  end.

(** The clock and the answers the two remote parties will give, in order.
    An exhausted script is an unreachable host. *)
Record World := {
  clock : Z;
  tokenEndpoint : list TokenReply;
  apiServer : list HttpReply;
  wire : list WireEvent
}.

End Wire.

(** ** Credential cache: [utils/auth.ts] *)

Module Auth.
Import Wire.

(** The fields of the [AuthManager] object. *)
Record AuthManager := {
  debug : bool;
  currentToken : option AuthToken;
  lastTokenLogTime : Z
}.

(** The object and the world it runs in. *)
Record Sys := {
  world : World;
  manager : AuthManager
}.

Definition now : M Sys Z := gets (fun s => clock (world s)).

Definition set_currentToken (t : option AuthToken) : M Sys unit :=
  modify (fun s =>
    {| world := world s;
       manager := {| debug := debug (manager s); currentToken := t;
                     lastTokenLogTime := lastTokenLogTime (manager s) |} |}).

Definition set_lastTokenLogTime (t : Z) : M Sys unit :=
  modify (fun s =>
    {| world := world s;
       manager := {| debug := debug (manager s);
                     currentToken := currentToken (manager s);
                     lastTokenLogTime := t |} |}).

Definition token_latency (r : TokenReply) : Z :=
  match r with
  | TokenGranted d _ => d
  | TokenRefused d _ _ => d
  | TokenCrashed d _ => d
  end.

(** One POST to the token endpoint: the exchange is recorded at the time it
    is sent, the next scripted answer is consumed and the clock advances by
    its latency. *)
Definition post_token : M Sys TokenReply := fun s =>
  let w := world s in
  let sent := wire w ++ [TokenExchange (clock w)] in
  match tokenEndpoint w with
  | [] =>
      (Ok (TokenRefused 0 "Network Error" None),
       {| world := {| clock := clock w; tokenEndpoint := [];
                      apiServer := apiServer w; wire := sent |};
          manager := manager s |})
  | r :: rest =>
      (Ok r,
       {| world := {| clock := clock w + token_latency r;
                      tokenEndpoint := rest;
                      apiServer := apiServer w; wire := sent |};
          manager := manager s |})
  end.

(** [isTokenExpired], with [Date.now()] passed in. *)
Definition isTokenExpired (now : Z) (token : AuthToken) : bool :=
  if negb (truthy_number (obtained_at token)) then true
  else
    let expirationTime :=
      match obtained_at token with Some t => t | None => 0 end
      + expires_in token * 1000 in
    let bufferTime := 5 * 60 * 1000 in
    now >=? expirationTime - bufferTime.

(** [fetchAccessToken]: [{...response.data, obtained_at: Date.now()}]. *)
Definition fetchAccessToken : M Sys AuthToken :=
  r <- post_token ;;
  match r with
  | TokenGranted _ data =>
      t <- now ;;
      ret {| access_token := access_token data;
             token_type := token_type data;
             expires_in := expires_in data;
             refresh_token := refresh_token data;
             scope := scope data;
             obtained_at := Some t |}
  | TokenRefused _ _ (Some errorData) =>
      throw (AuthError
               ("OAuth authentication failed: "
                +++ or_else (ae_message errorData) "Unknown error")
               (ae_correlationId errorData) (ae_category errorData))
  | TokenRefused _ message None =>
      throw (AuthError ("OAuth request failed: " +++ message)
                       None (Some "HTTP_ERROR"))
  | TokenCrashed _ cause =>
      throw (AuthError
               ("Unexpected error during authentication: " +++ toString cause)
               None None)
  end.

(** [this.currentToken && !this.isTokenExpired(this.currentToken)] *)
Definition hasValidToken (s : Sys) : bool :=
  match currentToken (manager s) with
  | Some token => negb (isTokenExpired (clock (world s)) token)
  | None => false
  end.

(** [getAccessToken] *)
Definition getAccessToken : M Sys string := fun s =>
  match currentToken (manager s) with
  | Some token =>
      if negb (isTokenExpired (clock (world s)) token) then
        (t <- now ;;
         (if debug (manager s) && (t - lastTokenLogTime (manager s) >? 60000)
          then set_lastTokenLogTime t else ret tt) ;;;
         ret (access_token token)) s
      else
        (fresh <- fetchAccessToken ;;
         set_currentToken (Some fresh) ;;;
         ret (access_token fresh)) s
  | None =>
      (fresh <- fetchAccessToken ;;
       set_currentToken (Some fresh) ;;;
       ret (access_token fresh)) s
  end.

(** [refreshToken] *)
Definition refreshToken : M Sys string :=
  fresh <- fetchAccessToken ;;
  set_currentToken (Some fresh) ;;;
  ret (access_token fresh).

(** [clearToken] *)
Definition clearToken : M Sys unit := set_currentToken None.

(** Time passing between two calls of the caller. *)
Definition elapse (d : Z) : M Sys unit :=
  modify (fun s =>
    let w := world s in
    {| world := {| clock := clock w + d; tokenEndpoint := tokenEndpoint w;
                   apiServer := apiServer w; wire := wire w |};
       manager := manager s |}).

End Auth.

(** ** HTTP gateway: [utils/api-client.ts] *)

Module ApiClient.
Import Wire Auth.

(** The part of an axios request configuration the gateway touches. *)
Record Request := {
  method : Method;
  endpoint : Endpoint;
  authorization : option string
}.

Record Response := {
  status : Z;
  data : Payload
}.

(** [config.headers.Authorization = `Bearer ${token}`] *)
Definition with_bearer (token : string) (req : Request) : Request :=
  {| method := method req; endpoint := endpoint req;
     authorization := Some ("Bearer " +++ token) |}.

Definition http_latency (r : HttpReply) : Z :=
  match r with
  | Responded d _ _ => d
  | Unreachable d _ => d
  end.

(** The transport under the interceptors (axios' [dispatchRequest] with its
    default [validateStatus]): the request goes on the wire, the next
    scripted answer is consumed, and a status outside 200..299 rejects with
    an [AxiosError] that carries the response. *)
Definition dispatchRequest (req : Request) : M Sys Response := fun s =>
  let w := world s in
  let sent :=
    wire w ++ [ApiRequest (clock w) (method req) (endpoint req)
                          (or_else (authorization req) "")] in
  match apiServer w with
  | [] =>
      (Throw (AxiosError "Network Error" None),
       {| world := {| clock := clock w; tokenEndpoint := tokenEndpoint w;
                      apiServer := []; wire := sent |};
          manager := manager s |})
  | r :: rest =>
      let s' :=
        {| world := {| clock := clock w + http_latency r;
                       tokenEndpoint := tokenEndpoint w;
                       apiServer := rest; wire := sent |};
           manager := manager s |} in
      match r with
      | Responded _ st body =>
          if (200 <=? st) && (st <? 300)
          then (Ok {| status := st; data := body |}, s')
          else (Throw (AxiosError
                         ("Request failed with status code " +++ show_Z st)
                         (Some (st, body))), s')
      | Unreachable _ message => (Throw (AxiosError message None), s')
      end
  end.

(** [errorData && typeof errorData === 'object'], read as an [ApiError]. *)
Definition as_error_object (d : option Payload) : option ApiError :=
  match d with
  | Some (PError b) => Some b
  | Some (PSubscriptions _) | Some (PJournalEntry _) =>
      Some {| ae_message := None; ae_correlationId := None;
              ae_category := None |}
  | Some PNothing | Some (PText _) | None => None
  end.

(** [createApiError] *)
Definition createApiError (error : Exn) : Exn :=
  match as_error_object (response_data error) with
  | Some errorData =>
      ApiClientError
        ("API Error: " +++ or_else (ae_message errorData) "Unknown error")
        (response_status error)
        (ae_correlationId errorData) (ae_category errorData)
  | None =>
      ApiClientError ("HTTP Error: " +++ exn_message error)
                     (response_status error) None None
  end.

(** [this.axiosInstance(request)]: request interceptor, transport, response
    interceptor.  Axios chains the three as promise handlers, so a rejection
    of the request interceptor reaches the response interceptor's error
    handler too.  The retry in that handler calls the instance itself and so
    runs through both interceptors again; [return this.axiosInstance(...)]
    is not awaited, hence its rejection is not caught by the handler's
    [try].  An error that carries a response carries its [config], so
    [if (originalRequest)] holds on the 401 path.  [fuel] bounds the nesting
    of retries. *)
Fixpoint axiosInstance_upto (fuel : nat) (req : Request) : M Sys Response :=
  match fuel with
  | O => throw (Error "retry nesting exceeds the scripted answers")
  | S fuel' =>
      try_catch
        (token <- getAccessToken ;;
         dispatchRequest (with_bearer token req))
        (fun error =>
           if is_number (response_status error) 401 then
             token <- try_catch (refreshToken ;;; getAccessToken)
                                (fun _ => throw (createApiError error)) ;;
             axiosInstance_upto fuel' (with_bearer token req)
           else throw (createApiError error))
  end.

(** Every nested retry follows a consumed 401 answer, so one more level than
    there are scripted answers is enough. *)
Definition axiosInstance (req : Request) : M Sys Response := fun s =>
  axiosInstance_upto (S (List.length (apiServer (world s)))) req s.

Definition request (m : Method) (e : Endpoint) : Request :=
  {| method := m; endpoint := e; authorization := None |}.

(** [get]: a 204 is thrown as a typed error; the [catch] only logs. *)
Definition get (e : Endpoint) : M Sys Payload :=
  try_catch
    (response <- axiosInstance (request GET e) ;;
     if status response =? 204
     then throw (ApiClientError "No content available" (Some 204) None None)
     else ret (data response))
    (fun error => throw error).

(** [post], [put], [delete]: the [catch] only logs. *)
Definition post (e : Endpoint) : M Sys Payload :=
  try_catch (response <- axiosInstance (request POST e) ;;
             ret (data response))
            (fun error => throw error).

Definition put (e : Endpoint) : M Sys Payload :=
  try_catch (response <- axiosInstance (request PUT e) ;;
             ret (data response))
            (fun error => throw error).

Definition delete (e : Endpoint) : M Sys Payload :=
  try_catch (response <- axiosInstance (request DELETE e) ;;
             ret (data response))
            (fun error => throw error).

End ApiClient.

(** ** The gateway and the blob store as the resource clients see them *)

Module Remote.
Import Wire.

(** Outcome of one awaited gateway call ([apiClient.get], [.delete], ...):
    the value its promise resolves to or the exception it rejects with, and
    the time the call took. *)
Record Exchange := {
  took : Z;
  outcome : Result Payload
}.

(** Outcome of one unauthenticated download from a signed URL. *)
Inductive BlobOutcome :=
| BlobOk (d : JournalData)
| BlobRejected (status : option Z) (message : string)
| BlobCrashed (cause : Exn).

Record BlobExchange := {
  blob_took : Z;
  blob_outcome : BlobOutcome
}.

(** Status texts of the cursor loop:
    - [GettingInitialEntry]: "Getting initial latest journal entry..."
    - [StartingFromOffset p]: "Starting stream from offset: p..."
    - [RateLimitReached n]: "Rate limit reached, waiting ns..."
    - [StreamingStopped]: "Streaming stopped" *)
Inductive Status :=
| GettingInitialEntry
| StartingFromOffset (prefix : string)
| RateLimitReached (seconds : Z)
| StreamingStopped.

(** What an observer of the client sees, in order. *)
Inductive Event :=
| ApiCall (at_ms : Z) (m : Method) (e : Endpoint)
| BlobCall (at_ms : Z) (link : option string)
| EntryDelivered (e : JournalEntryWithData)
| ErrorReported (message : string)
| StatusUpdate (s : Status)
| Slept (ms : Z).

Record Net := {
  clock : Z;
  api : list Exchange;
  blobs : list BlobExchange;
  log : list Event
}.

Definition record (e : Event) : M Net unit :=
  modify (fun n => {| clock := clock n; api := api n; blobs := blobs n;
                      log := log n ++ [e] |}).

(** One awaited gateway call.  An exhausted script is an unreachable server,
    which the gateway reports as an [ApiClientError] without status. *)
Definition call (m : Method) (e : Endpoint) : M Net Payload := fun n =>
  let seen := log n ++ [ApiCall (clock n) m e] in
  match api n with
  | [] =>
      (Throw (ApiClientError "HTTP Error: Network Error" None None None),
       {| clock := clock n; api := []; blobs := blobs n; log := seen |})
  | x :: rest =>
      (outcome x,
       {| clock := clock n + took x; api := rest; blobs := blobs n;
          log := seen |})
  end.

(** [axios.get(url, ...)] on a signed URL. *)
Definition fetch (link : option string) : M Net BlobOutcome := fun n =>
  let seen := log n ++ [BlobCall (clock n) link] in
  match blobs n with
  | [] =>
      (Ok (BlobRejected None "Network Error"),
       {| clock := clock n; api := api n; blobs := []; log := seen |})
  | x :: rest =>
      (Ok (blob_outcome x),
       {| clock := clock n + blob_took x; api := api n; blobs := rest;
          log := seen |})
  end.

(** The gateway calls among the observed events, without their times. *)
Fixpoint requests (l : list Event) : list (Method * Endpoint) :=
  match l with
  | [] => []
  | ApiCall _ m e :: rest => (m, e) :: requests rest
  | _ :: rest => requests rest
  end.

(** The entries handed to [onNewEntry], in order. *)
Fixpoint deliveries (l : list Event) : list JournalEntryWithData :=
  match l with
  | [] => []
  | EntryDelivered e :: rest => e :: deliveries rest
  | _ :: rest => deliveries rest
  end.

(** The messages handed to [onError], in order. *)
Fixpoint reports (l : list Event) : list string :=
  match l with
  | [] => []
  | ErrorReported m :: rest => m :: reports rest
  | _ :: rest => reports rest
  end.

(** [await new Promise(resolve => setTimeout(resolve, ms))] *)
Definition sleep (ms : Z) : M Net unit := fun n =>
  (Ok tt,
   {| clock := clock n + Z.max 0 ms; api := api n; blobs := blobs n;
      log := log n ++ [Slept ms] |}).

End Remote.

(** ** Subscriptions client: [utils/subscriptions-api.ts] *)

Module SubscriptionsApi.
Import Wire Remote.

(** [response.results] *)
Definition results_of (response : Payload) : option (list Subscription) :=
  match response with
  | PSubscriptions l => Some l
  | _ => None
  end.

(** [getSubscriptions] *)
Definition getSubscriptions : M Net (option (list Subscription)) :=
  response <- call GET Subscriptions ;;
  ret (results_of response).

(** [deleteSubscription] *)
Definition deleteSubscription (subscriptionId : Z) : M Net unit :=
  call DELETE (SubscriptionById subscriptionId) ;;; ret tt.

(** The [for ... of] loop of the fallback: each deletion in its own [try],
    whose [catch] only logs. *)
Fixpoint delete_each (l : list Subscription) : M Net unit :=
  match l with
  | [] => ret tt
  | subscription :: rest =>
      try_catch (deleteSubscription (id subscription)) (fun _ => ret tt) ;;;
      delete_each rest
  end.

(** [deletePortalSubscriptionsIndividually] *)
Definition deletePortalSubscriptionsIndividually (portal : Z)
  : M Net unit :=
  subscriptions <- getSubscriptions ;;
  match subscriptions with
  | None =>
      throw (TypeError
               "Cannot read properties of undefined (reading 'filter')")
  | Some subs =>
      let portalSubscriptions :=
        filter (fun sub => portalId sub =? portal) subs in
      if (Z.of_nat (List.length portalSubscriptions) =? 0) then ret tt
      else delete_each portalSubscriptions
  end.

(** [deletePortalSubscriptions] *)
Definition deletePortalSubscriptions (portal : Z) : M Net unit :=
  try_catch
    (call DELETE (SubscriptionsOfPortal portal) ;;; ret tt)
    (fun error =>
       if is_number (exn_statusCode error) 500
       then deletePortalSubscriptionsIndividually portal
       else throw error).

End SubscriptionsApi.

(** ** Journal client and cursor loop: [utils/journal-api.ts] *)

Module JournalApi.
Import Wire Remote.

(** [entry.url] and the entry itself, read off an untyped body. *)
Definition as_entry (p : Payload) : option JournalEntry :=
  match p with
  | PJournalEntry e => Some e
  | _ => None
  end.

Definition url_of (p : Payload) : option string :=
  match as_entry p with
  | Some e => url e
  | None => None
  end.

(** [downloadJournalData] *)
Definition downloadJournalData (link : option string) : M Net JournalData :=
  r <- fetch link ;;
  match r with
  | BlobOk d => ret d
  | BlobRejected st message =>
      if is_number st 404 then
        throw (Error "Journal data file not found - the URL may have expired")
      else if is_number st 403 then
        throw (Error
          "Access denied to journal data file - the URL may have expired")
      else throw (Error ("Failed to download journal data: " +++ message))
  | BlobCrashed cause =>
      throw (Error ("Unexpected error downloading journal data: "
                    +++ toString cause))
  end.

(** [getEarliestJournalEntry]: the fields of the body, if it is an entry,
    and the downloaded data. *)
Definition getEarliestJournalEntry
  : M Net (option JournalEntry * JournalData) :=
  e <- call GET JournalEarliest ;;
  d <- downloadJournalData (url_of e) ;;
  ret (as_entry e, d).

(** [getLatestJournalEntry] *)
Definition getLatestJournalEntry
  : M Net (option JournalEntry * JournalData) :=
  e <- call GET JournalLatest ;;
  d <- downloadJournalData (url_of e) ;;
  ret (as_entry e, d).

(** [error instanceof ApiClientError && error.statusCode === 204] *)
Definition is204 (error : Exn) : bool :=
  match error with
  | ApiClientError _ sc _ _ => is_number sc 204
  | _ => false
  end.

Definition alreadyLatest : Exn :=
  ApiClientError "You are already on the latest offset" (Some 204) None None.

(** [getNextJournalEntry] *)
Definition getNextJournalEntry (after : string)
  : M Net JournalEntryWithData :=
  try_catch
    (body <- call GET (JournalNext after) ;;
     match as_entry body with
     | Some e =>
         if negb (truthy_string (url e)) then throw alreadyLatest
         else
           d <- downloadJournalData (url e) ;;
           ret {| entry := e; data := d |}
     | None => throw alreadyLatest
     end)
    (fun error =>
       if is204 error then throw alreadyLatest else throw error).

(** The three callbacks of [streamJournalEntries].  A callback is consumer
    code: all the loop sees of it is whether it returns or throws. *)
Record Consumer := {
  onNewEntry : JournalEntryWithData -> option Exn;
  onError : string -> option Exn;
  onStatusUpdate : Status -> option Exn
}.

(** The local variables of [streamJournalEntries] and the world. *)
Record Stream := {
  isRunning : bool;
  lastOffset : option string;
  requestCount : Z;
  lastMinuteTimestamp : Z;
  net : Net
}.

Definition MAX_REQUESTS_PER_MINUTE : Z := 30.
Definition POLL_INTERVAL_MS : Z := 2000.

Definition on_net {A} (c : M Net A) : M Stream A :=
  zoom net
       (fun n s => {| isRunning := isRunning s; lastOffset := lastOffset s;
                      requestCount := requestCount s;
                      lastMinuteTimestamp := lastMinuteTimestamp s;
                      net := n |})
       c.

Definition date_now : M Stream Z := gets (fun s => clock (net s)).

Definition set_lastOffset (o : option string) : M Stream unit :=
  modify (fun s => {| isRunning := isRunning s; lastOffset := o;
                      requestCount := requestCount s;
                      lastMinuteTimestamp := lastMinuteTimestamp s;
                      net := net s |}).


(** [resetRateLimit], as a function of the variables it assigns. *)
Definition reset (s : Stream) : Stream :=
  if clock (net s) - lastMinuteTimestamp s >=? 60000 then
    {| isRunning := isRunning s; lastOffset := lastOffset s;
       requestCount := 0; lastMinuteTimestamp := clock (net s);
       net := net s |}
  else s.

Definition resetRateLimit : M Stream unit := modify reset.

(** [checkRateLimit] *)
Definition checkRateLimit : M Stream bool :=
  resetRateLimit ;;;
  gets (fun s => requestCount s <? MAX_REQUESTS_PER_MINUTE).

(** [incrementRequestCount] *)
Definition incrementRequestCount : M Stream unit :=
  modify (fun s => {| isRunning := isRunning s; lastOffset := lastOffset s;
                      requestCount := requestCount s + 1;
                      lastMinuteTimestamp := lastMinuteTimestamp s;
                      net := net s |}).

(** Calls of the callbacks: the call is observed, then it returns or
    throws. *)
Definition returns (r : option Exn) : M Stream unit :=
  match r with
  | Some e => throw e
  | None => ret tt
  end.

Definition call_onNewEntry (c : Consumer) (e : JournalEntryWithData)
  : M Stream unit :=
  on_net (record (EntryDelivered e)) ;;; returns (onNewEntry c e).

(** [onError(new Error(message))] *)
Definition call_onError (c : Consumer) (message : string) : M Stream unit :=
  on_net (record (ErrorReported message)) ;;; returns (onError c message).

Definition call_onStatusUpdate (c : Consumer) (st : Status)
  : M Stream unit :=
  on_net (record (StatusUpdate st)) ;;; returns (onStatusUpdate c st).

(** The local variables as [streamJournalEntries] declares them. *)
Definition fresh_stream (n : Net) : Stream :=
  {| isRunning := true; lastOffset := None; requestCount := 0;
     lastMinuteTimestamp := clock n; net := n |}.

(** The initial fetch; the result tells whether polling is entered.  A body
    that is not an entry has no [currentOffset], and [substring] throws on
    it. *)
Definition establish (c : Consumer) : M Stream bool :=
  try_catch
    (call_onStatusUpdate c GettingInitialEntry ;;;
     initialEntry <- on_net getLatestJournalEntry ;;
     match fst initialEntry with
     | Some e =>
         set_lastOffset (Some (currentOffset e)) ;;;
         incrementRequestCount ;;;
         call_onStatusUpdate c
           (StartingFromOffset (substring 0 8 (currentOffset e))) ;;;
         ret true
     | None =>
         set_lastOffset None ;;;
         incrementRequestCount ;;;
         throw (TypeError
                  "Cannot read properties of undefined (reading 'substring')")
     end)
    (fun error =>
       call_onError c
         ("Failed to get initial journal entry: " +++ toString error) ;;;
       ret false).

(** The request of one iteration: the inner [try]/[catch]. *)
Definition request_next (c : Consumer) (held : string) : M Stream unit :=
  try_catch
    (nextEntry <- on_net (getNextJournalEntry held) ;;
     incrementRequestCount ;;;
     if negb (String.eqb (currentOffset (entry nextEntry)) held) then
       set_lastOffset (Some (currentOffset (entry nextEntry))) ;;;
       call_onNewEntry c nextEntry
     else ret tt)
    (fun error =>
       incrementRequestCount ;;;
       if is204 error then ret tt
       else call_onError c
              ("Error checking for new entries: " +++ toString error)).

(** The body of the [while] loop: the outer [try]/[catch]. *)
Definition poll_once (c : Consumer) : M Stream unit :=
  try_catch
    (allowed <- checkRateLimit ;;
     if negb allowed then
       t <- date_now ;;
       ts <- gets lastMinuteTimestamp ;;
       let waitTime := 60000 - (t - ts) in
       call_onStatusUpdate c (RateLimitReached (ceil_div waitTime 1000)) ;;;
       on_net (sleep waitTime)
     else
       held <- gets lastOffset ;;
       (if truthy_string held
        then request_next c (or_else held "")
        else ret tt) ;;;
       on_net (sleep POLL_INTERVAL_MS))
    (fun error =>
       running <- gets isRunning ;;
       (if running
        then call_onError c ("Streaming error: " +++ toString error)
        else ret tt) ;;;
       on_net (sleep (POLL_INTERVAL_MS * 2))).

(** [pollForNewEntries], observed for [turns] iterations. *)
Fixpoint pollForNewEntries (c : Consumer) (turns : nat) : M Stream unit :=
  match turns with
  | O => ret tt
  | S k =>
      running <- gets isRunning ;;
      if running then poll_once c ;;; pollForNewEntries c k else ret tt
  end.

(** [pollForNewEntries().catch(...)] *)
Definition poll_in_background (c : Consumer) (turns : nat)
  : M Stream unit :=
  try_catch
    (pollForNewEntries c turns)
    (fun error =>
       running <- gets isRunning ;;
       if running
       then call_onError c ("Streaming failed: " +++ toString error)
       else ret tt).

(** [streamJournalEntries], the loop observed for [turns] iterations. *)
Definition streamJournalEntries (c : Consumer) (turns : nat) (n : Net)
  : Result unit * Stream :=
  (entered <- establish c ;;
   if entered then poll_in_background c turns else ret tt)
    (fresh_stream n).


End JournalApi.

(** ** Vocabulary for statements about the cursor loop *)

Module Observed.
Import Wire Remote JournalApi.

(** The two forms in which a gateway call says that no further entry
    exists: a 204, or a body without usable [url]. *)
Definition noFurtherEntry (x : Exchange) : Prop :=
  (exists e, outcome x = Throw e /\ is204 e = true)
  \/ (exists body, outcome x = Ok body /\ truthy_string (url_of body) = false).

(** The times at which gateway calls were issued. *)
Fixpoint call_times (l : list Event) : list Z :=
  match l with
  | [] => []
  | ApiCall t _ _ :: rest => t :: call_times rest
  | _ :: rest => call_times rest
  end.

(** How many of the calls were issued at or after [start]. *)
Definition count_since (start : Z) (times : list Z) : Z :=
  Z.of_nat (List.length (filter (fun t => start <=? t) times)).

(** No exchange takes negative time. *)
Definition punctual (n : Net) : Prop :=
  Forall (fun x => 0 <= took x) (api n)
  /\ Forall (fun b => 0 <= blob_took b) (blobs n).

(** What callbacks and timers leave alone: the loop variables, the pending
    answers and the calls issued; the clock does not go back. *)
Definition quietly (s s' : Stream) : Prop :=
  isRunning s' = isRunning s /\ lastOffset s' = lastOffset s
  /\ requestCount s' = requestCount s
  /\ lastMinuteTimestamp s' = lastMinuteTimestamp s
  /\ api (net s') = api (net s) /\ blobs (net s') = blobs (net s)
  /\ call_times (log (net s')) = call_times (log (net s))
  /\ clock (net s) <= clock (net s').

(** The rate budget as an invariant of the loop: answers are punctual; no
    call lies in the future, and a call at the present instant belongs to
    the current window; the calls issued since the window started number
    at most the counter and at most the ceiling. *)
Definition budgeted (s : Stream) : Prop :=
  punctual (net s)
  /\ (forall t, In t (call_times (log (net s))) ->
                t <= clock (net s)
                /\ (t < clock (net s)
                    \/ clock (net s) - lastMinuteTimestamp s < 60000))
  /\ count_since (lastMinuteTimestamp s) (call_times (log (net s)))
     <= requestCount s
  /\ count_since (lastMinuteTimestamp s) (call_times (log (net s)))
     <= MAX_REQUESTS_PER_MINUTE.

(** [always c R]: whatever [c] returns or throws, its final state is
    related to its initial state by [R]. *)
Definition always {A} (c : M Stream A) (R : Stream -> Stream -> Prop)
  : Prop :=
  forall s, R s (snd (c s)).

End Observed.

(** ** Concrete worlds used to run the definitions *)

Module Samples.

(** A token as the endpoint grants it. *)
Definition token (name : string) (lifetime : Z) : AuthToken :=
  {| access_token := name; token_type := "bearer"; expires_in := lifetime;
     refresh_token := None; scope := None; obtained_at := None |}.

(** A token as the cache holds it. *)
Definition cached (name : string) (lifetime obtained : Z) : AuthToken :=
  {| access_token := name; token_type := "bearer"; expires_in := lifetime;
     refresh_token := None; scope := None; obtained_at := Some obtained |}.

Definition sys (held : option AuthToken) (t : Z)
  (tokens : list Wire.TokenReply) (answers : list Wire.HttpReply)
  : Auth.Sys :=
  {| Auth.world := {| Wire.clock := t; Wire.tokenEndpoint := tokens;
                      Wire.apiServer := answers; Wire.wire := [] |};
     Auth.manager := {| Auth.debug := false; Auth.currentToken := held;
                        Auth.lastTokenLogTime := 0 |} |}.

(** A consumer whose callbacks always return. *)
Definition quiet : JournalApi.Consumer :=
  {| JournalApi.onNewEntry := fun _ => None;
     JournalApi.onError := fun _ => None;
     JournalApi.onStatusUpdate := fun _ => None |}.

Definition entry_at (o : string) : JournalEntry :=
  {| url := Some ("https://blobs.example/" +++ o);
     expiresAt := "2025-01-01T00:05:00Z"; currentOffset := o |}.

Definition data_at (o : string) : JournalData :=
  {| offset := o; journalEvents := [];
     publishedAt := "2025-01-01T00:00:00Z" |}.

(** The gateway's report of a 204 answer. *)
Definition no_content : Remote.Exchange :=
  {| Remote.took := 40;
     Remote.outcome :=
       Throw (ApiClientError "No content available" (Some 204) None None) |}.

(** The gateway's report of a failing answer with the given status. *)
Definition failure (st : Z) : Remote.Exchange :=
  {| Remote.took := 40;
     Remote.outcome :=
       Throw (ApiClientError "API Error: boom" (Some st) None None) |}.

Definition done : Remote.Exchange :=
  {| Remote.took := 40; Remote.outcome := Ok PNothing |}.

Definition entry_reply (o : string) : Remote.Exchange :=
  {| Remote.took := 60; Remote.outcome := Ok (PJournalEntry (entry_at o)) |}.

Definition blob_reply (o : string) : Remote.BlobExchange :=
  {| Remote.blob_took := 25;
     Remote.blob_outcome := Remote.BlobOk (data_at o) |}.

Definition net (t : Z) (answers : list Remote.Exchange)
  (downloads : list Remote.BlobExchange) : Remote.Net :=
  {| Remote.clock := t; Remote.api := answers; Remote.blobs := downloads;
     Remote.log := [] |}.

(** The loop variables while polling. *)
Definition polling (held : string) (count windowStart : Z)
  (n : Remote.Net) : JournalApi.Stream :=
  {| JournalApi.isRunning := true; JournalApi.lastOffset := Some held;
     JournalApi.requestCount := count;
     JournalApi.lastMinuteTimestamp := windowStart;
     JournalApi.net := n |}.

Definition subscription (i portal : Z) : Subscription :=
  {| id := i; appId := 1; subscriptionType := OBJECT;
     objectTypeId := "0-1"; portalId := portal;
     actions := ["CREATE"; "UPDATE"] |}.

End Samples.

(** ** Token information: [getTokenInfo] of [utils/auth.ts] *)

Module AuthInfo.
Import Wire Auth.

Record TokenInfo := {
  hasToken : bool;
  isExpired : bool;
  expiresIn : option Z
}.

(** [getTokenInfo]: [expiresIn] is
    [Math.max(0, Math.floor((expirationTime - now) / 1000))] when the token
    has a truthy [obtained_at], and undefined otherwise. *)
Definition getTokenInfo (s : Sys) : TokenInfo :=
  match currentToken (manager s) with
  | None => {| hasToken := false; isExpired := true; expiresIn := None |}
  | Some token =>
      {| hasToken := true;
         isExpired := isTokenExpired (clock (world s)) token;
         expiresIn :=
           if truthy_number (obtained_at token) then
             let expirationTime :=
               match obtained_at token with Some t => t | None => 0 end
               + expires_in token * 1000 in
             Some (Z.max 0 ((expirationTime - clock (world s)) / 1000))
           else None |}
  end.

(** The token as [fetchAccessToken] stamps it. *)
Definition stamped (granted : AuthToken) (t : Z) : AuthToken :=
  {| access_token := access_token granted;
     token_type := token_type granted;
     expires_in := expires_in granted;
     refresh_token := refresh_token granted;
     scope := scope granted;
     obtained_at := Some t |}.

End AuthInfo.

(** ** What the transport makes of one answer *)

Module GatewayView.
Import Wire ApiClient.

(** The result of [dispatchRequest] on the answer [r]. *)
Definition answer (r : HttpReply) : Result Response :=
  match r with
  | Responded _ st body =>
      if (200 <=? st) && (st <? 300)
      then Ok {| status := st; data := body |}
      else Throw (AxiosError
                    ("Request failed with status code " +++ show_Z st)
                    (Some (st, body)))
  | Unreachable _ message => Throw (AxiosError message None)
  end.

(** The token endpoint will not grant a token at the next exchange. *)
Definition refuses (l : list TokenReply) : bool :=
  match l with
  | TokenGranted _ _ :: _ => false
  | _ => true
  end.

End GatewayView.

(** ** More vocabulary for statements about the journal client *)

Module LoopView.
Import Wire Remote JournalApi.

(** The links of the downloads among the observed events. *)
Fixpoint downloads (l : list Event) : list (option string) :=
  match l with
  | [] => []
  | BlobCall _ link :: rest => link :: downloads rest
  | _ :: rest => downloads rest
  end.

(** The delays of the timers among the observed events. *)
Fixpoint sleeps (l : list Event) : list Z :=
  match l with
  | [] => []
  | Slept ms :: rest => ms :: sleeps rest
  | _ :: rest => sleeps rest
  end.

(** The download that follows a gateway answer to a next-entry request. *)
Definition download_for (answers : list Exchange) : list (option string) :=
  match answers with
  | x :: _ =>
      match outcome x with
      | Ok (PJournalEntry e) => if truthy_string (url e) then [url e] else []
      | _ => []
      end
  | [] => []
  end.

(** A consumer whose callbacks always return. *)
Definition returning (c : Consumer) : Prop :=
  (forall e, onNewEntry c e = None)
  /\ (forall m, onError c m = None)
  /\ (forall st, onStatusUpdate c st = None).

(** [follows s s']: between [s] and [s'] entries were handed to
    [onNewEntry], and the held offset of [s'] is the offset of the last of
    them, or the held offset of [s] when there was none. *)
Definition follows (s s' : Stream) : Prop :=
  exists es,
    deliveries (log (net s')) = deliveries (log (net s)) ++ es
    /\ lastOffset s'
       = match rev es with
         | e :: _ => Some (currentOffset (entry e))
         | [] => lastOffset s
         end.

(** The delay of the timer of an iteration that finds the loop variables
    as [s] has them: the poll interval when the rate check passes, the rest
    of the window when it does not. *)
Definition pause (s : Stream) : Z :=
  if requestCount (reset s) <? MAX_REQUESTS_PER_MINUTE then POLL_INTERVAL_MS
  else 60000 - (clock (net (reset s)) - lastMinuteTimestamp (reset s)).

(** What an iteration does between the rate check and its timer: the
    request when the check passes and an offset is held, nothing when none
    is held, the announcement of the wait when the check fails. *)
Definition attempt (c : Consumer) (s : Stream) : M Stream unit :=
  if requestCount (reset s) <? MAX_REQUESTS_PER_MINUTE then
    if truthy_string (lastOffset s)
    then request_next c (or_else (lastOffset s) "")
    else ret tt
  else call_onStatusUpdate c (RateLimitReached (ceil_div (pause s) 1000)).

(** The outer [catch] of an iteration. *)
Definition recover (c : Consumer) (error : Exn) : M Stream unit :=
  running <- gets isRunning ;;
  (if running
   then call_onError c ("Streaming error: " +++ toString error)
   else ret tt) ;;;
  on_net (sleep (POLL_INTERVAL_MS * 2)).

(** The request an iteration sends, if any. *)
Definition request_of (s : Stream) : list (Method * Endpoint) :=
  if (requestCount (reset s) <? MAX_REQUESTS_PER_MINUTE)
     && truthy_string (lastOffset s)
  then [(GET, JournalNext (or_else (lastOffset s) ""))]
  else [].

(** What callbacks, timers and the rate check leave alone besides the loop
    variables: the held offset, the traffic and the entries delivered. *)
Definition offline (s s' : Stream) : Prop :=
  lastOffset s' = lastOffset s
  /\ requests (log (net s')) = requests (log (net s))
  /\ downloads (log (net s')) = downloads (log (net s))
  /\ deliveries (log (net s')) = deliveries (log (net s)).

(** The messages that the inner [catch] of an iteration hands to
    [onError]. *)
Definition about_request (message : string) : bool :=
  String.prefix "Error checking for new entries: " message.

(** The message of the error thrown for a rejected download. *)
Definition download_failure (st : option Z) (message : string) : string :=
  if is_number st 404 then
    "Journal data file not found - the URL may have expired"
  else if is_number st 403 then
    "Access denied to journal data file - the URL may have expired"
  else "Failed to download journal data: " +++ message.

End LoopView.

(** ** The stop function called while the loop waits *)

Module Stopping.
Import Wire Remote JournalApi.







End Stopping.

(** ** Configuration: [utils/config.ts] *)

Module Config.






(** [process.env.X!]: the value of a variable that has been checked. *)
Definition checked (v : option string) : string :=
  match v with
  | Some x => x
  | None => EmptyString
  end.

Section Load.

(** Whether [new URL(s)] returns rather than throws. *)
Variable parses_as_url : string -> bool.


End Load.

End Config.

(* ===================================================================== *)
(** * Properties *)
(* ===================================================================== *)



(** ** Credential cache *)

Section CredentialCache.
Import Wire Auth.

Lemma isTokenExpired_dated now token t :
  obtained_at token = Some t -> t <> 0 ->
  isTokenExpired now token = (now >=? t + expires_in token * 1000 - 300000).
Proof.
  intros Ht Hnz. unfold isTokenExpired. rewrite Ht. cbn [truthy_number].
  destruct (Z.eqb_spec t 0) as [E|E]; [contradiction|]. reflexivity.
Qed.

Lemma isTokenExpired_undated now token :
  truthy_number (obtained_at token) = false -> isTokenExpired now token = true.
Proof. intros H. unfold isTokenExpired. now rewrite H. Qed.

(** Every token that [fetchAccessToken] returns carries the time of its
    arrival as its timestamp. *)
Lemma fetchAccessToken_dates s token s' :
  fetchAccessToken s = (Ok token, s') ->
  obtained_at token = Some (clock (world s')).
Proof.
  unfold fetchAccessToken, bind, post_token.
  destruct (tokenEndpoint (world s)) as [|r rest]; cbn; [discriminate|].
  destruct r as [lat data|lat message [errorData|]|lat cause]; cbn;
    intros [= <- <-] || discriminate.
  reflexivity.
Qed.

(** C8.  For every token with an obtained-at timestamp, [isTokenExpired]
    holds exactly when [now >= obtainedAt + expiresIn*1000 - 5*60*1000].
    With [expiresIn = 300] the threshold is [obtainedAt] itself: the token
    is expired one millisecond after it was obtained (and at that very
    instant), and is not expired one second before either point.  The
    timestamps are those the code writes: [fetchAccessToken] dates every
    token with the time of its arrival, the only place where a timestamp is
    set, so every token the manager ever tests obeys the formula; the
    instant 0 of the clock, which the test on the timestamp takes for a
    missing one, is the one value set apart. *)
Theorem isTokenExpired_formula :
  (forall now token t,
     obtained_at token = Some t -> t <> 0 ->
     (isTokenExpired now token = true
      <-> now >= t + expires_in token * 1000 - 5 * 60 * 1000)
     /\ (expires_in token = 300 ->
         isTokenExpired (t + 1) token = true
         /\ isTokenExpired t token = true
         /\ isTokenExpired (t + 1 - 1000) token = false
         /\ isTokenExpired (t - 1000) token = false))
  /\ (forall s token s',
        fetchAccessToken s = (Ok token, s') ->
        clock (world s') <> 0 ->
        obtained_at token = Some (clock (world s'))
        /\ forall now,
             isTokenExpired now token = true
             <-> now >= clock (world s') + expires_in token * 1000
                        - 5 * 60 * 1000).
Proof.
  split.
  - intros now token t Ht Hnz. split.
    + rewrite (isTokenExpired_dated now token t Ht Hnz).
      rewrite Z.geb_le. lia.
    + intros H300.
      rewrite !(isTokenExpired_dated _ token t Ht Hnz), H300.
      repeat split.
      * apply Z.geb_le. lia.
      * apply Z.geb_le. lia.
      * destruct (Z.geb_spec (t + 1 - 1000) (t + 300 * 1000 - 300000));
          [lia | reflexivity].
      * destruct (Z.geb_spec (t - 1000) (t + 300 * 1000 - 300000));
          [lia | reflexivity].
  - intros s token s' Hf Hnz.
    pose proof (fetchAccessToken_dates s token s' Hf) as Ht.
    split; [exact Ht|]. intros now.
    rewrite (isTokenExpired_dated now token _ Ht Hnz).
    rewrite Z.geb_le. lia.
Qed.

Lemma isTokenExpired_formula_witness :
  (Auth.isTokenExpired 70000 (Samples.cached "tok" 300 69999) = true
   <-> 70000 >= 69999 + 300 * 1000 - 5 * 60 * 1000)
  /\ Auth.isTokenExpired 68999 (Samples.cached "tok" 300 69999) = false
  /\ (let s := Samples.sys None 69000
                 [TokenGranted 999 (Samples.token "tok" 300)] [] in
      forall now,
        Auth.isTokenExpired now (Samples.cached "tok" 300 69999) = true
        <-> now >= clock (world (snd (fetchAccessToken s))) + 300 * 1000
                   - 5 * 60 * 1000).
Proof.
  destruct isTokenExpired_formula as [Hany Hdated].
  destruct (Hany 70000 (Samples.cached "tok" 300 69999) 69999 eq_refl
              ltac:(discriminate)) as [Hiff Hb].
  split; [exact Hiff|].
  split; [destruct (Hb eq_refl) as (_ & _ & _ & H); exact H|].
  intros s.
  destruct (Hdated s (Samples.cached "tok" 300 69999)
              (snd (fetchAccessToken s)) eq_refl ltac:(discriminate))
    as [_ H].
  exact H.
Defined.

(** The test on the timestamp is one of truthiness: at the instant 0 of the
    clock a timestamp would count as missing.  No token is dated so unless
    it arrives at that very instant. *)
Remark isTokenExpired_epoch_timestamp :
  let token := Samples.cached "tok" 1800 0 in
  obtained_at token = Some 0
  /\ Auth.isTokenExpired 1000 token = true
  /\ ~ (1000 >= 0 + expires_in token * 1000 - 5 * 60 * 1000).
Proof. cbn. repeat split. lia. Qed.

Lemma getAccessToken_serves_cache s token :
  currentToken (manager s) = Some token ->
  isTokenExpired (clock (world s)) token = false ->
  fst (getAccessToken s) = Ok (access_token token)
  /\ world (snd (getAccessToken s)) = world s
  /\ currentToken (manager (snd (getAccessToken s))) = Some token.
Proof.
  intros Hc He. unfold getAccessToken. rewrite Hc, He. cbn.
  destruct (debug (manager s) && _); cbn; auto.
Qed.

Lemma fetchAccessToken_wire s :
  wire (world (snd (fetchAccessToken s)))
  = wire (world s) ++ [TokenExchange (clock (world s))].
Proof.
  unfold fetchAccessToken, bind, post_token.
  destruct (tokenEndpoint (world s)) as [|r rest]; cbn; [reflexivity|].
  destruct r as [d data|d m [b|]|d c]; reflexivity.
Qed.

Lemma refreshToken_wire s :
  wire (world (snd (refreshToken s)))
  = wire (world s) ++ [TokenExchange (clock (world s))].
Proof.
  unfold refreshToken, bind.
  pose proof (fetchAccessToken_wire s) as H.
  destruct (fetchAccessToken s) as [[tok|e] s']; cbn in *; exact H.
Qed.

Lemma getAccessToken_wire s :
  wire (world (snd (getAccessToken s)))
  = wire (world s)
    ++ (if hasValidToken s then [] else [TokenExchange (clock (world s))]).
Proof.
  unfold hasValidToken.
  destruct (currentToken (manager s)) as [token|] eqn:Hc.
  - destruct (isTokenExpired (clock (world s)) token) eqn:He; cbn [negb].
    + unfold getAccessToken. rewrite Hc, He. cbn [negb].
      apply refreshToken_wire.
    + destruct (getAccessToken_serves_cache s token Hc He) as (_ & Hw & _).
      rewrite Hw, app_nil_r. reflexivity.
  - unfold getAccessToken. rewrite Hc. apply refreshToken_wire.
Qed.

(** C9.  With a cached token that is not expired now nor [d] milliseconds
    later, two successive calls of [getAccessToken] both return that token's
    [access_token], nothing is sent to the token endpoint and the cache
    still holds the token.  For every state, [getAccessToken] performs an
    exchange exactly when no token is cached or the cached one is
    expired. *)
Theorem getAccessToken_twice s token d :
  currentToken (manager s) = Some token ->
  isTokenExpired (clock (world s)) token = false ->
  isTokenExpired (clock (world s) + d) token = false ->
  let first := getAccessToken s in
  let second := (elapse d ;;; getAccessToken) (snd first) in
  fst first = Ok (access_token token)
  /\ fst second = Ok (access_token token)
  /\ wire (world (snd second)) = wire (world s)
  /\ tokenEndpoint (world (snd second)) = tokenEndpoint (world s)
  /\ currentToken (manager (snd second)) = Some token
  /\ (forall s0,
        wire (world (snd (getAccessToken s0)))
        = wire (world s0)
          ++ (if hasValidToken s0 then []
              else [TokenExchange (clock (world s0))])).
Proof.
  intros Hc He1 He2 first second.
  destruct (getAccessToken_serves_cache s token Hc He1) as (Hr1 & Hw1 & Hc1).
  fold first in Hr1, Hw1, Hc1.
  set (s1 := snd first) in *.
  set (s1' := snd (elapse d s1)).
  assert (Hc1' : currentToken (manager s1') = Some token) by exact Hc1.
  assert (Hk : clock (world s1') = clock (world s) + d)
    by (cbn; rewrite Hw1; reflexivity).
  assert (He2' : isTokenExpired (clock (world s1')) token = false)
    by (rewrite Hk; exact He2).
  destruct (getAccessToken_serves_cache s1' token Hc1' He2')
    as (Hr2 & Hw2 & Hc2).
  assert (Hsecond : second = getAccessToken s1') by reflexivity.
  rewrite Hsecond, Hw2.
  repeat split; try assumption.
  - cbn. rewrite Hw1. reflexivity.
  - cbn. rewrite Hw1. reflexivity.
  - exact getAccessToken_wire.
Qed.

Lemma getAccessToken_twice_witness :
  let s := Samples.sys (Some (Samples.cached "tok" 1800 1000)) 2000 [] [] in
  fst (Auth.getAccessToken s) = Ok "tok"
  /\ fst ((Auth.elapse 5000 ;;; Auth.getAccessToken)
            (snd (Auth.getAccessToken s))) = Ok "tok"
  /\ Wire.wire (Auth.world
       (snd ((Auth.elapse 5000 ;;; Auth.getAccessToken)
               (snd (Auth.getAccessToken s))))) = [].
Proof.
  intros s.
  destruct (getAccessToken_twice s (Samples.cached "tok" 1800 1000) 5000
              eq_refl eq_refl eq_refl) as (H1 & H2 & H3 & _).
  repeat split; assumption.
Defined.

(** C10.  A cached token without obtained-at timestamp is expired at every
    instant, so [getAccessToken] does what a forced refresh does: it sends
    one exchange to the token endpoint and, when the endpoint grants a
    token, returns and caches that one, stamped with the time of its
    arrival.  A token is found unexpired only if it carries a timestamp. *)
Theorem getAccessToken_undated s token :
  currentToken (manager s) = Some token ->
  obtained_at token = None ->
  (forall t, isTokenExpired t token = true)
  /\ getAccessToken s = refreshToken s
  /\ wire (world (snd (getAccessToken s)))
     = wire (world s) ++ [TokenExchange (clock (world s))]
  /\ (forall d granted rest,
        tokenEndpoint (world s) = TokenGranted d granted :: rest ->
        fst (getAccessToken s) = Ok (access_token granted)
        /\ currentToken (manager (snd (getAccessToken s)))
           = Some {| access_token := access_token granted;
                     token_type := token_type granted;
                     expires_in := expires_in granted;
                     refresh_token := refresh_token granted;
                     scope := scope granted;
                     obtained_at := Some (clock (world s) + d) |})
  /\ (forall t other,
        isTokenExpired t other = false ->
        exists stamp, obtained_at other = Some stamp /\ stamp <> 0).
Proof.
  intros Hc Hu.
  assert (Hexp : forall t, isTokenExpired t token = true).
  { intros t. apply isTokenExpired_undated. now rewrite Hu. }
  assert (Hsame : getAccessToken s = refreshToken s).
  { unfold getAccessToken. rewrite Hc, Hexp. reflexivity. }
  split; [exact Hexp|]. split; [exact Hsame|]. split; [|split].
  - rewrite Hsame. apply refreshToken_wire.
  - intros d granted rest Hep. rewrite Hsame.
    unfold refreshToken, fetchAccessToken, bind, post_token.
    rewrite Hep. cbn. split; reflexivity.
  - intros t other Hne. unfold isTokenExpired in Hne.
    destruct (obtained_at other) as [stamp|]; cbn in Hne; [|discriminate].
    exists stamp. split; [reflexivity|].
    intros ->. cbn in Hne. discriminate.
Qed.

Lemma getAccessToken_undated_witness :
  let s := Samples.sys (Some (Samples.token "stale" 1800)) 2000
             [Wire.TokenGranted 7 (Samples.token "fresh" 1800)] [] in
  fst (Auth.getAccessToken s) = Ok "fresh"
  /\ Wire.wire (Auth.world (snd (Auth.getAccessToken s)))
     = [Wire.TokenExchange 2000].
Proof.
  intros s.
  destruct (getAccessToken_undated s (Samples.token "stale" 1800)
              eq_refl eq_refl) as (_ & _ & Hw & Hg & _).
  split; [|exact Hw].
  exact (proj1 (Hg 7 (Samples.token "fresh" 1800) [] eq_refl)).
Defined.

End CredentialCache.

(** ** HTTP gateway *)

Section Gateway.
Import Wire Auth ApiClient.

Lemma fetchAccessToken_apiServer s :
  apiServer (world (snd (fetchAccessToken s))) = apiServer (world s).
Proof.
  unfold fetchAccessToken, bind, post_token.
  destruct (tokenEndpoint (world s)) as [|r rest]; cbn; [reflexivity|].
  destruct r as [d data|d m [b|]|d c]; reflexivity.
Qed.

Lemma fetchAccessToken_throws s e :
  fst (fetchAccessToken s) = Throw e -> response_status e = None.
Proof.
  unfold fetchAccessToken, bind, post_token.
  destruct (tokenEndpoint (world s)) as [|r rest]; cbn.
  - intros [= <-]. reflexivity.
  - destruct r as [d data|d m [b|]|d c]; cbn; intros [= <-]; reflexivity.
Qed.

Lemma refreshToken_apiServer s :
  apiServer (world (snd (refreshToken s))) = apiServer (world s).
Proof.
  unfold refreshToken, bind.
  pose proof (fetchAccessToken_apiServer s) as H.
  destruct (fetchAccessToken s) as [[tok|e] s']; cbn in *; exact H.
Qed.

Lemma refreshToken_throws s e :
  fst (refreshToken s) = Throw e -> response_status e = None.
Proof.
  unfold refreshToken, bind.
  pose proof (fetchAccessToken_throws s) as H.
  destruct (fetchAccessToken s) as [[tok|e'] s']; cbn in *.
  - discriminate.
  - intros [= <-]. now apply H.
Qed.

Lemma getAccessToken_apiServer s :
  apiServer (world (snd (getAccessToken s))) = apiServer (world s).
Proof.
  unfold getAccessToken.
  destruct (currentToken (manager s)) as [token|];
    [destruct (isTokenExpired (clock (world s)) token); cbn [negb]|];
    try apply refreshToken_apiServer.
  cbn. destruct (debug (manager s) && _); reflexivity.
Qed.

Lemma getAccessToken_throws s e :
  fst (getAccessToken s) = Throw e -> response_status e = None.
Proof.
  unfold getAccessToken.
  destruct (currentToken (manager s)) as [token|];
    [destruct (isTokenExpired (clock (world s)) token); cbn [negb]|];
    try apply refreshToken_throws.
  cbn. destruct (debug (manager s) && _); discriminate.
Qed.

(** A 401 from the transport has consumed one scripted answer. *)
Lemma dispatchRequest_401 req s e :
  fst (dispatchRequest req s) = Throw e ->
  is_number (response_status e) 401 = true ->
  S (List.length (apiServer (world (snd (dispatchRequest req s)))))
  = List.length (apiServer (world s)).
Proof.
  unfold dispatchRequest.
  destruct (apiServer (world s)) as [|r rest]; cbn.
  - intros [= <-]. discriminate.
  - destruct r as [d st body|d m]; cbn.
    + destruct ((200 <=? st) && (st <? 300)); cbn; [discriminate|].
      reflexivity.
    + intros [= <-]. discriminate.
Qed.

(** More nesting than scripted answers changes nothing: the bound in
    [axiosInstance] is never reached. *)
Lemma axiosInstance_upto_enough fuel :
  forall req s,
    (List.length (apiServer (world s)) < fuel)%nat ->
    axiosInstance_upto fuel req s = axiosInstance_upto (S fuel) req s.
Proof.
  induction fuel as [|f IH]; intros req s Hlen; [lia|].
  change (axiosInstance_upto (S (S f)) req s)
    with (try_catch
            (token <- getAccessToken ;;
             dispatchRequest (with_bearer token req))
            (fun error =>
               if is_number (response_status error) 401 then
                 token <- try_catch (refreshToken ;;; getAccessToken)
                            (fun _ => throw (createApiError error)) ;;
                 axiosInstance_upto (S f) (with_bearer token req)
               else throw (createApiError error)) s).
  cbn [axiosInstance_upto]. unfold try_catch, bind.
  pose proof (getAccessToken_apiServer s) as Hg.
  pose proof (getAccessToken_throws s) as Hgt.
  destruct (getAccessToken s) as [[tok|e] s1]; cbn [fst snd] in *.
  - pose proof (dispatchRequest_401 (with_bearer tok req) s1) as Hd.
    destruct (dispatchRequest (with_bearer tok req) s1) as [[resp|e] s2];
      cbn [fst snd] in *; [reflexivity|].
    destruct (is_number (response_status e) 401) eqn:H401; [|reflexivity].
    specialize (Hd e eq_refl H401).
    pose proof (refreshToken_apiServer s2) as Hr.
    destruct (refreshToken s2) as [[tok1|e1] s3]; cbn [fst snd] in *;
      [|reflexivity].
    pose proof (getAccessToken_apiServer s3) as Hg3.
    destruct (getAccessToken s3) as [[tok2|e2] s4]; cbn [fst snd] in *;
      [|reflexivity].
    apply IH. rewrite Hg3, Hr. rewrite Hg in Hd. lia.
  - rewrite (Hgt e eq_refl). reflexivity.
Qed.

Lemma axiosInstance_fuel fuel req s :
  (List.length (apiServer (world s)) < fuel)%nat ->
  axiosInstance_upto fuel req s = axiosInstance req s.
Proof.
  unfold axiosInstance. intros H.
  induction H as [|m H IH].
  - reflexivity.
  - rewrite <- IH. symmetry. apply axiosInstance_upto_enough. lia.
Qed.

(** [createApiError] yields a typed API error that carries the status of
    the failed response, when there is one. *)
Lemma createApiError_typed error :
  exists message correlationId category,
    createApiError error
    = ApiClientError message (response_status error) correlationId category.
Proof.
  unfold createApiError.
  destruct (as_error_object (response_data error)); eauto.
Qed.

(** One 401: one exchange with the token endpoint, the request sent once
    more with the new token, and the failure of the retry surfaced as a
    typed API error with the status, message, correlation id and category
    of the second answer. *)
Example gateway_401_then_500 :
  let s := Samples.sys (Some (Samples.cached "t0" 1800 1000)) 2000
             [TokenGranted 5 (Samples.token "t1" 1800)]
             [Responded 10 401 PNothing;
              Responded 10 500
                (PError {| ae_message := Some "boom";
                           ae_correlationId := Some "c-1";
                           ae_category := Some "INTERNAL" |})] in
  fst (ApiClient.get JournalLatest s)
  = Throw (ApiClientError "API Error: boom" (Some 500)
             (Some "c-1") (Some "INTERNAL"))
  /\ wire (world (snd (ApiClient.get JournalLatest s)))
     = [ApiRequest 2000 GET JournalLatest "Bearer t0";
        TokenExchange 2010;
        ApiRequest 2015 GET JournalLatest "Bearer t1"].
Proof. split; reflexivity. Qed.

(** A first answer that fails with another status is surfaced without any
    exchange or retry. *)
Example gateway_503_not_retried :
  let s := Samples.sys (Some (Samples.cached "t0" 1800 1000)) 2000
             [TokenGranted 5 (Samples.token "t1" 1800)]
             [Responded 10 503 PNothing; Responded 10 200 (PText "ok")] in
  fst (ApiClient.get JournalLatest s)
  = Throw (ApiClientError "HTTP Error: Request failed with status code 503"
             (Some 503) None None)
  /\ wire (world (snd (ApiClient.get JournalLatest s)))
     = [ApiRequest 2000 GET JournalLatest "Bearer t0"].
Proof. split; reflexivity. Qed.

Lemma exchanges_in_app l1 l2 :
  exchanges_in (l1 ++ l2) = (exchanges_in l1 + exchanges_in l2)%nat.
Proof.
  induction l1 as [|e l1 IH]; [reflexivity|].
  destruct e; cbn; rewrite IH; reflexivity.
Qed.

Lemma requests_in_app l1 l2 :
  requests_in (l1 ++ l2) = (requests_in l1 + requests_in l2)%nat.
Proof.
  induction l1 as [|e l1 IH]; [reflexivity|].
  destruct e; cbn; rewrite IH; reflexivity.
Qed.

(** Nothing bounds the retries: [k] answers of 401 in a row, with the token
    endpoint granting a fresh token each time, make the gateway refresh [k]
    times and send the request [k + 1] times, and the caller gets the
    answer that follows. *)
Lemma axiosInstance_401_chain k :
  forall fuel req s tok granted rest st body more,
    (k < fuel)%nat ->
    currentToken (manager s) = Some tok ->
    isTokenExpired (clock (world s)) tok = false ->
    clock (world s) <> 0 ->
    300 < expires_in granted ->
    tokenEndpoint (world s) = repeat (TokenGranted 0 granted) k ++ rest ->
    apiServer (world s)
    = repeat (Responded 0 401 PNothing) k ++ Responded 0 st body :: more ->
    (200 <=? st) && (st <? 300) = true ->
    exists s',
      axiosInstance_upto fuel req s = (Ok {| status := st; data := body |}, s')
      /\ exchanges_in (wire (world s'))
         = (exchanges_in (wire (world s)) + k)%nat
      /\ requests_in (wire (world s'))
         = (requests_in (wire (world s)) + S k)%nat.
Proof.
  induction k as [|k IH];
    intros fuel req s tok granted rest st body more
           Hfuel Htok Hvalid Hclock Hlife Hep Hsrv Hst;
    (destruct fuel as [|fuel]; [lia|]);
    cbn [repeat app] in Hep, Hsrv;
    cbn [axiosInstance_upto]; unfold try_catch; unfold bind at 1;
    destruct (getAccessToken_serves_cache s tok Htok Hvalid)
      as (Hr & Hw & Hc);
    destruct (getAccessToken s) as [r s1]; cbn [fst snd] in Hr, Hw, Hc |- *;
    subst r; unfold dispatchRequest; rewrite Hw, Hsrv.
  - rewrite Hst. eexists. split; [reflexivity|]. cbn [world wire].
    rewrite exchanges_in_app, requests_in_app. cbn. split; lia.
  - cbn -[axiosInstance_upto String.append].
    unfold try_catch, bind, refreshToken, fetchAccessToken, bind, post_token.
    cbn -[axiosInstance_upto String.append].
    rewrite Hep. cbn -[axiosInstance_upto String.append getAccessToken].
    set (fresh := {| access_token := access_token granted;
                     token_type := token_type granted;
                     expires_in := expires_in granted;
                     refresh_token := refresh_token granted;
                     scope := scope granted;
                     obtained_at := Some (clock (world s) + 0 + 0) |}).
    match goal with
    | |- context [getAccessToken ?st] => set (s3 := st)
    end.
    assert (Hfresh : isTokenExpired (clock (world s3)) fresh = false).
    { unfold isTokenExpired, fresh, s3. cbn.
      destruct (Z.eqb_spec (clock (world s) + 0 + 0) 0); [lia|]. cbn.
      destruct (Z.geb_spec (clock (world s) + 0 + 0)
                  (clock (world s) + 0 + 0 + expires_in granted * 1000
                   - 300000)); [lia|reflexivity]. }
    destruct (getAccessToken_serves_cache s3 fresh eq_refl Hfresh)
      as (Hr3 & Hw3 & Hc3).
    destruct (getAccessToken s3) as [r3 s4];
      cbn [fst snd] in Hr3, Hw3, Hc3 |- *.
    subst r3.
    destruct (IH fuel (with_bearer (access_token fresh) req) s4 fresh
                 granted rest st body more)
      as (s' & Hres & Hex & Hrq);
      [lia|exact Hc3|rewrite Hw3; exact Hfresh
      |rewrite Hw3; unfold s3; cbn; lia|exact Hlife
      |rewrite Hw3; reflexivity|rewrite Hw3; reflexivity|exact Hst|].
    exists s'. split; [exact Hres|].
    rewrite Hex, Hrq, Hw3. unfold s3. cbn [world wire].
    rewrite !exchanges_in_app, !requests_in_app. cbn. split; lia.
Qed.

Lemma gateway_retries_unbounded k e s tok granted rest body more :
  currentToken (manager s) = Some tok ->
  isTokenExpired (clock (world s)) tok = false ->
  clock (world s) <> 0 ->
  300 < expires_in granted ->
  tokenEndpoint (world s) = repeat (TokenGranted 0 granted) k ++ rest ->
  apiServer (world s)
  = repeat (Responded 0 401 PNothing) k ++ Responded 0 200 body :: more ->
  exists s',
    ApiClient.get e s = (Ok body, s')
    /\ exchanges_in (wire (world s'))
       = (exchanges_in (wire (world s)) + k)%nat
    /\ requests_in (wire (world s'))
       = (requests_in (wire (world s)) + S k)%nat.
Proof.
  intros Htok Hvalid Hclock Hlife Hep Hsrv.
  destruct (axiosInstance_401_chain k
              (S (List.length (apiServer (world s)))) (request GET e)
              s tok granted rest 200 body more)
    as (s' & Hres & Hex & Hrq); try assumption; try reflexivity.
  - rewrite Hsrv, length_app, repeat_length. lia.
  - exists s'. unfold ApiClient.get, try_catch, bind, axiosInstance.
    rewrite Hres. cbn. auto.
Qed.

(** C3, the code at the failing input.  The server answers 401 to the
    request and 401 again to the retry.  The retry is issued through the
    same instance, so its 401 reaches the response interceptor again: the
    gateway refreshes the token a second time and sends the request a third
    time, and the caller receives the third answer instead of an error. *)
Theorem gateway_second_401_retried :
  let s := Samples.sys (Some (Samples.cached "t0" 1800 1000)) 2000
             [TokenGranted 5 (Samples.token "t1" 1800);
              TokenGranted 5 (Samples.token "t2" 1800)]
             [Responded 10 401 PNothing; Responded 10 401 PNothing;
              Responded 10 200 (PText "ok")] in
  fst (ApiClient.get JournalLatest s) = Ok (PText "ok")
  /\ wire (world (snd (ApiClient.get JournalLatest s)))
     = [ApiRequest 2000 GET JournalLatest "Bearer t0";
        TokenExchange 2010;
        ApiRequest 2015 GET JournalLatest "Bearer t1";
        TokenExchange 2025;
        ApiRequest 2030 GET JournalLatest "Bearer t2"]
  /\ exchanges_in (wire (world (snd (ApiClient.get JournalLatest s)))) = 2%nat
  /\ requests_in (wire (world (snd (ApiClient.get JournalLatest s)))) = 3%nat.
Proof. repeat split; reflexivity. Qed.

End Gateway.

(** ** Subscriptions client *)

Section PortalDelete.
Import Wire Remote SubscriptionsApi.

Lemma requests_app l1 l2 : requests (l1 ++ l2) = requests l1 ++ requests l2.
Proof.
  induction l1 as [|e l1 IH]; [reflexivity|].
  destruct e; cbn; rewrite IH; reflexivity.
Qed.

Lemma call_requests m e n :
  requests (log (snd (call m e n))) = requests (log n) ++ [(m, e)].
Proof.
  unfold call. destruct (api n); cbn; rewrite requests_app; reflexivity.
Qed.

Lemma call_head m e n x xs :
  api n = x :: xs ->
  fst (call m e n) = outcome x /\ api (snd (call m e n)) = xs.
Proof. intros H. unfold call. rewrite H. split; reflexivity. Qed.

(** The fallback loop sends one deletion per element, in order, whatever
    the outcome of each, and completes. *)
Lemma delete_each_requests l :
  forall n,
    fst (delete_each l n) = Ok tt
    /\ requests (log (snd (delete_each l n)))
       = requests (log n)
         ++ map (fun sub => (DELETE, SubscriptionById (id sub))) l.
Proof.
  induction l as [|sub l IH]; intros n.
  - cbn. rewrite app_nil_r. split; reflexivity.
  - cbn [delete_each map].
    pose proof (call_requests DELETE (SubscriptionById (id sub)) n) as Hc.
    unfold bind, try_catch, deleteSubscription, bind, ret.
    destruct (call DELETE (SubscriptionById (id sub)) n) as [[v|e] n1];
      cbn [fst snd] in *;
      destruct (IH n1) as [Hr Hl]; (split; [exact Hr|]);
      rewrite Hl, Hc, <- app_assoc; reflexivity.
Qed.

(** The bulk call succeeds, or fails with a status other than 500: no
    further call is made. *)
Lemma deletePortalSubscriptions_direct portal n x xs :
  api n = x :: xs ->
  (forall e, outcome x = Throw e -> is_number (exn_statusCode e) 500 = false) ->
  fst (deletePortalSubscriptions portal n)
  = match outcome x with Ok _ => Ok tt | Throw e => Throw e end
  /\ requests (log (snd (deletePortalSubscriptions portal n)))
     = requests (log n) ++ [(DELETE, SubscriptionsOfPortal portal)]
  /\ api (snd (deletePortalSubscriptions portal n)) = xs.
Proof.
  intros Hapi Hne.
  pose proof (call_requests DELETE (SubscriptionsOfPortal portal) n) as Hc.
  destruct (call_head DELETE (SubscriptionsOfPortal portal) n x xs Hapi)
    as [Ho Hx].
  unfold deletePortalSubscriptions, try_catch, bind, ret.
  destruct (call DELETE (SubscriptionsOfPortal portal) n) as [[v|e] n1];
    cbn [fst snd] in *.
  - rewrite <- Ho. auto.
  - rewrite <- Ho. rewrite (Hne e (eq_sym Ho)). cbn. auto.
Qed.

(** The bulk call fails with status 500: the fallback runs. *)
Lemma deletePortalSubscriptions_500 portal n x xs e :
  api n = x :: xs ->
  outcome x = Throw e -> is_number (exn_statusCode e) 500 = true ->
  exists n1,
    deletePortalSubscriptions portal n
    = deletePortalSubscriptionsIndividually portal n1
    /\ requests (log n1)
       = requests (log n) ++ [(DELETE, SubscriptionsOfPortal portal)]
    /\ api n1 = xs.
Proof.
  intros Hapi Hx H500.
  pose proof (call_requests DELETE (SubscriptionsOfPortal portal) n) as Hc.
  destruct (call_head DELETE (SubscriptionsOfPortal portal) n x xs Hapi)
    as [Ho Hxs].
  unfold deletePortalSubscriptions, try_catch, bind, ret.
  destruct (call DELETE (SubscriptionsOfPortal portal) n) as [[v|e'] n1];
    cbn [fst snd] in *.
  - congruence.
  - assert (e' = e) as -> by congruence. rewrite H500.
    exists n1. auto.
Qed.


(** The fallback lists the subscriptions first; when the listing succeeds it
    sends one deletion per subscription of the portal and completes. *)
Lemma deletePortalSubscriptionsIndividually_requests portal n :
  (exists later,
     requests (log (snd (deletePortalSubscriptionsIndividually portal n)))
     = requests (log n) ++ (GET, Subscriptions) :: later)
  /\ (forall y ys subs,
        api n = y :: ys -> outcome y = Ok (PSubscriptions subs) ->
        fst (deletePortalSubscriptionsIndividually portal n) = Ok tt
        /\ requests
             (log (snd (deletePortalSubscriptionsIndividually portal n)))
           = requests (log n) ++ (GET, Subscriptions)
             :: map (fun sub => (DELETE, SubscriptionById (id sub)))
                    (filter (fun sub => portalId sub =? portal) subs)).
Proof.
  pose proof (call_requests GET Subscriptions n) as Hc.
  unfold deletePortalSubscriptionsIndividually, getSubscriptions, bind, ret.
  split.
  - destruct (call GET Subscriptions n) as [[v|e] n1]; cbn [fst snd] in *.
    + destruct (results_of v) as [subs|]; cbn [throw fst snd].
      * destruct (Z.of_nat _ =? 0); cbn [fst snd].
        -- exists []. exact Hc.
        -- destruct (delete_each_requests
                       (filter (fun sub => portalId sub =? portal) subs) n1)
             as [_ Hl].
           rewrite Hl, Hc, <- app_assoc. eexists. reflexivity.
      * exists []. exact Hc.
    + exists []. exact Hc.
  - intros y ys subs Hapi Hy.
    destruct (call_head GET Subscriptions n y ys Hapi) as [Ho _].
    destruct (call GET Subscriptions n) as [[v|e] n1]; cbn [fst snd] in *;
      [|congruence].
    assert (v = PSubscriptions subs) as -> by congruence.
    cbn [results_of].
    destruct (delete_each_requests
                (filter (fun sub => portalId sub =? portal) subs) n1)
      as [Hr Hl].
    destruct (filter (fun sub => portalId sub =? portal) subs) as [|s0 l0].
    + cbn. split; [reflexivity|exact Hc].
    + cbn [List.length]. rewrite Nat2Z.inj_succ.
      destruct (Z.eqb_spec (Z.succ (Z.of_nat (List.length l0))) 0); [lia|].
      split; [exact Hr|]. rewrite Hl, Hc, <- app_assoc. reflexivity.
Qed.

(** C6, as the code has it.  Deleting the subscriptions of a portal first
    sends one bulk deletion.  Unless that call fails with status code 500
    exactly, nothing else is sent and its outcome is the result.  When it
    fails with status 500, the subscriptions are listed next; when the
    listing succeeds, one deletion is sent for each listed subscription
    whose [portalId] is the requested portal, in order, whatever the
    outcome of each deletion, and the operation completes. *)
Theorem deletePortalSubscriptions_fallback portal n x xs :
  api n = x :: xs ->
  let r := deletePortalSubscriptions portal n in
  let bulk := (DELETE, SubscriptionsOfPortal portal) in
  ((forall e, outcome x = Throw e ->
              is_number (exn_statusCode e) 500 = false) ->
   fst r = match outcome x with Ok _ => Ok tt | Throw e => Throw e end
   /\ requests (log (snd r)) = requests (log n) ++ [bulk])
  /\ (forall e,
        outcome x = Throw e -> is_number (exn_statusCode e) 500 = true ->
        (exists later,
           requests (log (snd r))
           = requests (log n) ++ bulk :: (GET, Subscriptions) :: later)
        /\ (forall y ys subs,
              xs = y :: ys -> outcome y = Ok (PSubscriptions subs) ->
              fst r = Ok tt
              /\ requests (log (snd r))
                 = requests (log n) ++ bulk :: (GET, Subscriptions)
                   :: map (fun sub => (DELETE, SubscriptionById (id sub)))
                          (filter (fun sub => portalId sub =? portal)
                                  subs))).
Proof.
  intros Hapi r bulk. split.
  - intros Hne.
    destruct (deletePortalSubscriptions_direct portal n x xs Hapi Hne)
      as (Hr & Hl & _).
    split; assumption.
  - intros e Hx H500.
    destruct (deletePortalSubscriptions_500 portal n x xs e Hapi Hx H500)
      as (n1 & Heq & Hl & Hxs).
    unfold r. rewrite Heq.
    destruct (deletePortalSubscriptionsIndividually_requests portal n1)
      as [[later Hlater] Hsubs].
    split.
    + exists later. rewrite Hlater, Hl, <- app_assoc. reflexivity.
    + intros y ys subs Hys Hy.
      destruct (Hsubs y ys subs) as [Hr Hreq]; [congruence|exact Hy|].
      split; [exact Hr|]. rewrite Hreq, Hl, <- app_assoc. reflexivity.
Qed.

(** The 500 case on a mixed-portal listing, with the first individual
    deletion failing. *)
Lemma deletePortalSubscriptions_fallback_witness :
  let listing :=
    {| took := 30;
       outcome := Ok (PSubscriptions
                        [Samples.subscription 11 7;
                         Samples.subscription 12 8;
                         Samples.subscription 13 7]) |} in
  let n := Samples.net 1000
             [Samples.failure 500; listing; Samples.failure 404;
              Samples.done] [] in
  let n' := Samples.net 1000 [Samples.failure 404; listing] [] in
  (fst (deletePortalSubscriptions 7 n) = Ok tt
   /\ requests (log (snd (deletePortalSubscriptions 7 n)))
      = [(DELETE, SubscriptionsOfPortal 7); (GET, Subscriptions);
         (DELETE, SubscriptionById 11); (DELETE, SubscriptionById 13)])
  /\ (fst (deletePortalSubscriptions 7 n')
      = Throw (ApiClientError "API Error: boom" (Some 404) None None)
      /\ requests (log (snd (deletePortalSubscriptions 7 n')))
         = [(DELETE, SubscriptionsOfPortal 7)]).
Proof.
  intros listing n n'. split.
  - destruct (deletePortalSubscriptions_fallback 7 n (Samples.failure 500)
                (tl (api n)) eq_refl) as [_ H].
    destruct (H _ eq_refl eq_refl) as [_ H'].
    exact (H' _ _ _ eq_refl eq_refl).
  - destruct (deletePortalSubscriptions_fallback 7 n' (Samples.failure 404)
                (tl (api n')) eq_refl) as [H _].
    apply H. intros e [= <-]. reflexivity.
Defined.

(** C6, counterexample to the fallback on every 5xx failure: the bulk call
    fails with status 503 and the failure is rethrown at once; the
    subscriptions are not listed and nothing is deleted individually. *)
Lemma deletePortalSubscriptions_503_rethrown :
  let n := Samples.net 1000
             [Samples.failure 503;
              {| took := 30;
                 outcome := Ok (PSubscriptions
                                  [Samples.subscription 11 7]) |};
              Samples.done] [] in
  fst (deletePortalSubscriptions 7 n)
  = Throw (ApiClientError "API Error: boom" (Some 503) None None)
  /\ requests (log (snd (deletePortalSubscriptions 7 n)))
     = [(DELETE, SubscriptionsOfPortal 7)]
  /\ ~ In (GET, Subscriptions)
          (requests (log (snd (deletePortalSubscriptions 7 n)))).
Proof.
  cbn. repeat split. intros [H|[]]. discriminate.
Qed.

End PortalDelete.

(** ** Journal client *)

Section NextEntry.
Import Wire Remote JournalApi.

(** The gateway reports a 204 answer as a typed error with status 204. *)
Lemma gateway_get_204 s token e d body rest :
  Auth.currentToken (Auth.manager s) = Some token ->
  Auth.isTokenExpired (Wire.clock (Auth.world s)) token = false ->
  apiServer (Auth.world s) = Responded d 204 body :: rest ->
  fst (ApiClient.get e s)
  = Throw (ApiClientError "No content available" (Some 204) None None).
Proof.
  intros Hc He Hs.
  destruct (getAccessToken_serves_cache s token Hc He) as (Hr & Hw & _).
  unfold ApiClient.get, ApiClient.axiosInstance, try_catch, bind.
  rewrite Hs. cbn [List.length ApiClient.axiosInstance_upto].
  unfold try_catch, bind.
  destruct (Auth.getAccessToken s) as [r s1]; cbn [fst snd] in *.
  subst r. unfold ApiClient.dispatchRequest. rewrite Hw, Hs. reflexivity.
Qed.

(** C7.  When the gateway call of [getNextJournalEntry] reports a 204, or
    resolves to a body that is no entry or whose [url] is absent or empty,
    the operation throws the same typed error with status code 204 and
    leaves the same state behind: the one call is recorded, nothing is
    downloaded and no entry is returned. *)
Theorem getNextJournalEntry_no_content after n x xs :
  api n = x :: xs ->
  (exists message cid cat,
     outcome x = Throw (ApiClientError message (Some 204) cid cat))
  \/ (exists body,
        outcome x = Ok body /\ truthy_string (url_of body) = false) ->
  getNextJournalEntry after n
  = (Throw (ApiClientError "You are already on the latest offset"
                           (Some 204) None None),
     {| clock := clock n + took x; api := xs; blobs := blobs n;
        log := log n ++ [ApiCall (clock n) GET (JournalNext after)] |}).
Proof.
  intros Hapi H.
  unfold getNextJournalEntry, try_catch, bind, call. rewrite Hapi.
  destruct H as [(message & cid & cat & Hx)|(body & Hx & Hu)]; rewrite Hx.
  - reflexivity.
  - unfold url_of in Hu.
    destruct (as_entry body) as [e|]; [|reflexivity].
    rewrite Hu. reflexivity.
Qed.

Lemma getNextJournalEntry_no_content_witness :
  fst (getNextJournalEntry "A"
         (Samples.net 1000 [Samples.no_content] []))
  = fst (getNextJournalEntry "A"
           (Samples.net 1000
              [{| took := 40;
                  outcome := Ok (PJournalEntry
                                   {| url := None; expiresAt := "";
                                      currentOffset := "A" |}) |}] [])).
Proof.
  assert (H1 := getNextJournalEntry_no_content "A"
                  (Samples.net 1000 [Samples.no_content] [])
                  Samples.no_content [] eq_refl
                  ltac:(left; do 3 eexists; reflexivity)).
  assert (H2 := getNextJournalEntry_no_content "A"
                  (Samples.net 1000
                     [{| took := 40;
                         outcome := Ok (PJournalEntry
                                          {| url := None; expiresAt := "";
                                             currentOffset := "A" |}) |}] [])
                  _ [] eq_refl
                  ltac:(right; eexists; split; reflexivity)).
  rewrite H1, H2. reflexivity.
Defined.

End NextEntry.

(** ** Cursor loop *)

Section CursorLoop.
Import Wire Remote JournalApi Observed.

Lemma checkRateLimit_eq s :
  checkRateLimit s
  = (Ok (requestCount (reset s) <? MAX_REQUESTS_PER_MINUTE), reset s).
Proof. reflexivity. Qed.

Lemma reset_frame s :
  net (reset s) = net s /\ isRunning (reset s) = isRunning s
  /\ lastOffset (reset s) = lastOffset s.
Proof.
  unfold reset.
  destruct (clock (net s) - lastMinuteTimestamp s >=? 60000); auto.
Qed.

(** The check passes whenever the counter is below the ceiling: a reset
    only lowers it. *)
Lemma reset_below s :
  requestCount s < MAX_REQUESTS_PER_MINUTE ->
  requestCount (reset s) < MAX_REQUESTS_PER_MINUTE.
Proof.
  unfold reset, MAX_REQUESTS_PER_MINUTE.
  destruct (clock (net s) - lastMinuteTimestamp s >=? 60000); cbn; lia.
Qed.

Lemma truthy_some held : held <> "" -> truthy_string (Some held) = true.
Proof.
  intros H. cbn. destruct (String.eqb_spec held ""); [contradiction|].
  reflexivity.
Qed.

Lemma or_else_some held : held <> "" -> or_else (Some held) "" = held.
Proof.
  intros H. cbn. destruct (String.eqb_spec held ""); [contradiction|].
  reflexivity.
Qed.

(** An iteration that passes the rate check with a held offset. *)
Lemma poll_once_allowed c s held :
  requestCount (reset s) < MAX_REQUESTS_PER_MINUTE ->
  lastOffset s = Some held -> held <> "" ->
  poll_once c s
  = try_catch
      (request_next c held ;;; on_net (sleep POLL_INTERVAL_MS))
      (fun error =>
         running <- gets isRunning ;;
         (if running
          then call_onError c ("Streaming error: " +++ toString error)
          else ret tt) ;;;
         on_net (sleep (POLL_INTERVAL_MS * 2)))
      (reset s).
Proof.
  intros Hlt Hheld Hne.
  unfold poll_once, try_catch. unfold bind at 1.
  rewrite checkRateLimit_eq.
  apply Z.ltb_lt in Hlt. rewrite Hlt. cbn [negb].
  unfold bind at 1, gets at 1.
  destruct (reset_frame s) as (_ & _ & Hlo). rewrite Hlo, Hheld.
  rewrite (truthy_some held Hne), (or_else_some held Hne). reflexivity.
Qed.

Lemma getNextJournalEntry_nothing after n x xs :
  api n = x :: xs -> noFurtherEntry x ->
  getNextJournalEntry after n
  = (Throw alreadyLatest,
     {| clock := clock n + took x; api := xs; blobs := blobs n;
        log := log n ++ [ApiCall (clock n) GET (JournalNext after)] |}).
Proof.
  intros Hapi H.
  unfold getNextJournalEntry, try_catch, bind, call. rewrite Hapi.
  destruct H as [(e & Hx & H204)|(body & Hx & Hu)]; rewrite Hx.
  - unfold throw. rewrite H204. reflexivity.
  - unfold url_of in Hu.
    destruct (as_entry body) as [e|]; [|reflexivity].
    rewrite Hu. reflexivity.
Qed.

Lemma getNextJournalEntry_entry after n x xs e b bs d :
  api n = x :: xs -> outcome x = Ok (PJournalEntry e) ->
  truthy_string (url e) = true ->
  blobs n = b :: bs -> blob_outcome b = BlobOk d ->
  getNextJournalEntry after n
  = (Ok {| entry := e; data := d |},
     {| clock := clock n + took x + blob_took b; api := xs; blobs := bs;
        log := log n ++ [ApiCall (clock n) GET (JournalNext after);
                         BlobCall (clock n + took x) (url e)] |}).
Proof.
  intros Hapi Hx Hu Hb Hd.
  unfold getNextJournalEntry, try_catch, bind, call. rewrite Hapi, Hx.
  cbn [as_entry]. rewrite Hu. cbn [negb].
  unfold downloadJournalData, bind, fetch. cbn [blobs]. rewrite Hb, Hd.
  cbn. rewrite <- app_assoc. reflexivity.
Qed.

(** The three outcomes of the request of an iteration, for callbacks that
    return. *)
Lemma request_next_nothing c held s e n' :
  getNextJournalEntry held (net s) = (Throw e, n') -> is204 e = true ->
  request_next c held s
  = (Ok tt,
     {| isRunning := isRunning s; lastOffset := lastOffset s;
        requestCount := requestCount s + 1;
        lastMinuteTimestamp := lastMinuteTimestamp s; net := n' |}).
Proof.
  intros Hg H204.
  unfold request_next, try_catch, bind, on_net, zoom. rewrite Hg.
  cbn. rewrite H204. reflexivity.
Qed.

Lemma request_next_failed c held s e n' :
  getNextJournalEntry held (net s) = (Throw e, n') -> is204 e = false ->
  request_next c held s
  = (match onError c ("Error checking for new entries: " +++ toString e) with
     | Some thrown => Throw thrown
     | None => Ok tt
     end,
     {| isRunning := isRunning s; lastOffset := lastOffset s;
        requestCount := requestCount s + 1;
        lastMinuteTimestamp := lastMinuteTimestamp s;
        net := {| clock := clock n'; api := api n'; blobs := blobs n';
                  log := log n'
                         ++ [ErrorReported
                               ("Error checking for new entries: "
                                +++ toString e)] |} |}).
Proof.
  intros Hg H204.
  unfold request_next, try_catch, bind, on_net, zoom. rewrite Hg.
  cbn. rewrite H204. cbn.
  destruct (onError c _); reflexivity.
Qed.

Lemma request_next_delivered c held s e n' :
  getNextJournalEntry held (net s) = (Ok e, n') ->
  currentOffset (entry e) <> held -> onNewEntry c e = None ->
  request_next c held s
  = (Ok tt,
     {| isRunning := isRunning s;
        lastOffset := Some (currentOffset (entry e));
        requestCount := requestCount s + 1;
        lastMinuteTimestamp := lastMinuteTimestamp s;
        net := {| clock := clock n'; api := api n'; blobs := blobs n';
                  log := log n' ++ [EntryDelivered e] |} |}).
Proof.
  intros Hg Hne Hcb.
  unfold request_next, try_catch, bind, on_net, zoom. rewrite Hg.
  cbn. destruct (String.eqb_spec (currentOffset (entry e)) held);
    [contradiction|].
  cbn. rewrite Hcb. reflexivity.
Qed.

Lemma request_next_unchanged c held s e n' :
  getNextJournalEntry held (net s) = (Ok e, n') ->
  currentOffset (entry e) = held ->
  request_next c held s
  = (Ok tt,
     {| isRunning := isRunning s; lastOffset := lastOffset s;
        requestCount := requestCount s + 1;
        lastMinuteTimestamp := lastMinuteTimestamp s; net := n' |}).
Proof.
  intros Hg Heq.
  unfold request_next, try_catch, bind, on_net, zoom. rewrite Hg.
  cbn. rewrite Heq, String.eqb_refl. reflexivity.
Qed.

(** An iteration whose request finds nothing new: the counter grows by
    one, the poll interval is slept, nothing is delivered or reported. *)
Lemma poll_once_nothing c s held x xs :
  requestCount (reset s) < MAX_REQUESTS_PER_MINUTE ->
  lastOffset s = Some held -> held <> "" ->
  api (net s) = x :: xs -> noFurtherEntry x ->
  poll_once c s
  = (Ok tt,
     {| isRunning := isRunning s; lastOffset := Some held;
        requestCount := requestCount (reset s) + 1;
        lastMinuteTimestamp := lastMinuteTimestamp (reset s);
        net := {| clock := clock (net s) + took x + Z.max 0 POLL_INTERVAL_MS;
                  api := xs; blobs := blobs (net s);
                  log := (log (net s)
                          ++ [ApiCall (clock (net s)) GET (JournalNext held)])
                         ++ [Slept POLL_INTERVAL_MS] |} |}).
Proof.
  intros Hlt Hheld Hne Hapi Hx.
  rewrite (poll_once_allowed c s held Hlt Hheld Hne).
  destruct (reset_frame s) as (Hn & Hr & Hlo).
  unfold try_catch, bind.
  rewrite (request_next_nothing c held (reset s) alreadyLatest
             {| clock := clock (net s) + took x; api := xs;
                blobs := blobs (net s);
                log := log (net s)
                       ++ [ApiCall (clock (net s)) GET (JournalNext held)] |}).
  - cbn. rewrite Hr, Hlo, Hheld. reflexivity.
  - rewrite Hn. apply getNextJournalEntry_nothing; assumption.
  - reflexivity.
Qed.

(** An iteration whose request returns an entry at another offset, with
    [onNewEntry] returning: the offset advances and the entry is
    delivered. *)
Lemma poll_once_delivered c s held x xs e b bs d :
  requestCount (reset s) < MAX_REQUESTS_PER_MINUTE ->
  lastOffset s = Some held -> held <> "" ->
  api (net s) = x :: xs -> outcome x = Ok (PJournalEntry e) ->
  truthy_string (url e) = true ->
  blobs (net s) = b :: bs -> blob_outcome b = BlobOk d ->
  currentOffset e <> held ->
  onNewEntry c {| entry := e; data := d |} = None ->
  poll_once c s
  = (Ok tt,
     {| isRunning := isRunning s; lastOffset := Some (currentOffset e);
        requestCount := requestCount (reset s) + 1;
        lastMinuteTimestamp := lastMinuteTimestamp (reset s);
        net := {| clock := clock (net s) + took x + blob_took b
                           + Z.max 0 POLL_INTERVAL_MS;
                  api := xs; blobs := bs;
                  log := ((log (net s)
                           ++ [ApiCall (clock (net s)) GET (JournalNext held);
                               BlobCall (clock (net s) + took x) (url e)])
                          ++ [EntryDelivered {| entry := e; data := d |}])
                         ++ [Slept POLL_INTERVAL_MS] |} |}).
Proof.
  intros Hlt Hheld Hne Hapi Hx Hu Hb Hd Hoff Hcb.
  rewrite (poll_once_allowed c s held Hlt Hheld Hne).
  destruct (reset_frame s) as (Hn & Hr & Hlo).
  unfold try_catch, bind.
  rewrite (request_next_delivered c held (reset s)
             {| entry := e; data := d |}
             {| clock := clock (net s) + took x + blob_took b; api := xs;
                blobs := bs;
                log := log (net s)
                       ++ [ApiCall (clock (net s)) GET (JournalNext held);
                           BlobCall (clock (net s) + took x) (url e)] |}).
  - cbn. rewrite Hr. reflexivity.
  - rewrite Hn.
    apply (getNextJournalEntry_entry held (net s) x xs e b bs d);
      assumption.
  - exact Hoff.
  - exact Hcb.
Qed.

(** An iteration whose request fails otherwise, with [onError]
    returning: the failure is reported and the poll interval is slept. *)
Lemma poll_once_failed c s held e n' :
  requestCount (reset s) < MAX_REQUESTS_PER_MINUTE ->
  lastOffset s = Some held -> held <> "" ->
  getNextJournalEntry held (net s) = (Throw e, n') -> is204 e = false ->
  onError c ("Error checking for new entries: " +++ toString e) = None ->
  poll_once c s
  = (Ok tt,
     {| isRunning := isRunning s; lastOffset := Some held;
        requestCount := requestCount (reset s) + 1;
        lastMinuteTimestamp := lastMinuteTimestamp (reset s);
        net := {| clock := clock n' + Z.max 0 POLL_INTERVAL_MS;
                  api := api n'; blobs := blobs n';
                  log := (log n'
                          ++ [ErrorReported
                                ("Error checking for new entries: "
                                 +++ toString e)])
                         ++ [Slept POLL_INTERVAL_MS] |} |}).
Proof.
  intros Hlt Hheld Hne Hg H204 Hcb.
  rewrite (poll_once_allowed c s held Hlt Hheld Hne).
  destruct (reset_frame s) as (Hn & Hr & Hlo).
  unfold try_catch, bind.
  rewrite (request_next_failed c held (reset s) e n');
    [|rewrite Hn; exact Hg|exact H204].
  rewrite Hcb. cbn. rewrite Hr, Hlo, Hheld. reflexivity.
Qed.

Lemma poll_once_idle c s :
  requestCount (reset s) < MAX_REQUESTS_PER_MINUTE ->
  truthy_string (lastOffset s) = false ->
  poll_once c s
  = (Ok tt,
     {| isRunning := isRunning s; lastOffset := lastOffset s;
        requestCount := requestCount (reset s);
        lastMinuteTimestamp := lastMinuteTimestamp (reset s);
        net := {| clock := clock (net s) + Z.max 0 POLL_INTERVAL_MS;
                  api := api (net s); blobs := blobs (net s);
                  log := log (net s) ++ [Slept POLL_INTERVAL_MS] |} |}).
Proof.
  intros Hlt Hf.
  unfold poll_once, try_catch. unfold bind at 1.
  rewrite checkRateLimit_eq.
  apply Z.ltb_lt in Hlt. rewrite Hlt. cbn [negb].
  unfold bind at 1, gets at 1.
  destruct (reset_frame s) as (Hn & Hr & Hlo). rewrite Hlo, Hf.
  cbn. rewrite Hn, Hr, Hlo. reflexivity.
Qed.

Lemma deliveries_app l1 l2 :
  deliveries (l1 ++ l2) = deliveries l1 ++ deliveries l2.
Proof.
  induction l1 as [|e l1 IH]; [reflexivity|].
  destruct e; cbn; rewrite IH; reflexivity.
Qed.

Lemma reports_app l1 l2 : reports (l1 ++ l2) = reports l1 ++ reports l2.
Proof.
  induction l1 as [|e l1 IH]; [reflexivity|].
  destruct e; cbn; rewrite IH; reflexivity.
Qed.

Lemma reset_count_le s :
  requestCount (reset s) <= Z.max 0 (requestCount s).
Proof.
  unfold reset.
  destruct (clock (net s) - lastMinuteTimestamp s >=? 60000); cbn; lia.
Qed.

(** C5, as the code has it.  In an iteration whose request fails with an
    error other than the no-content condition, the held offset is kept and
    [onError] receives a new error whose message is "Error checking for new
    entries: " followed by the text of the failure.  When that call of
    [onError] returns, the iteration completes and sleeps the normal poll
    interval of 2000 ms, not its double.  The doubled sleep belongs to the
    outer handler, which only an exception thrown by [onError] itself
    reaches here: while the stream is running that handler reports
    "Streaming error: " followed by the text of what was thrown, again to
    [onError], and sleeps 4000 ms when this second call returns; when the
    second call throws too, the iteration throws without sleeping; when the
    stream has been stopped, nothing is reported and 4000 ms are slept. *)
Theorem poll_once_reports_failure c s held e n' :
  requestCount (reset s) < MAX_REQUESTS_PER_MINUTE ->
  lastOffset s = Some held -> held <> "" ->
  getNextJournalEntry held (net s) = (Throw e, n') -> is204 e = false ->
  let message := "Error checking for new entries: " +++ toString e in
  let after := snd (poll_once c s) in
  lastOffset after = Some held
  /\ (exists later, log (net after) = log n' ++ ErrorReported message :: later)
  /\ (onError c message = None ->
      fst (poll_once c s) = Ok tt
      /\ log (net after) = log n' ++ [ErrorReported message; Slept 2000]
      /\ clock (net after) = clock n' + 2000)
  /\ (forall thrown,
        onError c message = Some thrown ->
        let outer := "Streaming error: " +++ toString thrown in
        (isRunning s = true -> onError c outer = None ->
         fst (poll_once c s) = Ok tt
         /\ log (net after)
            = log n' ++ [ErrorReported message; ErrorReported outer;
                         Slept 4000]
         /\ clock (net after) = clock n' + 4000)
        /\ (isRunning s = true ->
            forall again, onError c outer = Some again ->
            fst (poll_once c s) = Throw again
            /\ log (net after)
               = log n' ++ [ErrorReported message; ErrorReported outer])
        /\ (isRunning s = false ->
            fst (poll_once c s) = Ok tt
            /\ log (net after)
               = log n' ++ [ErrorReported message; Slept 4000]
            /\ clock (net after) = clock n' + 4000)).
Proof.
  intros Hlt Hheld Hne Hg H204 message after. unfold after.
  rewrite (poll_once_allowed c s held Hlt Hheld Hne).
  destruct (reset_frame s) as (Hn & Hr & Hlo).
  unfold try_catch, bind.
  rewrite (request_next_failed c held (reset s) e n');
    [|rewrite Hn; exact Hg|exact H204].
  fold message.
  destruct (onError c message) as [thrown|] eqn:Hcb.
  - unfold gets, call_onError, bind, returns, on_net, zoom, record, modify,
      sleep.
    cbn -[String.append]. rewrite Hr, Hlo, Hheld.
    set (outer := "Streaming error: " +++ toString thrown).
    split.
    { destruct (isRunning s); cbn -[String.append];
        [destruct (onError c outer); reflexivity|reflexivity]. }
    split.
    { destruct (isRunning s); cbn -[String.append];
        [destruct (onError c outer); cbn -[String.append]|];
        rewrite <- ?app_assoc; eexists; reflexivity. }
    split; [discriminate|].
    intros thrown0 [= <-]. cbv zeta. fold outer.
    split; [|split].
    + intros Hrun Hagain. rewrite Hrun. cbn -[String.append].
      rewrite Hagain. cbn -[String.append].
      rewrite <- !app_assoc. repeat split; lia.
    + intros Hrun again Hagain. rewrite Hrun. cbn -[String.append].
      rewrite Hagain. cbn -[String.append].
      rewrite <- !app_assoc. split; reflexivity.
    + intros Hrun. rewrite Hrun. cbn -[String.append].
      rewrite <- !app_assoc. repeat split; lia.
  - cbn -[String.append]. rewrite Hlo, Hheld.
    split; [reflexivity|].
    split; [rewrite <- app_assoc; eexists; reflexivity|].
    split; [|intros thrown; discriminate].
    intros _. rewrite <- app_assoc. repeat split.
Qed.

Lemma poll_once_reports_failure_witness :
  let s := Samples.polling "A" 1 1000
             (Samples.net 1100 [Samples.failure 500] []) in
  let c := {| onNewEntry := fun _ => None;
              onError := fun m =>
                if String.prefix "Error checking" m
                then Some (Error "consumer failed") else None;
              onStatusUpdate := fun _ => None |} in
  log (net (snd (poll_once Samples.quiet s)))
  = [ApiCall 1100 GET (JournalNext "A");
     ErrorReported
       "Error checking for new entries: ApiClientError: API Error: boom";
     Slept 2000]
  /\ log (net (snd (poll_once c s)))
     = [ApiCall 1100 GET (JournalNext "A");
        ErrorReported
          "Error checking for new entries: ApiClientError: API Error: boom";
        ErrorReported "Streaming error: Error: consumer failed";
        Slept 4000].
Proof.
  intros s c. split.
  - destruct (poll_once_reports_failure Samples.quiet s "A"
                (ApiClientError "API Error: boom" (Some 500) None None)
                (snd (getNextJournalEntry "A" (net s))))
      as (_ & _ & Hret & _);
      [reflexivity|reflexivity|discriminate|reflexivity|reflexivity|].
    destruct (Hret eq_refl) as (_ & Hlog & _). exact Hlog.
  - destruct (poll_once_reports_failure c s "A"
                (ApiClientError "API Error: boom" (Some 500) None None)
                (snd (getNextJournalEntry "A" (net s))))
      as (_ & _ & _ & Hthrown);
      [reflexivity|reflexivity|discriminate|reflexivity|reflexivity|].
    destruct (Hthrown (Error "consumer failed") eq_refl) as (Hrun & _).
    destruct (Hrun eq_refl eq_refl) as (_ & Hlog & _). exact Hlog.
Defined.

(** C5, counterexample to the doubled sleep: the request fails with status
    500, [onError] is called, and the sleep that follows is the normal
    2000 ms; no sleep of twice the poll interval occurs and the next
    attempt is due 2000 ms after the failure. *)
Lemma poll_once_failure_sleeps_2000 :
  let s := Samples.polling "A" 1 1000
             (Samples.net 1100 [Samples.failure 500] []) in
  log (net (snd (poll_once Samples.quiet s)))
  = [ApiCall 1100 GET (JournalNext "A");
     ErrorReported
       "Error checking for new entries: ApiClientError: API Error: boom";
     Slept 2000]
  /\ clock (net (snd (poll_once Samples.quiet s))) = 1100 + 40 + 2000
  /\ ~ In (Slept (2 * POLL_INTERVAL_MS))
          (log (net (snd (poll_once Samples.quiet s)))).
Proof.
  cbn. repeat split.
  intros [H|[H|[H|[]]]]; discriminate.
Qed.

(** Where the doubled sleep is: an exception that escapes the inner
    handler, here thrown by [onError] itself, reaches the outer handler,
    which reports it and sleeps twice the poll interval. *)
Example poll_once_outer_handler :
  let c := {| onNewEntry := fun _ => None;
              onError := fun m =>
                if String.prefix "Error checking" m
                then Some (Error "consumer failed") else None;
              onStatusUpdate := fun _ => None |} in
  let s := Samples.polling "A" 1 1000
             (Samples.net 1100 [Samples.failure 500] []) in
  log (net (snd (poll_once c s)))
  = [ApiCall 1100 GET (JournalNext "A");
     ErrorReported
       "Error checking for new entries: ApiClientError: API Error: boom";
     ErrorReported "Streaming error: Error: consumer failed";
     Slept 4000].
Proof. reflexivity. Qed.

(** *** The run 204, 204, entry, 204 *)

Lemma pollForNewEntries_turn c k s s' :
  isRunning s = true -> poll_once c s = (Ok tt, s') ->
  pollForNewEntries c (S k) s = pollForNewEntries c k s'.
Proof.
  intros Hr Hp. cbn [pollForNewEntries]. unfold bind, gets.
  rewrite Hr, Hp. reflexivity.
Qed.

(** What the next lemmas keep track of between iterations. *)
Lemma turn_nothing c s held x xs :
  requestCount s < MAX_REQUESTS_PER_MINUTE ->
  lastOffset s = Some held -> held <> "" ->
  api (net s) = x :: xs -> noFurtherEntry x ->
  exists s',
    poll_once c s = (Ok tt, s')
    /\ isRunning s' = isRunning s /\ lastOffset s' = Some held
    /\ api (net s') = xs /\ blobs (net s') = blobs (net s)
    /\ deliveries (log (net s')) = deliveries (log (net s))
    /\ reports (log (net s')) = reports (log (net s))
    /\ requests (log (net s'))
       = requests (log (net s)) ++ [(GET, JournalNext held)]
    /\ requestCount s' <= Z.max 0 (requestCount s) + 1.
Proof.
  intros Hlt Hheld Hne Hapi Hx.
  eexists. split.
  - apply (poll_once_nothing c s held x xs); try assumption.
    now apply reset_below.
  - cbn. rewrite !deliveries_app, !reports_app, !requests_app. cbn.
    rewrite !app_nil_r. pose proof (reset_count_le s). repeat split; lia.
Qed.

Lemma turn_idle c s :
  requestCount s < MAX_REQUESTS_PER_MINUTE ->
  truthy_string (lastOffset s) = false ->
  exists s',
    poll_once c s = (Ok tt, s')
    /\ isRunning s' = isRunning s /\ lastOffset s' = lastOffset s
    /\ deliveries (log (net s')) = deliveries (log (net s))
    /\ reports (log (net s')) = reports (log (net s)).
Proof.
  intros Hlt Hf.
  eexists. split.
  - apply (poll_once_idle c s); [now apply reset_below|assumption].
  - cbn. rewrite !deliveries_app, !reports_app. cbn.
    rewrite !app_nil_r. repeat split.
Qed.

Lemma turn_delivered c s held x xs e b bs d :
  requestCount s < MAX_REQUESTS_PER_MINUTE ->
  lastOffset s = Some held -> held <> "" ->
  api (net s) = x :: xs -> outcome x = Ok (PJournalEntry e) ->
  truthy_string (url e) = true ->
  blobs (net s) = b :: bs -> blob_outcome b = BlobOk d ->
  currentOffset e <> held ->
  onNewEntry c {| entry := e; data := d |} = None ->
  exists s',
    poll_once c s = (Ok tt, s')
    /\ isRunning s' = isRunning s
    /\ lastOffset s' = Some (currentOffset e)
    /\ api (net s') = xs /\ blobs (net s') = bs
    /\ deliveries (log (net s'))
       = deliveries (log (net s)) ++ [{| entry := e; data := d |}]
    /\ reports (log (net s')) = reports (log (net s))
    /\ requests (log (net s'))
       = requests (log (net s)) ++ [(GET, JournalNext held)]
    /\ requestCount s' <= Z.max 0 (requestCount s) + 1.
Proof.
  intros Hlt Hheld Hne Hapi Hx Hu Hb Hd Hoff Hcb.
  eexists. split.
  - apply (poll_once_delivered c s held x xs e b bs d); try assumption.
    now apply reset_below.
  - cbn. rewrite !deliveries_app, !reports_app, !requests_app. cbn.
    rewrite !app_nil_r. pose proof (reset_count_le s). repeat split; lia.
Qed.

(** The initial fetch when the latest entry and its data arrive and
    [onStatusUpdate] returns. *)
Lemma establish_entered c n x xs e b bs d :
  api n = x :: xs -> outcome x = Ok (PJournalEntry e) ->
  blobs n = b :: bs -> blob_outcome b = BlobOk d ->
  (forall st, onStatusUpdate c st = None) ->
  exists s,
    establish c (fresh_stream n) = (Ok true, s)
    /\ isRunning s = true /\ lastOffset s = Some (currentOffset e)
    /\ requestCount s = 1
    /\ api (net s) = xs /\ blobs (net s) = bs
    /\ deliveries (log (net s)) = deliveries (log n)
    /\ reports (log (net s)) = reports (log n)
    /\ requests (log (net s)) = requests (log n) ++ [(GET, JournalLatest)].
Proof.
  intros Hapi Hx Hb Hd Hst.
  unfold establish, try_catch, bind, call_onStatusUpdate, returns, bind.
  rewrite !Hst.
  unfold on_net, zoom, getLatestJournalEntry, bind, call. cbn.
  rewrite Hapi, Hx. cbn. unfold downloadJournalData, bind, fetch. cbn.
  rewrite Hb, Hd. cbn. rewrite Hst. cbn.
  eexists. split; [reflexivity|]. cbn.
  rewrite !deliveries_app, !reports_app, !requests_app. cbn.
  rewrite !app_nil_r. repeat split.
Qed.

Lemma streamJournalEntries_entered c turns n s0 s :
  establish c (fresh_stream n) = (Ok true, s0) ->
  pollForNewEntries c turns s0 = (Ok tt, s) ->
  streamJournalEntries c turns n = (Ok tt, s).
Proof.
  intros He Hp.
  unfold streamJournalEntries, bind. rewrite He.
  unfold poll_in_background, try_catch. rewrite Hp. reflexivity.
Qed.

(** C1.  The stream starts with the latest entry at offset [A]; the next
    four gateway calls answer: nothing, nothing, an entry at another offset
    [B], nothing (each "nothing" a 204 or a body without [url]); the status
    and entry callbacks return.  Then over the four iterations [onNewEntry]
    is called exactly once, with the entry at [B] and its downloaded data,
    [onError] is never called, and the held offset ends as [B].  After the
    first two iterations nothing has been delivered and the held offset is
    still [A]; after the third the entry has been delivered and the held
    offset is [B]. *)
Theorem stream_nothing_nothing_entry_nothing
  c n A eA dA eB dB x0 x1 x2 x3 x4 xs b0 b3 bs :
  api n = x0 :: x1 :: x2 :: x3 :: x4 :: xs ->
  blobs n = b0 :: b3 :: bs ->
  outcome x0 = Ok (PJournalEntry eA) -> blob_outcome b0 = BlobOk dA ->
  currentOffset eA = A -> A <> "" ->
  noFurtherEntry x1 -> noFurtherEntry x2 ->
  outcome x3 = Ok (PJournalEntry eB) -> truthy_string (url eB) = true ->
  blob_outcome b3 = BlobOk dB ->
  currentOffset eB <> A ->
  noFurtherEntry x4 ->
  (forall st, onStatusUpdate c st = None) ->
  onNewEntry c {| entry := eB; data := dB |} = None ->
  let after turns := snd (streamJournalEntries c turns n) in
  fst (streamJournalEntries c 4 n) = Ok tt
  /\ deliveries (log (net (after 4%nat)))
     = deliveries (log n) ++ [{| entry := eB; data := dB |}]
  /\ reports (log (net (after 4%nat))) = reports (log n)
  /\ lastOffset (after 4%nat) = Some (currentOffset eB)
  /\ deliveries (log (net (after 2%nat))) = deliveries (log n)
  /\ lastOffset (after 2%nat) = Some A
  /\ deliveries (log (net (after 3%nat)))
     = deliveries (log n) ++ [{| entry := eB; data := dB |}]
  /\ lastOffset (after 3%nat) = Some (currentOffset eB).
Proof.
  intros Hapi Hblobs Hx0 Hb0 HA HneA Hx1 Hx2 Hx3 Hu3 Hb3 HB Hx4 Hst Hcb.
  destruct (establish_entered c n x0 _ eA b0 _ dA Hapi Hx0 Hblobs Hb0 Hst)
    as (s0 & He & Hr0 & Hlo0 & Hc0 & Ha0 & Hbl0 & Hd0 & Hp0 & _).
  rewrite HA in Hlo0.
  destruct (turn_nothing c s0 A x1 (x2 :: x3 :: x4 :: xs)) as
    (s1 & Hp1 & Hr1 & Hlo1 & Ha1 & Hbl1 & Hd1 & Hrep1 & _ & Hc1);
    try assumption; [unfold MAX_REQUESTS_PER_MINUTE; lia|].
  destruct (turn_nothing c s1 A x2 (x3 :: x4 :: xs)) as
    (s2 & Hp2 & Hr2 & Hlo2 & Ha2 & Hbl2 & Hd2 & Hrep2 & _ & Hc2);
    try assumption; [unfold MAX_REQUESTS_PER_MINUTE; lia|].
  rewrite Hbl1, Hbl0 in Hbl2.
  destruct (turn_delivered c s2 A x3 (x4 :: xs) eB b3 bs dB) as
    (s3 & Hp3 & Hr3 & Hlo3 & Ha3 & Hbl3 & Hd3 & Hrep3 & _ & Hc3);
    try assumption; [unfold MAX_REQUESTS_PER_MINUTE; lia|].
  assert (H4 : exists s4,
             poll_once c s3 = (Ok tt, s4)
             /\ lastOffset s4 = Some (currentOffset eB)
             /\ deliveries (log (net s4)) = deliveries (log (net s3))
             /\ reports (log (net s4)) = reports (log (net s3))).
  { destruct (String.eqb_spec (currentOffset eB) "") as [Hempty|Hfull].
    - destruct (turn_idle c s3) as (s4 & Hp4 & _ & Hlo4 & Hd4 & Hrep4).
      + unfold MAX_REQUESTS_PER_MINUTE; lia.
      + rewrite Hlo3, Hempty. reflexivity.
      + exists s4. rewrite Hlo4, Hlo3. auto.
    - destruct (turn_nothing c s3 (currentOffset eB) x4 xs) as
        (s4 & Hp4 & _ & Hlo4 & _ & _ & Hd4 & Hrep4 & _);
        try assumption; [unfold MAX_REQUESTS_PER_MINUTE; lia|].
      exists s4. auto. }
  destruct H4 as (s4 & Hp4 & Hlo4 & Hd4 & Hrep4).
  assert (Hr1' : isRunning s1 = true) by congruence.
  assert (Hr2' : isRunning s2 = true) by congruence.
  assert (Hr3' : isRunning s3 = true) by congruence.
  assert (Hrun2 : streamJournalEntries c 2 n = (Ok tt, s2)).
  { apply (streamJournalEntries_entered c 2 n s0 s2 He).
    rewrite (pollForNewEntries_turn c 1 s0 s1 Hr0 Hp1).
    rewrite (pollForNewEntries_turn c 0 s1 s2 Hr1' Hp2). reflexivity. }
  assert (Hrun3 : streamJournalEntries c 3 n = (Ok tt, s3)).
  { apply (streamJournalEntries_entered c 3 n s0 s3 He).
    rewrite (pollForNewEntries_turn c 2 s0 s1 Hr0 Hp1).
    rewrite (pollForNewEntries_turn c 1 s1 s2 Hr1' Hp2).
    rewrite (pollForNewEntries_turn c 0 s2 s3 Hr2' Hp3). reflexivity. }
  assert (Hrun4 : streamJournalEntries c 4 n = (Ok tt, s4)).
  { apply (streamJournalEntries_entered c 4 n s0 s4 He).
    rewrite (pollForNewEntries_turn c 3 s0 s1 Hr0 Hp1).
    rewrite (pollForNewEntries_turn c 2 s1 s2 Hr1' Hp2).
    rewrite (pollForNewEntries_turn c 1 s2 s3 Hr2' Hp3).
    rewrite (pollForNewEntries_turn c 0 s3 s4 Hr3' Hp4). reflexivity. }
  cbv beta zeta. rewrite Hrun2, Hrun3, Hrun4. cbn [fst snd].
  repeat split.
  - rewrite Hd4, Hd3, Hd2, Hd1, Hd0. reflexivity.
  - rewrite Hrep4, Hrep3, Hrep2, Hrep1, Hp0. reflexivity.
  - exact Hlo4.
  - rewrite Hd2, Hd1, Hd0. reflexivity.
  - exact Hlo2.
  - rewrite Hd3, Hd2, Hd1, Hd0. reflexivity.
  - exact Hlo3.
Qed.

Lemma stream_nothing_nothing_entry_nothing_witness :
  let n := Samples.net 1000
             [Samples.entry_reply "A"; Samples.no_content;
              Samples.no_content; Samples.entry_reply "B";
              Samples.no_content]
             [Samples.blob_reply "A"; Samples.blob_reply "B"] in
  let s := snd (streamJournalEntries Samples.quiet 4 n) in
  deliveries (log (net s))
  = [{| entry := Samples.entry_at "B"; data := Samples.data_at "B" |}]
  /\ reports (log (net s)) = []
  /\ lastOffset s = Some "B".
Proof.
  intros n s.
  assert (Hnone : noFurtherEntry Samples.no_content)
    by (left; eexists; split; reflexivity).
  destruct (stream_nothing_nothing_entry_nothing Samples.quiet n "A"
              (Samples.entry_at "A") (Samples.data_at "A")
              (Samples.entry_at "B") (Samples.data_at "B")
              (Samples.entry_reply "A") Samples.no_content
              Samples.no_content (Samples.entry_reply "B")
              Samples.no_content []
              (Samples.blob_reply "A") (Samples.blob_reply "B") [])
    as (_ & Hd & Hr & Hlo & _);
    [reflexivity|reflexivity|reflexivity|reflexivity|reflexivity
    |discriminate|exact Hnone|exact Hnone|reflexivity|reflexivity
    |reflexivity|discriminate|exact Hnone|reflexivity|reflexivity|].
  repeat split; assumption.
Defined.

(** *** What one iteration can change *)

Lemma quietly_refl s : quietly s s.
Proof. unfold quietly. repeat split; lia. Qed.

Lemma quietly_trans s1 s2 s3 : quietly s1 s2 -> quietly s2 s3 -> quietly s1 s3.
Proof.
  unfold quietly.
  intros (A1 & A2 & A3 & A4 & A5 & A6 & A7 & A8)
         (B1 & B2 & B3 & B4 & B5 & B6 & B7 & B8).
  repeat split; try congruence. lia.
Qed.

Section Always.
Variable R : Stream -> Stream -> Prop.
Hypothesis R_refl : forall s, R s s.
Hypothesis R_trans : forall s1 s2 s3, R s1 s2 -> R s2 s3 -> R s1 s3.

Lemma always_ret {A} (a : A) : always (ret a) R.
Proof. intros s. apply R_refl. Qed.

Lemma always_throw {A} e : always (@throw Stream A e) R.
Proof. intros s. apply R_refl. Qed.

Lemma always_gets {A} (f : Stream -> A) : always (gets f) R.
Proof. intros s. apply R_refl. Qed.

Lemma always_bind {A B} (c : M Stream A) (k : A -> M Stream B) :
  always c R -> (forall a, always (k a) R) -> always (bind c k) R.
Proof.
  intros Hc Hk s. unfold bind. specialize (Hc s).
  destruct (c s) as [[a|e] s1]; cbn [snd] in *.
  - apply (R_trans _ s1); [exact Hc|apply Hk].
  - exact Hc.
Qed.

Lemma always_try_catch {A} (c : M Stream A) (h : Exn -> M Stream A) :
  always c R -> (forall e, always (h e) R) -> always (try_catch c h) R.
Proof.
  intros Hc Hh s. unfold try_catch. specialize (Hc s).
  destruct (c s) as [[a|e] s1]; cbn [snd] in *.
  - exact Hc.
  - apply (R_trans _ s1); [exact Hc|apply Hh].
Qed.

End Always.

Lemma call_times_app l1 l2 :
  call_times (l1 ++ l2) = call_times l1 ++ call_times l2.
Proof.
  induction l1 as [|e l1 IH]; [reflexivity|].
  destruct e; cbn; rewrite IH; reflexivity.
Qed.

Lemma always_returns r : always (returns r) quietly.
Proof. intros s. destruct r; apply quietly_refl. Qed.

Lemma always_record ev :
  call_times [ev] = [] -> always (on_net (record ev)) quietly.
Proof.
  intros Hev s. unfold quietly. cbn.
  rewrite call_times_app, Hev, app_nil_r. repeat split; lia.
Qed.

Lemma always_sleep ms : always (on_net (sleep ms)) quietly.
Proof.
  intros s. unfold quietly. cbn.
  rewrite call_times_app. cbn. rewrite app_nil_r. repeat split; lia.
Qed.

Lemma always_call_onError c m : always (call_onError c m) quietly.
Proof.
  apply always_bind; [exact quietly_trans| |intros _; apply always_returns].
  now apply always_record.
Qed.

Lemma always_call_onStatusUpdate c st :
  always (call_onStatusUpdate c st) quietly.
Proof.
  apply always_bind; [exact quietly_trans| |intros _; apply always_returns].
  now apply always_record.
Qed.

Lemma always_call_onNewEntry c e : always (call_onNewEntry c e) quietly.
Proof.
  apply always_bind; [exact quietly_trans| |intros _; apply always_returns].
  now apply always_record.
Qed.

(** The outer handler of an iteration. *)
Lemma always_outer_handler c error :
  always (running <- gets isRunning ;;
          (if running
           then call_onError c ("Streaming error: " +++ toString error)
           else ret tt) ;;;
          on_net (sleep (POLL_INTERVAL_MS * 2))) quietly.
Proof.
  apply always_bind; [exact quietly_trans|apply always_gets, quietly_refl|].
  intros running.
  apply always_bind; [exact quietly_trans| |intros _; apply always_sleep].
  destruct running;
    [apply always_call_onError|apply always_ret, quietly_refl].
Qed.

(** A request for the next entry issues one gateway call, at the time the
    request starts; with punctual answers the clock does not go back. *)
Lemma getNextJournalEntry_effect after n :
  call_times (log (snd (getNextJournalEntry after n)))
  = call_times (log n) ++ [clock n]
  /\ (punctual n ->
      clock n <= clock (snd (getNextJournalEntry after n))
      /\ punctual (snd (getNextJournalEntry after n))).
Proof.
  unfold getNextJournalEntry, try_catch, bind, call, punctual.
  destruct (api n) as [|x xs] eqn:Hapi.
  - cbn. rewrite call_times_app. cbn. split; [reflexivity|].
    intros [_ Hb]. repeat split; [lia|constructor|exact Hb].
  - assert (Hpun : Forall (fun x => 0 <= took x) (x :: xs) /\
                   Forall (fun b => 0 <= blob_took b) (blobs n) ->
                   0 <= took x /\ Forall (fun x => 0 <= took x) xs
                   /\ Forall (fun b => 0 <= blob_took b) (blobs n)).
    { intros [Ha Hb]. inversion Ha; subst. auto. }
    destruct (outcome x) as [body|e].
    + destruct (as_entry body) as [e|].
      * destruct (truthy_string (url e)); cbn [negb].
        -- unfold downloadJournalData, bind, fetch. cbn [blobs snd fst].
           destruct (blobs n) as [|b bs] eqn:Hbl.
           ++ cbn. rewrite !call_times_app. cbn. rewrite app_nil_r.
              split; [reflexivity|]. intros H.
              destruct (Hpun H) as (H0 & Hxs & _).
              repeat split; [lia|exact Hxs|constructor].
           ++ destruct (blob_outcome b) as [d|st message|cause]; cbn;
                try (destruct (is_number st 404); cbn;
                     try (destruct (is_number st 403); cbn));
                rewrite !call_times_app; cbn; rewrite app_nil_r;
                (split; [reflexivity|]); intros H;
                destruct (Hpun H) as (H0 & Hxs & Hb);
                inversion Hb; subst; repeat split; try lia; assumption.
        -- cbn. rewrite call_times_app. cbn. split; [reflexivity|].
           intros H. destruct (Hpun H) as (H0 & Hxs & Hb).
           repeat split; [lia|exact Hxs|exact Hb].
      * cbn. rewrite call_times_app. cbn. split; [reflexivity|].
        intros H. destruct (Hpun H) as (H0 & Hxs & Hb).
        repeat split; [lia|exact Hxs|exact Hb].
    + unfold throw. destruct (is204 e); cbn; rewrite call_times_app; cbn;
        (split; [reflexivity|]); intros H;
        destruct (Hpun H) as (H0 & Hxs & Hb);
        (repeat split; [lia|exact Hxs|exact Hb]).
Qed.

(** The request of an iteration, for any consumer: one gateway call, the
    counter raised by one (by two when [onNewEntry] throws), and the held
    offset either kept or replaced by the offset of the returned entry,
    which then differs from the one held. *)
Lemma request_next_effect c held s :
  isRunning (snd (request_next c held s)) = isRunning s
  /\ lastMinuteTimestamp (snd (request_next c held s))
     = lastMinuteTimestamp s
  /\ requestCount s + 1 <= requestCount (snd (request_next c held s))
     <= requestCount s + 2
  /\ call_times (log (net (snd (request_next c held s))))
     = call_times (log (net s)) ++ [clock (net s)]
  /\ (punctual (net s) ->
      clock (net s) <= clock (net (snd (request_next c held s)))
      /\ punctual (net (snd (request_next c held s))))
  /\ (lastOffset (snd (request_next c held s)) = lastOffset s
      \/ exists e,
           fst (getNextJournalEntry held (net s)) = Ok e
           /\ lastOffset (snd (request_next c held s))
              = Some (currentOffset (entry e))
           /\ currentOffset (entry e) <> held).
Proof.
  destruct (getNextJournalEntry_effect held (net s)) as [Hcalls Hpun].
  revert Hcalls Hpun.
  unfold request_next, try_catch, bind, on_net, zoom.
  destruct (getNextJournalEntry held (net s)) as [[e|err] n'];
    cbn [fst snd]; intros Hcalls Hpun.
  - cbn.
    destruct (String.eqb_spec (currentOffset (entry e)) held) as [Heq|Hne];
      cbn.
    + split; [reflexivity|]. split; [reflexivity|]. split; [lia|].
      split; [exact Hcalls|]. split; [exact Hpun|]. left. reflexivity.
    + destruct (onNewEntry c e) as [thrown|]; cbn.
      * destruct (is204 thrown); cbn;
          try (destruct (onError c _); cbn);
          rewrite ?call_times_app; cbn; rewrite ?app_nil_r;
          (split; [reflexivity|]); (split; [reflexivity|]);
          (split; [lia|]); (split; [exact Hcalls|]);
          (split; [exact Hpun|]); right; exists e; auto.
      * rewrite ?call_times_app; cbn; rewrite ?app_nil_r.
        split; [reflexivity|]. split; [reflexivity|]. split; [lia|].
        split; [exact Hcalls|]. split; [exact Hpun|].
        right. exists e. auto.
  - cbn. destruct (is204 err); cbn;
      try (destruct (onError c _); cbn);
      rewrite ?call_times_app; cbn; rewrite ?app_nil_r;
      (split; [reflexivity|]); (split; [reflexivity|]);
      (split; [lia|]); (split; [exact Hcalls|]);
      (split; [exact Hpun|]); left; reflexivity.
Qed.

Lemma try_catch_after {A B} (c1 : M Stream A) (c2 : M Stream B)
      (h : Exn -> M Stream B) s :
  always c2 quietly -> (forall e, always (h e) quietly) ->
  quietly (snd (c1 s)) (snd (try_catch (c1 ;;; c2) h s)).
Proof.
  intros H2 Hh. unfold try_catch, bind.
  destruct (c1 s) as [[a|e] s1]; cbn [snd].
  - pose proof (H2 s1) as Hq.
    destruct (c2 s1) as [[b|e2] s2]; cbn [snd] in *; [exact Hq|].
    apply (quietly_trans _ s2); [exact Hq|apply Hh].
  - apply Hh.
Qed.

(** An iteration either leaves everything but the clock and the log of
    callbacks and timers as the rate check left it, and does so whenever
    the counter has reached the ceiling or no offset is held; or it passes
    the check and makes the one request. *)
Lemma poll_once_effect c s :
  (quietly (reset s) (snd (poll_once c s))
   /\ (MAX_REQUESTS_PER_MINUTE <= requestCount (reset s)
       \/ truthy_string (lastOffset s) = false))
  \/ (requestCount (reset s) < MAX_REQUESTS_PER_MINUTE
      /\ exists held,
           lastOffset s = Some held /\ held <> ""
           /\ quietly (snd (request_next c held (reset s)))
                      (snd (poll_once c s))).
Proof.
  destruct (Z.ltb_spec (requestCount (reset s)) MAX_REQUESTS_PER_MINUTE)
    as [Hlt|Hge].
  - destruct (truthy_string (lastOffset s)) eqn:Htr.
    + right. split; [exact Hlt|].
      destruct (lastOffset s) as [held|] eqn:Hlo; [|discriminate].
      assert (Hne : held <> "").
      { intros ->. cbn in Htr. discriminate. }
      exists held. split; [reflexivity|]. split; [exact Hne|].
      rewrite (poll_once_allowed c s held Hlt Hlo Hne).
      apply try_catch_after;
        [apply always_sleep|intros e; apply always_outer_handler].
    + left. split; [|right; reflexivity].
      rewrite (poll_once_idle c s Hlt Htr).
      destruct (reset_frame s) as (Hn & Hr & Hlo).
      unfold quietly. cbn. rewrite Hn, Hr, Hlo, call_times_app. cbn.
      rewrite app_nil_r. repeat split; try reflexivity; unfold POLL_INTERVAL_MS; lia.
  - left. split; [|left; exact Hge].
    unfold poll_once. unfold try_catch at 1, bind at 1.
    rewrite checkRateLimit_eq.
    apply Z.ltb_ge in Hge. rewrite Hge. cbn [negb].
    change (quietly (reset s)
              (snd (try_catch
                      (t <- date_now ;;
                       ts <- gets lastMinuteTimestamp ;;
                       call_onStatusUpdate c
                         (RateLimitReached
                            (ceil_div (60000 - (t - ts)) 1000)) ;;;
                       on_net (sleep (60000 - (t - ts))))
                      (fun error =>
                         running <- gets isRunning ;;
                         (if running
                          then call_onError c
                                 ("Streaming error: " +++ toString error)
                          else ret tt) ;;;
                         on_net (sleep (POLL_INTERVAL_MS * 2)))
                      (reset s)))).
    apply always_try_catch; [exact quietly_trans| |].
    + apply always_bind; [exact quietly_trans| |intros t].
      { intros s0. apply quietly_refl. }
      apply always_bind; [exact quietly_trans| |intros ts].
      { intros s0. apply quietly_refl. }
      apply always_bind; [exact quietly_trans| |intros _].
      * apply always_call_onStatusUpdate.
      * apply always_sleep.
    + intros e. apply always_outer_handler.
Qed.

(** C2, as the code has it.  In every iteration of the loop, for every
    consumer and from every state, the held offset either stays as it is or
    becomes the [currentOffset] of the entry that this iteration's request
    returned, and that offset differs from the one held before the
    iteration.  Nothing else assigns it. *)
Theorem poll_once_held_offset c s :
  lastOffset (snd (poll_once c s)) = lastOffset s
  \/ exists held e,
       lastOffset s = Some held
       /\ fst (getNextJournalEntry held (net s)) = Ok e
       /\ lastOffset (snd (poll_once c s)) = Some (currentOffset (entry e))
       /\ currentOffset (entry e) <> held.
Proof.
  destruct (reset_frame s) as (Hn & _ & Hlo).
  destruct (poll_once_effect c s) as [[Hq _]|(_ & held & Hheld & _ & Hq)].
  - left. destruct Hq as (_ & Hq & _). congruence.
  - destruct Hq as (_ & Hq & _).
    destruct (request_next_effect c held (reset s))
      as (_ & _ & _ & _ & _ & [Hsame|(e & He & Hnew & Hne)]).
    + left. congruence.
    + right. exists held, e. rewrite Hn in He.
      repeat split; try assumption. congruence.
Qed.

(** C2, counterexample to the held offset never returning to an earlier
    value: the service answers the request after "A" with an entry at "B"
    and the request after "B" with an entry at "A"; the loop holds "A",
    then "B", then "A" again. *)
Lemma held_offset_returns :
  let s := Samples.polling "A" 1 1000
             (Samples.net 1100
                [Samples.entry_reply "B"; Samples.entry_reply "A"]
                [Samples.blob_reply "B"; Samples.blob_reply "A"]) in
  lastOffset s = Some "A"
  /\ lastOffset (snd (pollForNewEntries Samples.quiet 1 s)) = Some "B"
  /\ lastOffset (snd (pollForNewEntries Samples.quiet 2 s)) = Some "A".
Proof. cbn. repeat split. Qed.

(** *** The rate budget *)

Lemma count_since_app start l1 l2 :
  count_since start (l1 ++ l2) = count_since start l1 + count_since start l2.
Proof.
  unfold count_since. rewrite filter_app, length_app. lia.
Qed.

Lemma count_since_before start l :
  (forall t, In t l -> t < start) -> count_since start l = 0.
Proof.
  unfold count_since. induction l as [|t l IH]; intros H; [reflexivity|].
  cbn [filter].
  destruct (Z.leb_spec start t) as [Hle|Hgt].
  - specialize (H t (or_introl eq_refl)). lia.
  - apply IH. intros t' Ht'. apply H. now right.
Qed.

Lemma count_since_one start t : 0 <= count_since start [t] <= 1.
Proof.
  unfold count_since. cbn. destruct (start <=? t); cbn; lia.
Qed.

Lemma budgeted_quietly s s' : budgeted s -> quietly s s' -> budgeted s'.
Proof.
  unfold budgeted, quietly, punctual.
  intros ((Hpa & Hpb) & Hcalls & Hcnt & Hmax)
         (_ & _ & Hc & Hts & Ha & Hb & Hl & Hclk).
  rewrite Ha, Hb, Hl, Hts, Hc.
  repeat split; try assumption;
    intros; destruct (Hcalls t) as [Hle Hor]; try assumption; lia.
Qed.

Lemma budgeted_reset s :
  budgeted s ->
  budgeted (reset s)
  /\ clock (net (reset s)) - lastMinuteTimestamp (reset s) < 60000.
Proof.
  intros Hb. unfold reset.
  destruct (Z.geb_spec (clock (net s) - lastMinuteTimestamp s) 60000)
    as [Hge|Hlt]; [|split; [exact Hb|lia]].
  destruct Hb as (Hp & Hcalls & Hcnt & Hmax).
  split; [|cbn; lia].
  assert (H0 : count_since (clock (net s)) (call_times (log (net s))) = 0).
  { apply count_since_before. intros t Ht.
    destruct (Hcalls t Ht) as [_ [Hlt|Hwin]]; lia. }
  unfold budgeted. cbn. rewrite H0.
  split; [exact Hp|]. split; [|unfold MAX_REQUESTS_PER_MINUTE; lia].
  intros t Ht. destruct (Hcalls t Ht) as [Hle _]. lia.
Qed.

Lemma budgeted_request c held s :
  budgeted s ->
  clock (net s) - lastMinuteTimestamp s < 60000 ->
  requestCount s < MAX_REQUESTS_PER_MINUTE ->
  budgeted (snd (request_next c held s)).
Proof.
  intros (Hp & Hcalls & Hcnt & Hmax) Hwin Hlt.
  destruct (request_next_effect c held s)
    as (_ & Hts & Hc & Hl & Hpun & _).
  destruct (Hpun Hp) as [Hclk Hp'].
  unfold budgeted. rewrite Hts, Hl, count_since_app.
  pose proof (count_since_one (lastMinuteTimestamp s) (clock (net s))).
  split; [exact Hp'|]. split; [|lia].
  intros t Ht. apply in_app_or in Ht.
  destruct Ht as [Ht|[<-|[]]].
  - destruct (Hcalls t Ht) as [Hle _]. lia.
  - lia.
Qed.

Lemma budgeted_poll_once c s : budgeted s -> budgeted (snd (poll_once c s)).
Proof.
  intros Hb. destruct (budgeted_reset s Hb) as [Hb1 Hwin].
  destruct (poll_once_effect c s) as [[Hq _]|(Hlt & held & _ & _ & Hq)].
  - exact (budgeted_quietly _ _ Hb1 Hq).
  - apply (budgeted_quietly _ _ (budgeted_request c held _ Hb1 Hwin Hlt) Hq).
Qed.

Lemma budgeted_pollForNewEntries c turns :
  forall s, budgeted s -> budgeted (snd (pollForNewEntries c turns s)).
Proof.
  induction turns as [|k IH]; intros s Hb; [exact Hb|].
  cbn [pollForNewEntries]. unfold bind, gets.
  destruct (isRunning s); [|exact Hb].
  pose proof (budgeted_poll_once c s Hb) as H1.
  destruct (poll_once c s) as [[u|e] s1]; cbn [snd] in *;
    [apply IH|]; exact H1.
Qed.

Lemma budgeted_poll_in_background c turns s :
  budgeted s -> budgeted (snd (poll_in_background c turns s)).
Proof.
  intros Hb. unfold poll_in_background, try_catch.
  pose proof (budgeted_pollForNewEntries c turns s Hb) as H1.
  destruct (pollForNewEntries c turns s) as [[u|e] s1]; cbn [snd] in *;
    [exact H1|].
  apply (budgeted_quietly s1); [exact H1|].
  apply always_bind; [exact quietly_trans|apply always_gets, quietly_refl|].
  intros running.
  destruct running;
    [apply always_call_onError|apply always_ret, quietly_refl].
Qed.

Lemma getLatestJournalEntry_effect n :
  call_times (log (snd (getLatestJournalEntry n)))
  = call_times (log n) ++ [clock n]
  /\ (punctual n ->
      clock n <= clock (snd (getLatestJournalEntry n))
      /\ punctual (snd (getLatestJournalEntry n))).
Proof.
  unfold getLatestJournalEntry, bind, call, punctual.
  destruct (api n) as [|x xs] eqn:Hapi.
  - cbn. rewrite call_times_app. cbn. split; [reflexivity|].
    intros [_ Hb]. repeat split; [lia|constructor|exact Hb].
  - assert (Hpun : Forall (fun x => 0 <= took x) (x :: xs) /\
                   Forall (fun b => 0 <= blob_took b) (blobs n) ->
                   0 <= took x /\ Forall (fun x => 0 <= took x) xs
                   /\ Forall (fun b => 0 <= blob_took b) (blobs n)).
    { intros [Ha Hb]. inversion Ha; subst. auto. }
    destruct (outcome x) as [body|e].
    + unfold downloadJournalData, bind, fetch. cbn [blobs snd fst].
      destruct (blobs n) as [|b bs] eqn:Hbl.
      * cbn. rewrite !call_times_app. cbn. rewrite app_nil_r.
        split; [reflexivity|]. intros H.
        destruct (Hpun H) as (H0 & Hxs & _).
        repeat split; [lia|exact Hxs|constructor].
      * destruct (blob_outcome b) as [d|st message|cause]; cbn;
          try (destruct (is_number st 404); cbn;
               try (destruct (is_number st 403); cbn));
          rewrite !call_times_app; cbn; rewrite app_nil_r;
          (split; [reflexivity|]); intros H;
          destruct (Hpun H) as (H0 & Hxs & Hb);
          inversion Hb; subst; repeat split; try lia; assumption.
    + cbn. rewrite call_times_app. cbn. split; [reflexivity|].
      intros H. destruct (Hpun H) as (H0 & Hxs & Hb).
      repeat split; [lia|exact Hxs|exact Hb].
Qed.

(** After the initial fetch at most one call has been issued, at the start
    of the first window; when polling is entered the budget invariant
    holds. *)
Lemma establish_budget c n :
  call_times (log n) = [] -> punctual n ->
  (fst (establish c (fresh_stream n)) = Ok true ->
   budgeted (snd (establish c (fresh_stream n)))
   /\ requestCount (snd (establish c (fresh_stream n))) = 1)
  /\ count_since (lastMinuteTimestamp (snd (establish c (fresh_stream n))))
       (call_times (log (net (snd (establish c (fresh_stream n))))))
     <= MAX_REQUESTS_PER_MINUTE.
Proof.
  intros Hlog Hp.
  assert (Hone : count_since (clock n) [clock n] <= MAX_REQUESTS_PER_MINUTE).
  { pose proof (count_since_one (clock n) (clock n)).
    unfold MAX_REQUESTS_PER_MINUTE. lia. }
  assert (Hnil : count_since (clock n) [] <= MAX_REQUESTS_PER_MINUTE).
  { unfold count_since, MAX_REQUESTS_PER_MINUTE. cbn. lia. }
  unfold establish, try_catch, bind, call_onStatusUpdate, call_onError,
    returns, on_net, zoom, record, modify, set_lastOffset,
    incrementRequestCount, fresh_stream, bind.
  cbn -[getLatestJournalEntry String.append].
  destruct (onStatusUpdate c GettingInitialEntry) as [thrown|];
    cbn -[getLatestJournalEntry String.append].
  - destruct (onError c _); cbn -[String.append];
      rewrite !call_times_app, Hlog; cbn;
      (split; [discriminate|exact Hnil]).
  - set (n0 := {| clock := clock n; api := api n; blobs := blobs n;
                  log := log n ++ [StatusUpdate GettingInitialEntry] |}).
    destruct (getLatestJournalEntry_effect n0) as [Hcalls Hpun].
    assert (Hp0 : punctual n0) by exact Hp.
    destruct (Hpun Hp0) as [Hclk Hp1]. clear Hpun.
    assert (Hcalls1 :
              call_times (log (snd (getLatestJournalEntry n0))) = [clock n]).
    { rewrite Hcalls. unfold n0. cbn [log clock].
      rewrite call_times_app, Hlog. reflexivity. }
    clear Hcalls. cbn [clock n0] in Hclk. fold n0 in Hclk.
    destruct (getLatestJournalEntry n0) as [[[oe d]|err] n1];
      cbn -[String.append] in *.
    + destruct oe as [e|]; cbn -[String.append].
      * destruct (onStatusUpdate c _) as [thrown|]; cbn -[String.append].
        -- destruct (onError c _); cbn -[String.append];
             rewrite !call_times_app, Hcalls1; cbn;
             (split; [discriminate|exact Hone]).
        -- rewrite !call_times_app, Hcalls1. cbn [call_times app].
           split; [|exact Hone]. intros _. split; [|reflexivity].
           unfold budgeted. cbn -[count_since].
           rewrite !call_times_app, Hcalls1. cbn [call_times app].
           pose proof (count_since_one (clock n) (clock n)).
           split; [exact Hp1|]. split; [|split; [lia|exact Hone]].
           intros t [<-|[]]. lia.
      * destruct (onError c _); cbn -[String.append];
          rewrite !call_times_app, Hcalls1; cbn;
          (split; [discriminate|exact Hone]).
    + destruct (onError c _); cbn -[String.append];
        rewrite !call_times_app, Hcalls1; cbn;
        (split; [discriminate|exact Hone]).
Qed.

Lemma reset_rule s :
  (clock (net s) - lastMinuteTimestamp s >= 60000 ->
   requestCount (reset s) = 0
   /\ lastMinuteTimestamp (reset s) = clock (net s))
  /\ (clock (net s) - lastMinuteTimestamp s < 60000 -> reset s = s).
Proof.
  unfold reset.
  destruct (Z.geb_spec (clock (net s) - lastMinuteTimestamp s) 60000);
    split; intros; try lia; auto.
Qed.

(** The iteration that finds the budget used up, with [onStatusUpdate]
    returning. *)
Lemma poll_once_blocked c s :
  MAX_REQUESTS_PER_MINUTE <= requestCount s ->
  clock (net s) - lastMinuteTimestamp s < 60000 ->
  onStatusUpdate c
    (RateLimitReached
       (ceil_div (60000 - (clock (net s) - lastMinuteTimestamp s)) 1000))
  = None ->
  poll_once c s
  = (Ok tt,
     {| isRunning := isRunning s; lastOffset := lastOffset s;
        requestCount := requestCount s;
        lastMinuteTimestamp := lastMinuteTimestamp s;
        net := {| clock := clock (net s)
                           + Z.max 0 (60000 - (clock (net s)
                                               - lastMinuteTimestamp s));
                  api := api (net s); blobs := blobs (net s);
                  log := (log (net s)
                          ++ [StatusUpdate
                                (RateLimitReached
                                   (ceil_div
                                      (60000 - (clock (net s)
                                                - lastMinuteTimestamp s))
                                      1000))])
                         ++ [Slept (60000 - (clock (net s)
                                             - lastMinuteTimestamp s))] |} |}).
Proof.
  intros Hge Hwin Hcb.
  unfold poll_once, try_catch. unfold bind at 1.
  rewrite checkRateLimit_eq.
  rewrite (proj2 (reset_rule s) Hwin).
  apply Z.ltb_ge in Hge. rewrite Hge. cbn [negb].
  unfold bind, date_now, gets, call_onStatusUpdate, returns, on_net, zoom,
    bind.
  cbn -[ceil_div Z.sub Z.add Z.max]. rewrite Hcb. reflexivity.
Qed.

(** With the counter at the ceiling after the check, no consumer can make
    the iteration issue a call. *)
Lemma poll_once_blocked_silent c s :
  MAX_REQUESTS_PER_MINUTE <= requestCount (reset s) ->
  call_times (log (net (snd (poll_once c s)))) = call_times (log (net s))
  /\ api (net (snd (poll_once c s))) = api (net s).
Proof.
  intros Hge. destruct (reset_frame s) as (Hn & _ & _).
  destruct (poll_once_effect c s) as [[Hq _]|(Hlt & _)]; [|lia].
  destruct Hq as (_ & _ & _ & _ & Ha & _ & Hl & _).
  rewrite Hl, Ha, Hn. auto.
Qed.

(** A run that exhausts the budget: polls every 2000 ms from time 1060 with
    instant answers; the 30th call is issued at 57060, the next iteration
    waits until 61000, and the 31st call is issued then. *)
Example budget_exhausted_run :
  let n := Samples.net 1000
             (Samples.entry_reply "A"
              :: repeat {| took := 0; outcome := outcome Samples.no_content |}
                        40)
             [{| blob_took := 0;
                 blob_outcome := BlobOk (Samples.data_at "A") |}] in
  let final := snd (streamJournalEntries Samples.quiet 31 n) in
  List.length (call_times (log (net final))) = 31%nat
  /\ nth 29 (call_times (log (net final))) 0 = 57060
  /\ nth 30 (call_times (log (net final))) 0 = 61000
  /\ In (Slept 1940) (log (net final)).
Proof. vm_compute. repeat split. auto 200. Qed.

End CursorLoop.

(* ===================================================================== *)
(** * Further properties of the modelled code *)
(* ===================================================================== *)

(** ** Credential cache: refresh, clear, failures, token information *)

Section CredentialCacheMore.
Import Wire Auth AuthInfo.

Lemma getAccessToken_refreshes s :
  hasValidToken s = false -> getAccessToken s = refreshToken s.
Proof.
  unfold hasValidToken, getAccessToken.
  destruct (currentToken (manager s)) as [token|]; [|reflexivity].
  destruct (isTokenExpired (clock (world s)) token); [reflexivity|].
  discriminate.
Qed.

Lemma refreshToken_granted s lat granted rest :
  tokenEndpoint (world s) = TokenGranted lat granted :: rest ->
  refreshToken s
  = (Ok (access_token granted),
     {| world := {| clock := clock (world s) + lat; tokenEndpoint := rest;
                    apiServer := apiServer (world s);
                    wire := wire (world s)
                            ++ [TokenExchange (clock (world s))] |};
        manager := {| debug := debug (manager s);
                      currentToken :=
                        Some (stamped granted (clock (world s) + lat));
                      lastTokenLogTime := lastTokenLogTime (manager s) |} |}).
Proof.
  intros Hep. unfold refreshToken, fetchAccessToken, bind, post_token.
  rewrite Hep. reflexivity.
Qed.

(** X1.  A forced refresh exchanges a token whatever the cache holds, also
    when the cached token is still valid: one exchange is sent, the granted
    token is returned and replaces the cached one, stamped with its arrival
    time; when the endpoint issues a different access token the result
    differs from the token held before. *)
Theorem refreshToken_replaces_valid_token s old lat granted rest :
  currentToken (manager s) = Some old ->
  isTokenExpired (clock (world s)) old = false ->
  tokenEndpoint (world s) = TokenGranted lat granted :: rest ->
  fst (refreshToken s) = Ok (access_token granted)
  /\ currentToken (manager (snd (refreshToken s)))
     = Some (stamped granted (clock (world s) + lat))
  /\ wire (world (snd (refreshToken s)))
     = wire (world s) ++ [TokenExchange (clock (world s))]
  /\ fst (getAccessToken s) = Ok (access_token old)
  /\ (access_token granted <> access_token old ->
      fst (refreshToken s) <> fst (getAccessToken s)).
Proof.
  intros Hold Hvalid Hep.
  rewrite (refreshToken_granted s lat granted rest Hep). cbn [fst snd].
  destruct (getAccessToken_serves_cache s old Hold Hvalid) as (Hget & _).
  rewrite Hget. repeat split. intros Hne [= Heq]. contradiction.
Qed.

Lemma refreshToken_replaces_valid_token_witness :
  let s := Samples.sys (Some (Samples.cached "old" 1800 1000)) 2000
             [TokenGranted 7 (Samples.token "new" 1800)] [] in
  fst (refreshToken s) = Ok "new"
  /\ fst (refreshToken s) <> fst (getAccessToken s).
Proof.
  intros s.
  destruct (refreshToken_replaces_valid_token s
              (Samples.cached "old" 1800 1000) 7
              (Samples.token "new" 1800) [] eq_refl eq_refl eq_refl)
    as (H1 & _ & _ & _ & H5).
  split; [exact H1|]. apply H5. discriminate.
Defined.

(** X2.  How long a fetched token is served from the cache.  After
    [getAccessToken] has fetched a token with lifetime [L] seconds, the cache
    holds a valid token [d] milliseconds later exactly when
    [d < (L - 300) * 1000].  A token granted for 300 seconds or less is
    therefore never served: every later call exchanges again. *)
Theorem fetched_token_validity_window s lat granted rest :
  hasValidToken s = false ->
  tokenEndpoint (world s) = TokenGranted lat granted :: rest ->
  clock (world s) + lat <> 0 ->
  (forall d,
     hasValidToken (snd (elapse d (snd (getAccessToken s))))
     = (d <? (expires_in granted - 300) * 1000))
  /\ (expires_in granted <= 300 ->
      forall d, 0 <= d ->
        hasValidToken (snd (elapse d (snd (getAccessToken s)))) = false).
Proof.
  intros Hinv Hep Hnz.
  assert (Hwin : forall d,
            hasValidToken (snd (elapse d (snd (getAccessToken s))))
            = (d <? (expires_in granted - 300) * 1000)).
  { intros d. rewrite (getAccessToken_refreshes s Hinv).
    rewrite (refreshToken_granted s lat granted rest Hep).
    unfold hasValidToken, isTokenExpired. cbn.
    destruct (Z.eqb_spec (clock (world s) + lat) 0) as [E|_];
      [contradiction|]. cbn.
    destruct (Z.geb_spec (clock (world s) + lat + d)
                (clock (world s) + lat + expires_in granted * 1000
                 - 300000));
      destruct (Z.ltb_spec d ((expires_in granted - 300) * 1000));
      cbn; try reflexivity; lia. }
  split; [exact Hwin|].
  intros Hshort d Hd. rewrite Hwin. apply Z.ltb_ge. lia.
Qed.

Lemma fetched_token_validity_window_witness :
  let s := Samples.sys None 2000
             [TokenGranted 7 (Samples.token "short" 300)] [] in
  hasValidToken (snd (elapse 0 (snd (getAccessToken s)))) = false.
Proof.
  intros s.
  destruct (fetched_token_validity_window s 7 (Samples.token "short" 300) []
              eq_refl eq_refl ltac:(cbn; lia)) as [_ H].
  apply H; [cbn; lia|lia].
Defined.

(** X3.  After [clearToken] the next [getAccessToken] exchanges a token,
    whatever was cached before, and returns what the endpoint grants. *)
Theorem clearToken_then_getAccessToken s lat granted rest :
  tokenEndpoint (world s) = TokenGranted lat granted :: rest ->
  let r := (clearToken ;;; getAccessToken) s in
  fst r = Ok (access_token granted)
  /\ wire (world (snd r)) = wire (world s) ++ [TokenExchange (clock (world s))]
  /\ currentToken (manager (snd r))
     = Some (stamped granted (clock (world s) + lat))
  /\ currentToken (manager (snd (clearToken s))) = None.
Proof.
  intros Hep r. unfold r, bind, clearToken, set_currentToken, modify.
  cbn [fst snd].
  rewrite getAccessToken_refreshes by reflexivity.
  rewrite (refreshToken_granted _ lat granted rest) by exact Hep.
  cbn. repeat split.
Qed.

Lemma clearToken_then_getAccessToken_witness :
  let s := Samples.sys (Some (Samples.cached "old" 1800 1000)) 2000
             [TokenGranted 7 (Samples.token "new" 1800)] [] in
  fst ((clearToken ;;; getAccessToken) s) = Ok "new".
Proof.
  intros s.
  exact (proj1 (clearToken_then_getAccessToken s 7
                  (Samples.token "new" 1800) [] eq_refl)).
Defined.

Lemma fetchAccessToken_failure s e :
  fst (fetchAccessToken s) = Throw e ->
  (exists m c k, e = AuthError m c k)
  /\ manager (snd (fetchAccessToken s)) = manager s.
Proof.
  unfold fetchAccessToken, bind, post_token.
  destruct (tokenEndpoint (world s)) as [|r rest]; cbn.
  - intros [= <-]. split; [eauto|reflexivity].
  - destruct r as [d data|d m [b|]|d c]; cbn; try discriminate;
      intros [= <-]; (split; [eauto|reflexivity]).
Qed.

Lemma refreshToken_failure s e :
  fst (refreshToken s) = Throw e ->
  (exists m c k, e = AuthError m c k)
  /\ manager (snd (refreshToken s)) = manager s.
Proof.
  unfold refreshToken, bind.
  pose proof (fetchAccessToken_failure s) as H.
  destruct (fetchAccessToken s) as [[tok|e'] s']; cbn in *;
    [discriminate|].
  intros [= <-]. apply H. reflexivity.
Qed.

(** X4.  A failed exchange leaves the credential cache as it was: whenever
    [refreshToken] or [getAccessToken] throws, the exception is an
    [AuthError], the cached token (valid, expired or absent) is unchanged,
    and exactly one exchange was attempted; nothing is retried. *)
Theorem exchange_failure_keeps_cache s e :
  (fst (refreshToken s) = Throw e ->
   (exists m c k, e = AuthError m c k)
   /\ currentToken (manager (snd (refreshToken s)))
      = currentToken (manager s)
   /\ exchanges_in (wire (world (snd (refreshToken s))))
      = S (exchanges_in (wire (world s))))
  /\ (fst (getAccessToken s) = Throw e ->
      (exists m c k, e = AuthError m c k)
      /\ hasValidToken s = false
      /\ currentToken (manager (snd (getAccessToken s)))
         = currentToken (manager s)
      /\ exchanges_in (wire (world (snd (getAccessToken s))))
         = S (exchanges_in (wire (world s)))).
Proof.
  assert (Hex : exchanges_in (wire (world (snd (refreshToken s))))
                = S (exchanges_in (wire (world s)))).
  { rewrite refreshToken_wire.
    induction (wire (world s)) as [|ev l IH]; [reflexivity|].
    destruct ev; cbn; rewrite ?IH; reflexivity. }
  split.
  - intros Hf. destruct (refreshToken_failure s e Hf) as [Hauth Hm].
    split; [exact Hauth|]. split; [now rewrite Hm|exact Hex].
  - intros Hf.
    destruct (hasValidToken s) eqn:Hv.
    + exfalso. unfold hasValidToken in Hv.
      destruct (currentToken (manager s)) as [tok|] eqn:Hc; [|discriminate].
      destruct (isTokenExpired (clock (world s)) tok) eqn:He;
        [discriminate|].
      destruct (getAccessToken_serves_cache s tok Hc He) as (Hr & _).
      congruence.
    + rewrite (getAccessToken_refreshes s Hv) in Hf |- *.
      destruct (refreshToken_failure s e Hf) as [Hauth Hm].
      split; [exact Hauth|]. split; [reflexivity|].
      split; [now rewrite Hm|exact Hex].
Qed.

Lemma exchange_failure_keeps_cache_witness :
  let stale := Samples.cached "stale" 1800 1000 in
  let s := Samples.sys (Some stale) 5000000
             [TokenRefused 9 "Request failed with status code 400"
                (Some {| ae_message := Some "bad client";
                         ae_correlationId := Some "c-7";
                         ae_category := None |})] [] in
  fst (getAccessToken s)
  = Throw (AuthError "OAuth authentication failed: bad client"
                     (Some "c-7") None)
  /\ currentToken (manager (snd (getAccessToken s))) = Some stale.
Proof.
  intros stale s.
  destruct (exchange_failure_keeps_cache s
              (AuthError "OAuth authentication failed: bad client"
                         (Some "c-7") None)) as [_ H].
  destruct (H eq_refl) as (_ & _ & Hc & _).
  split; [reflexivity|exact Hc].
Defined.

(** X5.  [getTokenInfo] reads the cache without changing it and agrees
    with [getAccessToken]: without a token it reports expired and no
    remaining time; for a token with a timestamp other than 0 the remaining
    seconds are never negative, are at least 300 whenever the token is
    reported unexpired and at most 300 whenever it is reported expired
    (the five-minute buffer), and [getAccessToken] sends an exchange exactly
    when the token is reported expired. *)
Theorem getTokenInfo_consistent s :
  (currentToken (manager s) = None ->
   getTokenInfo s
   = {| hasToken := false; isExpired := true; expiresIn := None |})
  /\ (forall token t,
        currentToken (manager s) = Some token ->
        obtained_at token = Some t -> t <> 0 ->
        exists left,
          expiresIn (getTokenInfo s) = Some left /\ 0 <= left
          /\ (isExpired (getTokenInfo s) = false -> 300 <= left)
          /\ (isExpired (getTokenInfo s) = true -> left <= 300))
  /\ isExpired (getTokenInfo s) = negb (hasValidToken s)
  /\ wire (world (snd (getAccessToken s)))
     = wire (world s)
       ++ (if isExpired (getTokenInfo s)
           then [TokenExchange (clock (world s))] else []).
Proof.
  split; [|split; [|split]].
  - intros Hc. unfold getTokenInfo. rewrite Hc. reflexivity.
  - intros token t Hc Ht Hnz. unfold getTokenInfo. rewrite Hc.
    cbn [expiresIn isExpired].
    rewrite (isTokenExpired_dated _ token t Ht Hnz). rewrite Ht.
    cbn [truthy_number]. destruct (Z.eqb_spec t 0); [contradiction|].
    cbn [negb]. eexists. split; [reflexivity|].
    set (rest := t + expires_in token * 1000 - clock (world s)).
    split; [lia|]. split.
    + intros Hne.
      destruct (Z.geb_spec (clock (world s))
                  (t + expires_in token * 1000 - 300000)); [discriminate|].
      assert (300 <= rest / 1000)
        by (apply Z.div_le_lower_bound; unfold rest; lia).
      lia.
    + intros He.
      destruct (Z.geb_spec (clock (world s))
                  (t + expires_in token * 1000 - 300000)); [|discriminate].
      assert (rest / 1000 <= 300)
        by (apply Z.div_le_upper_bound; unfold rest; lia).
      lia.
  - unfold getTokenInfo, hasValidToken.
    destruct (currentToken (manager s)) as [token|]; cbn;
      [now rewrite negb_involutive|reflexivity].
  - rewrite getAccessToken_wire. unfold getTokenInfo, hasValidToken.
    destruct (currentToken (manager s)) as [token|]; cbn; [|reflexivity].
    destruct (isTokenExpired (clock (world s)) token); reflexivity.
Qed.

Lemma getTokenInfo_consistent_witness :
  let s := Samples.sys (Some (Samples.cached "tok" 1800 1000)) 1300500
             [] [] in
  getTokenInfo s
  = {| hasToken := true; isExpired := false; expiresIn := Some 500 |}.
Proof.
  intros s.
  destruct (getTokenInfo_consistent s) as (_ & H & _ & _).
  destruct (H (Samples.cached "tok" 1800 1000) 1000 eq_refl eq_refl
              ltac:(discriminate)) as (left & Hl & _).
  reflexivity.
Defined.

End CredentialCacheMore.

(** ** HTTP gateway: what callers can and cannot receive *)

Section GatewayMore.
Import Wire Auth ApiClient GatewayView.

Lemma axiosInstance_upto_typed fuel :
  forall req s err,
    (List.length (apiServer (world s)) < fuel)%nat ->
    fst (axiosInstance_upto fuel req s) = Throw err ->
    exists m sc c k, err = ApiClientError m sc c k.
Proof.
  assert (Hcreate : forall e err, Throw (createApiError e) = @Throw Response err ->
            exists m sc c k, err = ApiClientError m sc c k).
  { intros e err [= <-].
    destruct (createApiError_typed e) as (m & c & k & ->). eauto. }
  induction fuel as [|f IH]; intros req s err Hlen; [lia|].
  cbn [axiosInstance_upto]. unfold try_catch, bind.
  pose proof (getAccessToken_apiServer s) as Hg.
  pose proof (getAccessToken_throws s) as Hgt.
  destruct (getAccessToken s) as [[tok|e] s1]; cbn [fst snd] in *.
  - pose proof (dispatchRequest_401 (with_bearer tok req) s1) as Hd.
    destruct (dispatchRequest (with_bearer tok req) s1) as [[resp|e] s2];
      cbn [fst snd] in *; [discriminate|].
    destruct (is_number (response_status e) 401) eqn:H401;
      [|apply Hcreate].
    specialize (Hd e eq_refl H401).
    pose proof (refreshToken_apiServer s2) as Hr.
    destruct (refreshToken s2) as [[tok1|e1] s3]; cbn [fst snd] in *;
      [|apply Hcreate].
    pose proof (getAccessToken_apiServer s3) as Hg3.
    destruct (getAccessToken s3) as [[tok2|e2] s4]; cbn [fst snd] in *;
      [|apply Hcreate].
    apply IH. rewrite Hg3, Hr. rewrite Hg in Hd. lia.
  - rewrite (Hgt e eq_refl). cbn. apply Hcreate.
Qed.

(** X6.  Whatever the servers answer, a gateway call that fails throws an
    [ApiClientError]: no [AxiosError], [AuthError] or other exception ever
    reaches the caller of [get], [post], [put] or [delete]. *)
Theorem gateway_failures_are_typed e s err :
  (fst (ApiClient.get e s) = Throw err
   \/ fst (ApiClient.post e s) = Throw err
   \/ fst (ApiClient.put e s) = Throw err
   \/ fst (ApiClient.delete e s) = Throw err) ->
  exists m sc c k, err = ApiClientError m sc c k.
Proof.
  assert (Hinst : forall m err',
            fst (axiosInstance (request m e) s) = Throw err' ->
            exists m' sc c k, err' = ApiClientError m' sc c k).
  { intros m err'. unfold axiosInstance.
    apply axiosInstance_upto_typed. lia. }
  unfold ApiClient.get, ApiClient.post, ApiClient.put, ApiClient.delete,
    try_catch, bind.
  intros [H|[H|[H|H]]]; revert H.
  - pose proof (Hinst GET) as Hi.
    destruct (axiosInstance (request GET e) s) as [[resp|e'] s1];
      cbn [fst snd] in *.
    + destruct (status resp =? 204); cbn; [|discriminate].
      intros [= <-]. eauto.
    + intros [= <-]. apply Hi. reflexivity.
  - pose proof (Hinst POST) as Hi.
    destruct (axiosInstance (request POST e) s) as [[resp|e'] s1];
      cbn [fst snd] in *; [discriminate|].
    intros [= <-]. apply Hi. reflexivity.
  - pose proof (Hinst PUT) as Hi.
    destruct (axiosInstance (request PUT e) s) as [[resp|e'] s1];
      cbn [fst snd] in *; [discriminate|].
    intros [= <-]. apply Hi. reflexivity.
  - pose proof (Hinst DELETE) as Hi.
    destruct (axiosInstance (request DELETE e) s) as [[resp|e'] s1];
      cbn [fst snd] in *; [discriminate|].
    intros [= <-]. apply Hi. reflexivity.
Qed.

Lemma gateway_failures_are_typed_witness :
  exists m sc c k,
    ApiClientError "HTTP Error: Network Error" None None None
    = ApiClientError m sc c k.
Proof.
  apply (gateway_failures_are_typed JournalLatest
           (Samples.sys (Some (Samples.cached "t0" 1800 1000)) 2000 [] [])).
  left. reflexivity.
Defined.

(** X7.  When no token can be obtained for a request, the request is not
    sent: the API server sees nothing, and the caller receives an
    [ApiClientError] without status whose message is "HTTP Error: "
    followed by the message of the authentication failure; the correlation
    id and category of that failure are dropped. *)
Theorem gateway_without_token_sends_nothing e s m c k :
  fst (getAccessToken s) = Throw (AuthError m c k) ->
  fst (ApiClient.get e s)
  = Throw (ApiClientError ("HTTP Error: " +++ m) None None None)
  /\ fst (ApiClient.delete e s)
     = Throw (ApiClientError ("HTTP Error: " +++ m) None None None)
  /\ snd (ApiClient.get e s) = snd (getAccessToken s)
  /\ requests_in (wire (world (snd (ApiClient.get e s))))
     = requests_in (wire (world s))
  /\ apiServer (world (snd (ApiClient.get e s))) = apiServer (world s).
Proof.
  intros Hf.
  assert (Hreq : requests_in (wire (world (snd (getAccessToken s))))
                 = requests_in (wire (world s))).
  { rewrite getAccessToken_wire.
    destruct (hasValidToken s); rewrite requests_in_app; cbn; lia. }
  pose proof (getAccessToken_apiServer s) as Hsrv.
  unfold ApiClient.get, ApiClient.delete, try_catch, bind, axiosInstance.
  cbn [axiosInstance_upto]. unfold try_catch, bind.
  destruct (getAccessToken s) as [r s1]; cbn [fst snd] in *. subst r.
  cbn. auto.
Qed.

Lemma gateway_without_token_sends_nothing_witness :
  let s := Samples.sys None 2000
             [TokenRefused 9 "timeout of 30000ms exceeded" None]
             [Responded 10 200 (PText "never asked")] in
  fst (ApiClient.get JournalLatest s)
  = Throw (ApiClientError
             "HTTP Error: OAuth request failed: timeout of 30000ms exceeded"
             None None None)
  /\ apiServer (world (snd (ApiClient.get JournalLatest s)))
     = [Responded 10 200 (PText "never asked")].
Proof.
  intros s.
  destruct (gateway_without_token_sends_nothing JournalLatest s
              "OAuth request failed: timeout of 30000ms exceeded"
              None (Some "HTTP_ERROR") eq_refl)
    as (H1 & _ & _ & _ & H5).
  split; [exact H1|exact H5].
Defined.

(** The first attempt of a call made with a valid cached token. *)
Lemma first_attempt req s tok r rest :
  currentToken (manager s) = Some tok ->
  isTokenExpired (clock (world s)) tok = false ->
  apiServer (world s) = r :: rest ->
  (token <- getAccessToken ;; dispatchRequest (with_bearer token req)) s
  = (answer r,
     {| world := {| clock := clock (world s) + http_latency r;
                    tokenEndpoint := tokenEndpoint (world s);
                    apiServer := rest;
                    wire := wire (world s)
                            ++ [ApiRequest (clock (world s)) (method req)
                                  (endpoint req)
                                  ("Bearer " +++ access_token tok)] |};
        manager := manager (snd (getAccessToken s)) |}).
Proof.
  intros Hc He Hs.
  destruct (getAccessToken_serves_cache s tok Hc He) as (Hr & Hw & _).
  unfold bind. destruct (getAccessToken s) as [res s1]; cbn [fst snd] in *.
  subst res. unfold dispatchRequest. rewrite Hw, Hs.
  destruct r as [d st body|d m]; cbn;
    [destruct ((200 <=? st) && (st <? 300))|]; reflexivity.
Qed.

Lemma axiosInstance_unfold req s :
  axiosInstance req s
  = try_catch
      (token <- getAccessToken ;; dispatchRequest (with_bearer token req))
      (fun error =>
         if is_number (response_status error) 401 then
           token <- try_catch (refreshToken ;;; getAccessToken)
                      (fun _ => throw (createApiError error)) ;;
           axiosInstance_upto (List.length (apiServer (world s)))
                              (with_bearer token req)
         else throw (createApiError error)) s.
Proof. reflexivity. Qed.

Lemma get_rethrows e s err s' :
  axiosInstance (request GET e) s = (Throw err, s') ->
  ApiClient.get e s = (Throw err, s').
Proof.
  intros H. unfold ApiClient.get, try_catch, bind. rewrite H. reflexivity.
Qed.

Lemma delete_rethrows e s err s' :
  axiosInstance (request DELETE e) s = (Throw err, s') ->
  ApiClient.delete e s = (Throw err, s').
Proof.
  intros H. unfold ApiClient.delete, try_catch, bind. rewrite H.
  reflexivity.
Qed.

Lemma axiosInstance_401_refresh_fails req s tok d body rest :
  currentToken (manager s) = Some tok ->
  isTokenExpired (clock (world s)) tok = false ->
  apiServer (world s) = Responded d 401 body :: rest ->
  refuses (tokenEndpoint (world s)) = true ->
  exists s',
    axiosInstance req s
    = (Throw (createApiError
                (AxiosError "Request failed with status code 401"
                            (Some (401, body)))), s')
    /\ requests_in (wire (world s')) = S (requests_in (wire (world s)))
    /\ exchanges_in (wire (world s')) = S (exchanges_in (wire (world s)))
    /\ apiServer (world s') = rest.
Proof.
  intros Hc He Hs Href.
  rewrite axiosInstance_unfold. unfold try_catch at 1.
  rewrite (first_attempt req s tok _ rest Hc He Hs).
  cbn -[getAccessToken axiosInstance_upto createApiError].
  unfold try_catch, bind, refreshToken, fetchAccessToken, bind, post_token.
  cbn -[getAccessToken axiosInstance_upto createApiError].
  destruct (tokenEndpoint (world s)) as [|[lat g|lat m [b|]|lat c] more];
    try discriminate;
    cbn -[createApiError];
    (eexists; split; [reflexivity|]);
    cbn; rewrite ?exchanges_in_app, ?requests_in_app; cbn;
    (repeat split; lia).
Qed.

(** X8.  A 401 whose token refresh fails: the original 401 is what the
    caller gets, as an [ApiClientError] with status code 401; one exchange
    was attempted, the request went out once and is not sent again, and the
    answers that follow stay unconsumed. *)
Theorem gateway_401_refresh_fails e s tok d body rest :
  currentToken (manager s) = Some tok ->
  isTokenExpired (clock (world s)) tok = false ->
  apiServer (world s) = Responded d 401 body :: rest ->
  refuses (tokenEndpoint (world s)) = true ->
  let r := ApiClient.get e s in
  fst r
  = Throw (createApiError
             (AxiosError "Request failed with status code 401"
                         (Some (401, body))))
  /\ (exists m c k, fst r = Throw (ApiClientError m (Some 401) c k))
  /\ requests_in (wire (world (snd r))) = S (requests_in (wire (world s)))
  /\ exchanges_in (wire (world (snd r))) = S (exchanges_in (wire (world s)))
  /\ apiServer (world (snd r)) = rest.
Proof.
  intros Hc He Hs Href r.
  destruct (axiosInstance_401_refresh_fails (request GET e) s tok d body rest
              Hc He Hs Href) as (s' & Hrun & Hrq & Hex & Hsrv).
  unfold r. rewrite (get_rethrows e s _ s' Hrun). cbn [fst snd].
  split; [reflexivity|]. split; [|auto].
  destruct (createApiError_typed
              (AxiosError "Request failed with status code 401"
                          (Some (401, body)))) as (m & c & k & ->).
  eauto.
Qed.

Lemma gateway_401_refresh_fails_witness :
  let s := Samples.sys (Some (Samples.cached "t0" 1800 1000)) 2000
             [TokenRefused 5 "Request failed with status code 400" None]
             [Responded 10 401 PNothing; Responded 10 200 (PText "ok")] in
  fst (ApiClient.get JournalLatest s)
  = Throw (ApiClientError
             "HTTP Error: Request failed with status code 401"
             (Some 401) None None)
  /\ apiServer (world (snd (ApiClient.get JournalLatest s)))
     = [Responded 10 200 (PText "ok")].
Proof.
  intros s.
  destruct (gateway_401_refresh_fails JournalLatest s
              (Samples.cached "t0" 1800 1000) 10 PNothing
              [Responded 10 200 (PText "ok")] eq_refl eq_refl eq_refl eq_refl)
    as (H1 & _ & _ & _ & H5).
  split; [exact H1|exact H5].
Defined.

Lemma axiosInstance_single_attempt req s tok r rest :
  currentToken (manager s) = Some tok ->
  isTokenExpired (clock (world s)) tok = false ->
  apiServer (world s) = r :: rest ->
  (forall err, answer r = Throw err ->
               is_number (response_status err) 401 = false) ->
  exists s',
    axiosInstance req s
    = (match answer r with
       | Ok resp => Ok resp
       | Throw err => Throw (createApiError err)
       end, s')
    /\ wire (world s')
       = wire (world s)
         ++ [ApiRequest (clock (world s)) (method req) (endpoint req)
               ("Bearer " +++ access_token tok)]
    /\ apiServer (world s') = rest
    /\ tokenEndpoint (world s') = tokenEndpoint (world s).
Proof.
  intros Hc He Hs Hno.
  rewrite axiosInstance_unfold. unfold try_catch at 1.
  rewrite (first_attempt req s tok r rest Hc He Hs).
  destruct (answer r) as [resp|err] eqn:Ha.
  - eexists. split; [reflexivity|]. cbn. auto.
  - rewrite (Hno err eq_refl). eexists. split; [reflexivity|]. cbn. auto.
Qed.

(** X9.  A request that fails with anything but a 401 (a status outside
    200..299, or no response at all) is sent exactly once with the cached
    token: nothing is exchanged with the token endpoint, nothing is retried,
    and the caller receives an [ApiClientError] that carries the status of
    the response, if there was one. *)
Theorem gateway_failure_not_retried e s tok r rest err :
  currentToken (manager s) = Some tok ->
  isTokenExpired (clock (world s)) tok = false ->
  apiServer (world s) = r :: rest ->
  answer r = Throw err ->
  is_number (response_status err) 401 = false ->
  fst (ApiClient.get e s) = Throw (createApiError err)
  /\ fst (ApiClient.delete e s) = Throw (createApiError err)
  /\ exn_statusCode (createApiError err) = response_status err
  /\ wire (world (snd (ApiClient.get e s)))
     = wire (world s)
       ++ [ApiRequest (clock (world s)) GET e
             ("Bearer " +++ access_token tok)]
  /\ apiServer (world (snd (ApiClient.get e s))) = rest
  /\ tokenEndpoint (world (snd (ApiClient.get e s)))
     = tokenEndpoint (world s).
Proof.
  intros Hc He Hs Ha Hno.
  assert (Hno' : forall err', answer r = Throw err' ->
                   is_number (response_status err') 401 = false)
    by (intros err' H'; congruence).
  destruct (axiosInstance_single_attempt (request GET e) s tok r rest
              Hc He Hs Hno') as (sg & Hg & Hwg & Hag & Htg).
  destruct (axiosInstance_single_attempt (request DELETE e) s tok r rest
              Hc He Hs Hno') as (sd & Hd & _).
  rewrite Ha in Hg, Hd.
  rewrite (get_rethrows e s _ sg Hg), (delete_rethrows e s _ sd Hd).
  cbn [fst snd]. repeat split; try assumption.
  destruct (createApiError_typed err) as (m & c & k & ->). reflexivity.
Qed.

Lemma gateway_failure_not_retried_witness :
  let s := Samples.sys (Some (Samples.cached "t0" 1800 1000)) 2000
             [TokenGranted 5 (Samples.token "t1" 1800)]
             [Unreachable 30000 "timeout of 30000ms exceeded";
              Responded 10 200 (PText "ok")] in
  fst (ApiClient.get JournalLatest s)
  = Throw (ApiClientError "HTTP Error: timeout of 30000ms exceeded"
             None None None)
  /\ wire (world (snd (ApiClient.get JournalLatest s)))
     = [ApiRequest 2000 GET JournalLatest "Bearer t0"].
Proof.
  intros s.
  destruct (gateway_failure_not_retried JournalLatest s
              (Samples.cached "t0" 1800 1000)
              (Unreachable 30000 "timeout of 30000ms exceeded")
              [Responded 10 200 (PText "ok")]
              (AxiosError "timeout of 30000ms exceeded" None)
              eq_refl eq_refl eq_refl eq_refl eq_refl)
    as (H1 & _ & _ & H4 & _).
  split; [exact H1|exact H4].
Defined.



End GatewayMore.

(** ** Subscriptions client: the fallback when the listing fails *)

Section PortalDeleteMore.
Import Wire Remote SubscriptionsApi.

(** X11.  When the bulk deletion fails with status 500 and the listing of
    the fallback fails as well, the caller gets the failure of the listing,
    not the original 500, and no individual deletion is sent; a listing
    whose body has no [results] makes the fallback throw a [TypeError]. *)
Theorem fallback_listing_fails portal n x y ys e :
  api n = x :: y :: ys ->
  outcome x = Throw e -> is_number (exn_statusCode e) 500 = true ->
  let r := deletePortalSubscriptions portal n in
  requests (log (snd r))
  = requests (log n) ++ [(DELETE, SubscriptionsOfPortal portal);
                          (GET, Subscriptions)]
    ++ match outcome y with
       | Ok (PSubscriptions subs) =>
           map (fun sub => (DELETE, SubscriptionById (id sub)))
               (filter (fun sub => portalId sub =? portal) subs)
       | _ => []
       end
  /\ (forall e', outcome y = Throw e' -> fst r = Throw e')
  /\ (forall body, outcome y = Ok body -> results_of body = None ->
        fst r = Throw (TypeError
                  "Cannot read properties of undefined (reading 'filter')")).
Proof.
  intros Hapi Hx H500 r.
  destruct (deletePortalSubscriptions_500 portal n x (y :: ys) e Hapi Hx H500)
    as (n1 & Heq & Hl & Hxs).
  unfold r. rewrite Heq.
  destruct (deletePortalSubscriptionsIndividually_requests portal n1)
    as [_ Hsubs].
  pose proof (call_requests GET Subscriptions n1) as Hc.
  destruct (call_head GET Subscriptions n1 y ys Hxs) as [Ho _].
  split; [|split].
  - destruct (outcome y) as [body|e'] eqn:Hy.
    + destruct (results_of body) as [subs|] eqn:Hres.
      * assert (body = PSubscriptions subs) as ->
          by (destruct body; cbn in Hres; congruence).
        destruct (Hsubs y ys subs Hxs Hy) as [_ Hreq].
        rewrite Hreq, Hl, <- app_assoc. reflexivity.
      * unfold deletePortalSubscriptionsIndividually, getSubscriptions, bind,
          ret.
        destruct (call GET Subscriptions n1) as [[v|err] n2];
          cbn [fst snd] in *; [|congruence].
        assert (v = body) as -> by congruence. rewrite Hres.
        cbn [throw snd]. rewrite Hc, Hl, <- app_assoc.
        destruct body; cbn in Hres; try discriminate; reflexivity.
    + unfold deletePortalSubscriptionsIndividually, getSubscriptions, bind.
      destruct (call GET Subscriptions n1) as [[v|err] n2];
        cbn [fst snd] in *; [congruence|].
      rewrite Hc, Hl, <- app_assoc. reflexivity.
  - intros e' Hy.
    unfold deletePortalSubscriptionsIndividually, getSubscriptions, bind.
    destruct (call GET Subscriptions n1) as [[v|err] n2];
      cbn [fst snd] in *; congruence.
  - intros body Hy Hnone.
    unfold deletePortalSubscriptionsIndividually, getSubscriptions, bind, ret.
    destruct (call GET Subscriptions n1) as [[v|err] n2];
      cbn [fst snd] in *; [|congruence].
    assert (v = body) as -> by congruence. rewrite Hnone. reflexivity.
Qed.

Lemma fallback_listing_fails_witness :
  let n := Samples.net 1000
             [Samples.failure 500; Samples.failure 429; Samples.done] [] in
  fst (deletePortalSubscriptions 7 n)
  = Throw (ApiClientError "API Error: boom" (Some 429) None None)
  /\ requests (log (snd (deletePortalSubscriptions 7 n)))
     = [(DELETE, SubscriptionsOfPortal 7); (GET, Subscriptions)].
Proof.
  intros n.
  destruct (fallback_listing_fails 7 n (Samples.failure 500)
              (Samples.failure 429) [Samples.done]
              (ApiClientError "API Error: boom" (Some 500) None None)
              eq_refl eq_refl eq_refl) as (Hreq & Hthrow & _).
  split; [apply Hthrow; reflexivity|exact Hreq].
Defined.

End PortalDeleteMore.

(** ** Journal client: what a request for the next entry sends *)

Section JournalMore.
Import Wire Remote JournalApi Observed LoopView.

Lemma downloads_app l1 l2 :
  downloads (l1 ++ l2) = downloads l1 ++ downloads l2.
Proof.
  induction l1 as [|e l1 IH]; [reflexivity|].
  destruct e; cbn; rewrite IH; reflexivity.
Qed.

Lemma sleeps_app l1 l2 : sleeps (l1 ++ l2) = sleeps l1 ++ sleeps l2.
Proof.
  induction l1 as [|e l1 IH]; [reflexivity|].
  destruct e; cbn; rewrite IH; reflexivity.
Qed.

(** Downloads are no gateway calls, no callbacks and no timers. *)
Lemma blob_calls t links :
  requests (map (BlobCall t) links) = []
  /\ deliveries (map (BlobCall t) links) = []
  /\ reports (map (BlobCall t) links) = []
  /\ sleeps (map (BlobCall t) links) = []
  /\ downloads (map (BlobCall t) links) = links.
Proof.
  induction links as [|l links (A & B & C & D & E)]; cbn; [auto|].
  rewrite E. auto.
Qed.

(** The events of one request for the next entry: the gateway call, then
    the download when the body is an entry with a usable [url]. *)
Lemma getNextJournalEntry_log after n :
  log (snd (getNextJournalEntry after n))
  = log n
    ++ ApiCall (clock n) GET (JournalNext after)
       :: map (BlobCall (clock n
                         + match api n with x :: _ => took x | [] => 0 end))
              (download_for (api n)).
Proof.
  unfold getNextJournalEntry, try_catch, bind, call, download_for.
  destruct (api n) as [|x xs]; [reflexivity|].
  destruct (outcome x) as [body|e].
  - destruct body as [| | | |e]; try reflexivity.
    cbn [as_entry]. destruct (truthy_string (url e)); [|reflexivity].
    cbn [negb]. unfold downloadJournalData, bind, fetch. cbn [blobs fst snd].
    destruct (blobs n) as [|b bs].
    + cbn. rewrite <- app_assoc. reflexivity.
    + destruct (blob_outcome b) as [d|st message|cause]; cbn;
        try (destruct (is_number st 404); cbn;
             try (destruct (is_number st 403); cbn));
        rewrite <- app_assoc; reflexivity.
  - unfold throw. destruct (is204 e); reflexivity.
Qed.

Lemma getNextJournalEntry_silent after n :
  deliveries (log (snd (getNextJournalEntry after n))) = deliveries (log n)
  /\ reports (log (snd (getNextJournalEntry after n))) = reports (log n)
  /\ sleeps (log (snd (getNextJournalEntry after n))) = sleeps (log n).
Proof.
  rewrite getNextJournalEntry_log, deliveries_app, reports_app, sleeps_app.
  cbn [deliveries reports sleeps].
  destruct (blob_calls
              (clock n + match api n with x :: _ => took x | [] => 0 end)
              (download_for (api n))) as (_ & B & C & D & _).
  rewrite B, C, D, !app_nil_r. auto.
Qed.

Lemma getNextJournalEntry_sent after n :
  requests (log (snd (getNextJournalEntry after n)))
  = requests (log n) ++ [(GET, JournalNext after)]
  /\ downloads (log (snd (getNextJournalEntry after n)))
     = downloads (log n) ++ download_for (api n).
Proof.
  rewrite getNextJournalEntry_log, requests_app, downloads_app.
  cbn [requests downloads].
  destruct (blob_calls
              (clock n + match api n with x :: _ => took x | [] => 0 end)
              (download_for (api n))) as (A & _ & _ & _ & E).
  rewrite A, E. auto.
Qed.

(** A failed download is a plain [Error]: never the no-content condition,
    whatever the blob store answers. *)
Lemma downloadJournalData_throws link n e :
  fst (downloadJournalData link n) = Throw e ->
  is204 e = false /\ exists message, e = Error message.
Proof.
  unfold downloadJournalData, bind, fetch.
  destruct (blobs n) as [|b bs]; cbn.
  - intros [= <-]. split; [reflexivity|eexists; reflexivity].
  - destruct (blob_outcome b) as [d|st message|cause]; cbn;
      try (destruct (is_number st 404); cbn;
           try (destruct (is_number st 403); cbn));
      intros [= <-] || discriminate;
      (split; [reflexivity|eexists; reflexivity]).
Qed.

(** X12.  Whatever the gateway and the blob store answer, a request for the
    next entry sends exactly one gateway call, a GET of the next-entry path
    of the given offset, and downloads at most once: exactly when the body
    is an entry with a non-empty [url], and then from that [url].  It calls
    no callback and starts no timer.  A gateway failure other than the
    no-content condition is rethrown as the very same error. *)
Theorem getNextJournalEntry_traffic after n :
  let r := getNextJournalEntry after n in
  requests (log (snd r)) = requests (log n) ++ [(GET, JournalNext after)]
  /\ downloads (log (snd r)) = downloads (log n) ++ download_for (api n)
  /\ deliveries (log (snd r)) = deliveries (log n)
  /\ reports (log (snd r)) = reports (log n)
  /\ sleeps (log (snd r)) = sleeps (log n)
  /\ (forall x xs e,
        api n = x :: xs -> outcome x = Throw e -> is204 e = false ->
        fst r = Throw e /\ downloads (log (snd r)) = downloads (log n)).
Proof.
  intros r. unfold r.
  destruct (getNextJournalEntry_silent after n) as (D & R & S).
  destruct (getNextJournalEntry_sent after n) as (A & Hd).
  split; [exact A|split; [exact Hd|split; [exact D|split; [exact R|split;
    [exact S|]]]]].
  - intros x xs e Hapi Hx H204. split.
    + unfold getNextJournalEntry, try_catch, bind, call.
      rewrite Hapi, Hx. unfold throw. rewrite H204. reflexivity.
    + rewrite Hd. unfold download_for. rewrite Hapi, Hx.
      apply app_nil_r.
Qed.

Lemma getNextJournalEntry_traffic_witness :
  let n := Samples.net 1100 [Samples.failure 502] [Samples.blob_reply "B"] in
  fst (getNextJournalEntry "A" n)
  = Throw (ApiClientError "API Error: boom" (Some 502) None None)
  /\ downloads (log (snd (getNextJournalEntry "A" n))) = [].
Proof.
  intros n.
  destruct (getNextJournalEntry_traffic "A" n) as (_ & _ & _ & _ & _ & H).
  exact (H (Samples.failure 502) [] _ eq_refl eq_refl eq_refl).
Defined.

(** X13.  The next entry is announced but its download is rejected (the
    signed link has expired, say): [getNextJournalEntry] throws a plain
    [Error] with the message of [downloadJournalData], which is not the
    no-content condition.  The iteration of the loop then counts the
    request, reports "Error checking for new entries: Error: ..." to
    [onError], hands nothing to [onNewEntry] and keeps the held offset, so
    the next request asks for the same entry again. *)
Theorem rejected_download_keeps_offset c s held x xs e b bs st message :
  requestCount (reset s) < MAX_REQUESTS_PER_MINUTE ->
  lastOffset s = Some held -> held <> "" ->
  api (net s) = x :: xs -> outcome x = Ok (PJournalEntry e) ->
  truthy_string (url e) = true ->
  blobs (net s) = b :: bs -> blob_outcome b = BlobRejected st message ->
  onError c ("Error checking for new entries: Error: "
             +++ download_failure st message) = None ->
  fst (getNextJournalEntry held (net s))
  = Throw (Error (download_failure st message))
  /\ fst (poll_once c s) = Ok tt
  /\ lastOffset (snd (poll_once c s)) = Some held
  /\ requestCount (snd (poll_once c s)) = requestCount (reset s) + 1
  /\ deliveries (log (net (snd (poll_once c s)))) = deliveries (log (net s))
  /\ reports (log (net (snd (poll_once c s))))
     = reports (log (net s))
       ++ ["Error checking for new entries: Error: "
           +++ download_failure st message]
  /\ requests (log (net (snd (poll_once c s))))
     = requests (log (net s)) ++ [(GET, JournalNext held)].
Proof.
  intros Hlt Hheld Hne Hapi Hx Hu Hb Hd Hcb.
  assert (Hne' : download_failure st message <> "").
  { unfold download_failure.
    destruct (is_number st 404); [discriminate|].
    destruct (is_number st 403); discriminate. }
  assert (Hts : toString (Error (download_failure st message))
                = "Error: " +++ download_failure st message).
  { unfold toString. cbn [exn_message exn_name].
    destruct (String.eqb_spec (download_failure st message) "");
      [contradiction|reflexivity]. }
  assert (Hg : fst (getNextJournalEntry held (net s))
               = Throw (Error (download_failure st message))).
  { unfold getNextJournalEntry, try_catch, bind, call. rewrite Hapi, Hx.
    cbn [as_entry]. rewrite Hu. cbn [negb].
    unfold downloadJournalData, bind, fetch, download_failure.
    cbn [blobs fst snd]. rewrite Hb, Hd. cbn.
    destruct (is_number st 404); [reflexivity|].
    destruct (is_number st 403); reflexivity. }
  split; [exact Hg|].
  destruct (getNextJournalEntry_sent held (net s)) as (Hreq & _).
  destruct (getNextJournalEntry_silent held (net s)) as (Hdel & Hrep & _).
  destruct (getNextJournalEntry held (net s)) as [r n'] eqn:Hgn.
  cbn [fst snd] in *. subst r.
  rewrite (poll_once_failed c s held _ n' Hlt Hheld Hne Hgn eq_refl);
    [|rewrite Hts; exact Hcb].
  cbn [fst snd net lastOffset requestCount log].
  rewrite !deliveries_app, !reports_app, !requests_app, Hts.
  cbn [deliveries reports requests app].
  rewrite !app_nil_r, Hdel, Hrep, Hreq.
  repeat (split; [reflexivity|]). reflexivity.
Qed.

Lemma rejected_download_keeps_offset_witness :
  let gone := {| blob_took := 25;
                 blob_outcome := BlobRejected (Some 404) "Not Found" |} in
  let s := Samples.polling "A" 1 1000
             (Samples.net 1100 [Samples.entry_reply "B"] [gone]) in
  lastOffset (snd (poll_once Samples.quiet s)) = Some "A"
  /\ reports (log (net (snd (poll_once Samples.quiet s))))
     = ["Error checking for new entries: Error: Journal data file not found - the URL may have expired"].
Proof.
  intros gone s.
  destruct (rejected_download_keeps_offset Samples.quiet s "A"
              (Samples.entry_reply "B") [] (Samples.entry_at "B") gone []
              (Some 404) "Not Found")
    as (_ & _ & Ho & _ & _ & Hr & _);
    [reflexivity|reflexivity|discriminate|reflexivity|reflexivity
    |reflexivity|reflexivity|reflexivity|reflexivity|].
  split; [exact Ho|exact Hr].
Defined.

End JournalMore.

(** ** Cursor loop: what holds for every consumer *)

Section CursorLoopMore.
Import Wire Remote JournalApi Observed LoopView Stopping.

(** An iteration is the rate check, then the attempt followed by the timer,
    both under the outer [catch]. *)
Lemma poll_once_form c s :
  poll_once c s
  = try_catch (attempt c s ;;; on_net (sleep (pause s))) (recover c)
              (reset s).
Proof.
  unfold poll_once, try_catch. unfold bind at 1. rewrite checkRateLimit_eq.
  unfold attempt, pause.
  destruct (requestCount (reset s) <? MAX_REQUESTS_PER_MINUTE); cbn [negb].
  - unfold bind at 1, gets at 1.
    destruct (reset_frame s) as (_ & _ & Hlo). rewrite Hlo.
    destruct (truthy_string (lastOffset s)); reflexivity.
  - reflexivity.
Qed.

Lemma pause_positive s : 0 < pause s.
Proof.
  unfold pause, reset, MAX_REQUESTS_PER_MINUTE, POLL_INTERVAL_MS.
  destruct (Z.geb_spec (clock (net s) - lastMinuteTimestamp s) 60000);
    cbn [requestCount lastMinuteTimestamp net clock].
  - cbn. lia.
  - destruct (requestCount s <? 30); lia.
Qed.

Lemma about_request_intro text :
  about_request ("Error checking for new entries: " +++ text) = true.
Proof. unfold about_request. cbn. destruct text; reflexivity. Qed.

(** The request of an iteration, for any consumer: after the events of
    [getNextJournalEntry] come at most a delivery and a report; the held
    offset changes exactly when an entry is handed to [onNewEntry], and
    becomes the offset of that entry; and the request throws only what
    [onError] threw. *)
Lemma request_next_log c held s :
  exists evs,
    log (net (snd (request_next c held s)))
    = log (snd (getNextJournalEntry held (net s))) ++ evs
    /\ requests evs = [] /\ downloads evs = [] /\ sleeps evs = []
    /\ forallb about_request (reports evs) = true
    /\ ((deliveries evs = []
         /\ lastOffset (snd (request_next c held s)) = lastOffset s)
        \/ exists e,
             fst (getNextJournalEntry held (net s)) = Ok e
             /\ deliveries evs = [e]
             /\ lastOffset (snd (request_next c held s))
                = Some (currentOffset (entry e)))
    /\ (fst (request_next c held s) = Ok tt
        \/ exists m thrown,
             onError c m = Some thrown
             /\ fst (request_next c held s) = Throw thrown).
Proof.
  unfold request_next, try_catch, bind, on_net, zoom.
  destruct (getNextJournalEntry held (net s)) as [[e|err] n'];
    cbn [fst snd].
  - cbn -[String.append].
    destruct (String.eqb (currentOffset (entry e)) held);
      cbn -[String.append].
    + exists []. rewrite app_nil_r. cbn. intuition.
    + destruct (onNewEntry c e) as [thrown|]; cbn -[String.append].
      * destruct (is204 thrown); cbn -[String.append].
        -- exists [EntryDelivered e]. cbn.
           split; [reflexivity|]. do 4 (split; [reflexivity|]).
           split; [right; exists e; auto|left; reflexivity].
        -- destruct (onError c _) as [t|] eqn:Hcb; cbn -[String.append];
             (exists [EntryDelivered e;
                      ErrorReported ("Error checking for new entries: "
                                     +++ toString thrown)]);
             rewrite <- app_assoc;
             (split; [reflexivity|]); do 3 (split; [reflexivity|]);
             (split; [cbn [reports forallb];
                      rewrite about_request_intro; reflexivity|]);
             (split; [right; exists e; auto|]).
           ++ right. eexists. exists t. split; [exact Hcb|reflexivity].
           ++ left. reflexivity.
      * exists [EntryDelivered e]. cbn.
        split; [reflexivity|]. do 4 (split; [reflexivity|]).
        split; [right; exists e; auto|left; reflexivity].
  - cbn -[String.append]. destruct (is204 err); cbn -[String.append].
    + exists []. rewrite app_nil_r. cbn. intuition.
    + destruct (onError c _) as [t|] eqn:Hcb; cbn -[String.append];
        (exists [ErrorReported ("Error checking for new entries: "
                                +++ toString err)]);
        (split; [reflexivity|]); do 3 (split; [reflexivity|]);
        (split; [cbn [reports forallb];
                 rewrite about_request_intro; reflexivity|]);
        (split; [left; auto|]).
      * right. eexists. exists t. split; [exact Hcb|reflexivity].
      * left. reflexivity.
Qed.

Lemma request_next_requests c held s :
  requests (log (net (snd (request_next c held s))))
  = requests (log (net s)) ++ [(GET, JournalNext held)].
Proof.
  destruct (request_next_log c held s) as (evs & Hlog & Hr & _).
  destruct (getNextJournalEntry_sent held (net s)) as (Hreq & _).
  rewrite Hlog, requests_app, Hr, Hreq, app_nil_r. reflexivity.
Qed.

Lemma request_next_sleeps c held s :
  sleeps (log (net (snd (request_next c held s)))) = sleeps (log (net s)).
Proof.
  destruct (request_next_log c held s) as (evs & Hlog & _ & _ & Hs & _).
  destruct (getNextJournalEntry_silent held (net s)) as (_ & _ & S).
  rewrite Hlog, sleeps_app, Hs, S, app_nil_r. reflexivity.
Qed.

(** *** Steps that stay off the network *)

Lemma offline_refl s : offline s s.
Proof. unfold offline. auto. Qed.

Lemma offline_trans s1 s2 s3 :
  offline s1 s2 -> offline s2 s3 -> offline s1 s3.
Proof.
  unfold offline. intros (A1 & A2 & A3 & A4) (B1 & B2 & B3 & B4).
  repeat split; congruence.
Qed.

Lemma offline_reset s : offline s (reset s).
Proof.
  unfold offline, reset.
  destruct (clock (net s) - lastMinuteTimestamp s >=? 60000); auto.
Qed.

Lemma offline_sleep ms : always (on_net (sleep ms)) offline.
Proof.
  intros s. unfold offline. cbn.
  rewrite requests_app, downloads_app, deliveries_app. cbn.
  rewrite !app_nil_r. auto.
Qed.

Lemma offline_status c st : always (call_onStatusUpdate c st) offline.
Proof.
  intros s. unfold call_onStatusUpdate, bind, returns, offline.
  cbn. destruct (onStatusUpdate c st); cbn;
    rewrite requests_app, downloads_app, deliveries_app; cbn;
    rewrite !app_nil_r; auto.
Qed.

Lemma offline_error c m : always (call_onError c m) offline.
Proof.
  intros s. unfold call_onError, bind, returns, offline.
  cbn. destruct (onError c m); cbn;
    rewrite requests_app, downloads_app, deliveries_app; cbn;
    rewrite !app_nil_r; auto.
Qed.

(** *** A rule for properties of the loop *)

Section LoopRule.
Variable R : Stream -> Stream -> Prop.
Hypothesis R_refl : forall s, R s s.
Hypothesis R_trans : forall s1 s2 s3, R s1 s2 -> R s2 s3 -> R s1 s3.
Hypothesis R_status : forall c st, always (call_onStatusUpdate c st) R.
Hypothesis R_error : forall c m, always (call_onError c m) R.
Hypothesis R_sleep : forall ms, always (on_net (sleep ms)) R.

Lemma rule_recover c error : always (recover c error) R.
Proof.
  unfold recover.
  apply always_bind; [exact R_trans|apply always_gets, R_refl|].
  intros running.
  apply always_bind; [exact R_trans| |intros _; apply R_sleep].
  destruct running; [apply R_error|apply always_ret, R_refl].
Qed.

Lemma rule_after {A B} (c1 : M Stream A) (c2 : M Stream B)
      (h : Exn -> M Stream B) s :
  always c2 R -> (forall e, always (h e) R) ->
  R (snd (c1 s)) (snd (try_catch (c1 ;;; c2) h s)).
Proof.
  intros H2 Hh. unfold try_catch, bind.
  destruct (c1 s) as [[a|e] s1]; cbn [snd]; [|apply Hh].
  pose proof (H2 s1) as Hq.
  destruct (c2 s1) as [[b|e2] s2]; cbn [snd] in *; [exact Hq|].
  apply (R_trans _ s2); [exact Hq|apply Hh].
Qed.

(** Whatever an iteration does after its attempt is related by [R]. *)
Lemma poll_once_after_attempt c s :
  R (snd (attempt c s (reset s))) (snd (poll_once c s)).
Proof.
  rewrite poll_once_form.
  apply rule_after; [apply R_sleep|intros e; apply rule_recover].
Qed.

Hypothesis R_reset : forall s, R s (reset s).
Hypothesis R_request : forall c held, always (request_next c held) R.

Lemma rule_poll_once c : always (poll_once c) R.
Proof.
  intros s. apply (R_trans _ (reset s)); [apply R_reset|].
  apply (R_trans _ (snd (attempt c s (reset s))));
    [|apply poll_once_after_attempt].
  unfold attempt.
  destruct (requestCount (reset s) <? MAX_REQUESTS_PER_MINUTE);
    [destruct (truthy_string (lastOffset s))|].
  - apply R_request.
  - apply R_refl.
  - apply R_status.
Qed.

Lemma rule_pollForNewEntries c turns : always (pollForNewEntries c turns) R.
Proof.
  induction turns as [|k IH]; intros s; [apply R_refl|].
  cbn [pollForNewEntries]. unfold bind, gets.
  destruct (isRunning s); [|apply R_refl].
  pose proof (rule_poll_once c s) as H1.
  destruct (poll_once c s) as [[u|e] s1]; cbn [snd] in *; [|exact H1].
  apply (R_trans _ s1); [exact H1|apply IH].
Qed.

Lemma rule_poll_in_background c turns :
  always (poll_in_background c turns) R.
Proof.
  unfold poll_in_background.
  apply always_try_catch; [exact R_trans|apply rule_pollForNewEntries|].
  intros e. apply always_bind; [exact R_trans|apply always_gets, R_refl|].
  intros running.
  destruct running; [apply R_error|apply always_ret, R_refl].
Qed.

End LoopRule.

(** *** The held offset and the entries delivered *)

Lemma follows_refl s : follows s s.
Proof. exists []. rewrite app_nil_r. split; reflexivity. Qed.

Lemma follows_trans s1 s2 s3 : follows s1 s2 -> follows s2 s3 -> follows s1 s3.
Proof.
  intros (es1 & D1 & O1) (es2 & D2 & O2). exists (es1 ++ es2). split.
  - rewrite D2, D1, app_assoc. reflexivity.
  - rewrite O2, rev_app_distr.
    destruct (rev es2) as [|e r]; cbn; [exact O1|reflexivity].
Qed.

Lemma offline_follows s s' : offline s s' -> follows s s'.
Proof.
  intros (A & _ & _ & D). exists []. rewrite app_nil_r. auto.
Qed.

Lemma follows_request c held : always (request_next c held) follows.
Proof.
  intros s.
  destruct (request_next_log c held s) as (evs & Hlog & _ & _ & _ & _ & H & _).
  destruct (getNextJournalEntry_silent held (net s)) as (D & _ & _).
  destruct H as [[Hd Ho]|(e & _ & Hd & Ho)].
  - exists []. rewrite Hlog, deliveries_app, Hd, D. auto.
  - exists [e]. rewrite Hlog, deliveries_app, Hd, D. auto.
Qed.

(** X14.  For every consumer, from every state and over any number of
    iterations, also when callbacks throw and whatever the service
    answers: the held offset at the end is the offset of the last entry
    handed to [onNewEntry] since the start, and the offset held at the
    start when none was handed over.  The same holds for the whole stream
    from the end of the initial fetch. *)
Theorem held_offset_is_last_delivered c turns :
  (forall s, follows s (snd (pollForNewEntries c turns s)))
  /\ (forall s, follows s (snd (poll_in_background c turns s)))
  /\ (forall n, follows (snd (establish c (fresh_stream n)))
                        (snd (streamJournalEntries c turns n))).
Proof.
  assert (Hs : forall c st, always (call_onStatusUpdate c st) follows)
    by (intros c0 st s; apply offline_follows, offline_status).
  assert (He : forall c m, always (call_onError c m) follows)
    by (intros c0 m s; apply offline_follows, offline_error).
  assert (Hsl : forall ms, always (on_net (sleep ms)) follows)
    by (intros ms s; apply offline_follows, offline_sleep).
  assert (Hr : forall s, follows s (reset s))
    by (intros s; apply offline_follows, offline_reset).
  split; [|split].
  - apply rule_pollForNewEntries;
      first [assumption|exact follows_refl|exact follows_trans
            |exact follows_request].
  - apply rule_poll_in_background;
      first [assumption|exact follows_refl|exact follows_trans
            |exact follows_request].
  - intros n. unfold streamJournalEntries, bind.
    destruct (establish c (fresh_stream n)) as [[[|]|e] s0]; cbn [snd];
      try apply follows_refl.
    apply rule_poll_in_background;
      first [assumption|exact follows_refl|exact follows_trans
            |exact follows_request].
Qed.

(** *** The request and the timer of an iteration *)

(** X15.  For every consumer and from every state, an iteration sends a
    gateway request exactly when the rate check passes and a non-empty
    offset is held, and the request is then the GET of the entry after the
    held offset; otherwise it sends nothing. *)
Theorem poll_once_requests c s :
  requests (log (net (snd (poll_once c s))))
  = requests (log (net s)) ++ request_of s.
Proof.
  destruct (poll_once_after_attempt offline offline_refl offline_trans
              offline_error offline_sleep c s)
    as (_ & Hr & _).
  rewrite Hr. unfold attempt, request_of.
  destruct (reset_frame s) as (Hn & _ & _).
  destruct (requestCount (reset s) <? MAX_REQUESTS_PER_MINUTE); cbn [andb].
  - destruct (truthy_string (lastOffset s)).
    + rewrite request_next_requests, Hn. reflexivity.
    + cbn [ret snd]. rewrite Hn, app_nil_r. reflexivity.
  - destruct (offline_status c
                (RateLimitReached (ceil_div (pause s) 1000)) (reset s))
      as (_ & Hr' & _).
    rewrite Hr', Hn, app_nil_r. reflexivity.
Qed.

Lemma attempt_sleeps c s :
  sleeps (log (net (snd (attempt c s (reset s))))) = sleeps (log (net s)).
Proof.
  unfold attempt. destruct (reset_frame s) as (Hn & _ & _).
  destruct (requestCount (reset s) <? MAX_REQUESTS_PER_MINUTE);
    [destruct (truthy_string (lastOffset s))|].
  - rewrite request_next_sleeps, Hn. reflexivity.
  - cbn [ret snd]. rewrite Hn. reflexivity.
  - unfold call_onStatusUpdate, bind, returns. cbn.
    destruct (onStatusUpdate c _); cbn; rewrite sleeps_app, Hn; cbn;
      apply app_nil_r.
Qed.

(** *** Consumers whose callbacks return *)

Lemma attempt_returning c s :
  returning c ->
  fst (attempt c s (reset s)) = Ok tt
  /\ exists rs,
       reports (log (net (snd (attempt c s (reset s)))))
       = reports (log (net s)) ++ rs
       /\ forallb about_request rs = true.
Proof.
  intros (_ & He & Hs). unfold attempt.
  destruct (reset_frame s) as (Hnet & _ & _).
  destruct (requestCount (reset s) <? MAX_REQUESTS_PER_MINUTE);
    [destruct (truthy_string (lastOffset s))|].
  - destruct (request_next_log c (or_else (lastOffset s) "") (reset s))
      as (evs & Hlog & _ & _ & _ & Hab & _ & Hres).
    destruct (getNextJournalEntry_silent (or_else (lastOffset s) "")
                (net (reset s))) as (_ & R & _).
    split.
    + destruct Hres as [H|(m & thrown & Hcb & _)]; [exact H|].
      rewrite He in Hcb. discriminate.
    + exists (reports evs). rewrite Hlog, reports_app, R, Hnet. auto.
  - cbn [ret fst snd]. split; [reflexivity|].
    exists []. rewrite Hnet, app_nil_r. auto.
  - unfold call_onStatusUpdate, bind, returns. cbn. rewrite Hs. cbn.
    split; [reflexivity|].
    exists []. rewrite reports_app, Hnet. cbn. rewrite !app_nil_r. auto.
Qed.

Lemma poll_once_returning c s :
  returning c ->
  fst (poll_once c s) = Ok tt
  /\ exists rs,
       reports (log (net (snd (poll_once c s)))) = reports (log (net s)) ++ rs
       /\ forallb about_request rs = true.
Proof.
  intros Hc. destruct (attempt_returning c s Hc) as (Hok & rs & Hrs & Hab).
  rewrite poll_once_form. unfold try_catch, bind.
  destruct (attempt c s (reset s)) as [[u|e] s1]; cbn [fst snd] in *;
    [|discriminate].
  cbn. split; [reflexivity|].
  exists rs. rewrite reports_app, Hrs. cbn. rewrite app_nil_r. auto.
Qed.

(** What the attempt of an iteration throws was thrown by a callback: by
    [onError] in the inner [catch], or by [onStatusUpdate] when the wait is
    announced. *)
Lemma attempt_throws c s thrown :
  fst (attempt c s (reset s)) = Throw thrown ->
  (exists m, onError c m = Some thrown)
  \/ (exists st, onStatusUpdate c st = Some thrown).
Proof.
  unfold attempt.
  destruct (requestCount (reset s) <? MAX_REQUESTS_PER_MINUTE);
    [destruct (truthy_string (lastOffset s))|].
  - destruct (request_next_log c (or_else (lastOffset s) "") (reset s))
      as (_ & _ & _ & _ & _ & _ & _ & [Hok|(m & t & Hcb & Hth)]);
      intros H; [congruence|].
    left. exists m. congruence.
  - discriminate.
  - unfold call_onStatusUpdate, bind, returns. cbn.
    destruct (onStatusUpdate c _) as [t|] eqn:Hcb; cbn; [|discriminate].
    intros [= <-]. right. eexists. exact Hcb.
Qed.

(** X16.  An iteration that completes has started exactly one timer, for
    every consumer, and its delay is decided by the rate check and by the
    callbacks.  When the part of the iteration before the timer (the
    request, or the announcement of the wait) returns, the delay is the
    poll interval if the rate check passed and the rest of the window if it
    did not; it is positive in both cases, so the loop never spins.  When
    that part throws, which only a throwing [onError] or [onStatusUpdate]
    brings about, the delay is twice the poll interval.  With callbacks
    that return, every iteration completes with the first of these
    delays. *)
Theorem completed_iteration_sleeps_once c s :
  let checked := snd (checkRateLimit s) in
  let wait :=
    if requestCount checked <? MAX_REQUESTS_PER_MINUTE then POLL_INTERVAL_MS
    else 60000 - (clock (net s) - lastMinuteTimestamp checked) in
  0 < wait
  /\ (fst (checkRateLimit s) = Ok true -> wait = POLL_INTERVAL_MS)
  /\ (fst (poll_once c s) = Ok tt ->
      sleeps (log (net (snd (poll_once c s))))
      = sleeps (log (net s))
        ++ [match fst (attempt c s checked) with
            | Ok _ => wait
            | Throw _ => 2 * POLL_INTERVAL_MS
            end])
  /\ (forall thrown,
        fst (attempt c s checked) = Throw thrown ->
        (exists m, onError c m = Some thrown)
        \/ (exists st, onStatusUpdate c st = Some thrown))
  /\ (returning c ->
      fst (attempt c s checked) = Ok tt
      /\ fst (poll_once c s) = Ok tt
      /\ sleeps (log (net (snd (poll_once c s))))
         = sleeps (log (net s)) ++ [wait]).
Proof.
  intros checked wait.
  assert (Hchecked : checked = reset s) by reflexivity.
  assert (Hwait : wait = pause s).
  { unfold wait, pause. rewrite Hchecked.
    destruct (reset_frame s) as (Hn & _ & _). rewrite Hn. reflexivity. }
  pose proof (pause_positive s) as Hp.
  pose proof (attempt_sleeps c s) as Ha.
  assert (Hdone : fst (poll_once c s) = Ok tt ->
                  sleeps (log (net (snd (poll_once c s))))
                  = sleeps (log (net s))
                    ++ [match fst (attempt c s (reset s)) with
                        | Ok _ => pause s
                        | Throw _ => 2 * POLL_INTERVAL_MS
                        end]).
  { rewrite poll_once_form. unfold try_catch, bind.
    destruct (attempt c s (reset s)) as [[u|e] s1]; cbn [fst snd] in *.
    - intros _. cbn. rewrite sleeps_app, Ha. reflexivity.
    - unfold recover, bind, gets, call_onError, returns, bind.
      cbn -[String.append].
      destruct (isRunning s1); cbn -[String.append];
        try (destruct (onError c _); cbn -[String.append];
             [discriminate|]);
        intros _; rewrite ?sleeps_app; cbn; rewrite ?sleeps_app; cbn;
        rewrite ?app_nil_r, Ha; reflexivity. }
  rewrite Hchecked, Hwait.
  split; [exact Hp|].
  split.
  { rewrite checkRateLimit_eq. cbn [fst]. intros [= H].
    unfold pause. rewrite H. reflexivity. }
  split; [exact Hdone|].
  split; [intros thrown; apply attempt_throws|].
  intros Hc. destruct (attempt_returning c s Hc) as (Hok & _).
  destruct (poll_once_returning c s Hc) as (Hret & _).
  split; [exact Hok|]. split; [exact Hret|].
  rewrite (Hdone Hret), Hok. reflexivity.
Qed.

Lemma completed_iteration_sleeps_once_witness :
  let s := Samples.polling "A" 30 1000
             (Samples.net 58060 [Samples.no_content] []) in
  let c := {| onNewEntry := fun _ => None;
              onError := fun _ => None;
              onStatusUpdate := fun _ => Some (Error "no console") |} in
  sleeps (log (net (snd (poll_once Samples.quiet s)))) = [2940]
  /\ sleeps (log (net (snd (poll_once c s)))) = [4000].
Proof.
  intros s c. split.
  - destruct (completed_iteration_sleeps_once Samples.quiet s)
      as (_ & _ & _ & _ & H).
    destruct (H (conj (fun _ => eq_refl)
                      (conj (fun _ => eq_refl) (fun _ => eq_refl))))
      as (_ & _ & Hs).
    exact Hs.
  - destruct (completed_iteration_sleeps_once c s) as (_ & _ & H & _).
    exact (H eq_refl).
Defined.

(** X17.  With callbacks that return, the loop never throws, whatever the
    service and the blob store answer and for any number of iterations:
    the outer [catch] of the iteration and the [catch] of the background
    promise are never entered, and every message handed to [onError]
    begins with "Error checking for new entries: ". *)
Theorem returning_consumer_never_fails c turns s :
  returning c ->
  fst (pollForNewEntries c turns s) = Ok tt
  /\ poll_in_background c turns s = pollForNewEntries c turns s
  /\ exists rs,
       reports (log (net (snd (pollForNewEntries c turns s))))
       = reports (log (net s)) ++ rs
       /\ forallb about_request rs = true.
Proof.
  intros Hc.
  assert (Hloop : forall k s0,
             fst (pollForNewEntries c k s0) = Ok tt
             /\ exists rs,
                  reports (log (net (snd (pollForNewEntries c k s0))))
                  = reports (log (net s0)) ++ rs
                  /\ forallb about_request rs = true).
  { induction k as [|k IH]; intros s0.
    - cbn. split; [reflexivity|]. exists []. rewrite app_nil_r. auto.
    - cbn [pollForNewEntries]. unfold bind, gets.
      destruct (isRunning s0).
      + destruct (poll_once_returning c s0 Hc) as (Hok & rs & Hrs & Hab).
        destruct (poll_once c s0) as [[u|e] s1]; cbn [fst snd] in *;
          [|discriminate].
        destruct (IH s1) as (Hok1 & rs1 & Hrs1 & Hab1).
        split; [exact Hok1|].
        exists (rs ++ rs1).
        rewrite Hrs1, Hrs, <- app_assoc, forallb_app, Hab, Hab1. auto.
      + cbn. split; [reflexivity|]. exists []. rewrite app_nil_r. auto. }
  destruct (Hloop turns s) as (Hok & Hrs).
  split; [exact Hok|split; [|exact Hrs]].
  unfold poll_in_background, try_catch.
  destruct (pollForNewEntries c turns s) as [[[]|e] s1]; cbn [fst] in Hok;
    [reflexivity|discriminate].
Qed.

Lemma returning_consumer_never_fails_witness :
  let s := Samples.polling "A" 1 1000
             (Samples.net 1100
                [Samples.failure 500; Samples.entry_reply "B"]
                [Samples.blob_reply "B"]) in
  fst (pollForNewEntries Samples.quiet 3 s) = Ok tt
  /\ poll_in_background Samples.quiet 3 s
     = pollForNewEntries Samples.quiet 3 s.
Proof.
  intros s.
  destruct (returning_consumer_never_fails Samples.quiet 3 s
              (conj (fun _ => eq_refl)
                    (conj (fun _ => eq_refl) (fun _ => eq_refl))))
    as (H1 & H2 & _).
  split; [exact H1|exact H2].
Defined.

(** *** A consumer whose entry callback throws *)

Lemma request_next_thrown c held s e n' thrown :
  getNextJournalEntry held (net s) = (Ok e, n') ->
  currentOffset (entry e) <> held ->
  onNewEntry c e = Some thrown -> is204 thrown = false ->
  request_next c held s
  = (match onError c ("Error checking for new entries: "
                      +++ toString thrown) with
     | Some t => Throw t
     | None => Ok tt
     end,
     {| isRunning := isRunning s;
        lastOffset := Some (currentOffset (entry e));
        requestCount := requestCount s + 1 + 1;
        lastMinuteTimestamp := lastMinuteTimestamp s;
        net := {| clock := clock n'; api := api n'; blobs := blobs n';
                  log := (log n' ++ [EntryDelivered e])
                         ++ [ErrorReported
                               ("Error checking for new entries: "
                                +++ toString thrown)] |} |}).
Proof.
  intros Hg Hne Hcb H204.
  unfold request_next, try_catch, bind, on_net, zoom. rewrite Hg.
  cbn -[String.append].
  destruct (String.eqb_spec (currentOffset (entry e)) held);
    [contradiction|].
  cbn -[String.append]. rewrite Hcb. cbn -[String.append].
  rewrite H204. cbn -[String.append].
  destruct (onError c _); reflexivity.
Qed.

(** X18.  The request of an iteration returns an entry at another offset
    and [onNewEntry] throws on it (anything but an [ApiClientError] with
    status 204).  The held offset has been advanced before the callback
    was called and stays advanced, so the entry is not requested again: it
    is handed over at most once.  The request is counted twice against the
    rate budget, once in the [try] and once in the [catch], and what the
    callback threw is reported to [onError] as a failed check for new
    entries. *)
Theorem throwing_onNewEntry_skips_entry c s held e n' thrown :
  requestCount (reset s) < MAX_REQUESTS_PER_MINUTE ->
  lastOffset s = Some held -> held <> "" ->
  getNextJournalEntry held (net s) = (Ok e, n') ->
  currentOffset (entry e) <> held ->
  onNewEntry c e = Some thrown -> is204 thrown = false ->
  onError c ("Error checking for new entries: " +++ toString thrown) = None ->
  fst (poll_once c s) = Ok tt
  /\ lastOffset (snd (poll_once c s)) = Some (currentOffset (entry e))
  /\ requestCount (snd (poll_once c s)) = requestCount (reset s) + 2
  /\ deliveries (log (net (snd (poll_once c s))))
     = deliveries (log (net s)) ++ [e]
  /\ reports (log (net (snd (poll_once c s))))
     = reports (log (net s))
       ++ ["Error checking for new entries: " +++ toString thrown].
Proof.
  intros Hlt Hheld Hne Hg Hoff Hcb H204 Herr.
  destruct (getNextJournalEntry_silent held (net s)) as (Hdel & Hrep & _).
  rewrite Hg in Hdel, Hrep. cbn [snd] in Hdel, Hrep.
  destruct (reset_frame s) as (Hn & _ & _).
  assert (Hp : poll_once c s
               = (Ok tt,
                  {| isRunning := isRunning (reset s);
                     lastOffset := Some (currentOffset (entry e));
                     requestCount := requestCount (reset s) + 1 + 1;
                     lastMinuteTimestamp := lastMinuteTimestamp (reset s);
                     net := {| clock := clock n' + Z.max 0 POLL_INTERVAL_MS;
                               api := api n'; blobs := blobs n';
                               log := ((log n' ++ [EntryDelivered e])
                                       ++ [ErrorReported
                                             ("Error checking for new entries: "
                                              +++ toString thrown)])
                                      ++ [Slept POLL_INTERVAL_MS] |} |})).
  { rewrite (poll_once_allowed c s held Hlt Hheld Hne).
    unfold try_catch, bind.
    rewrite (request_next_thrown c held (reset s) e n' thrown);
      [|rewrite Hn; exact Hg|exact Hoff|exact Hcb|exact H204].
    rewrite Herr. reflexivity. }
  rewrite Hp. cbn [fst snd lastOffset requestCount net log].
  rewrite !deliveries_app, !reports_app, Hdel, Hrep.
  cbn [deliveries reports app]. rewrite !app_nil_r.
  split; [reflexivity|]. split; [reflexivity|]. split; [lia|].
  split; reflexivity.
Qed.

Lemma throwing_onNewEntry_skips_entry_witness :
  let c := {| onNewEntry := fun _ => Some (Error "handler failed");
              onError := fun _ => None;
              onStatusUpdate := fun _ => None |} in
  let s := Samples.polling "A" 1 1000
             (Samples.net 1100 [Samples.entry_reply "B"]
                [Samples.blob_reply "B"]) in
  lastOffset (snd (poll_once c s)) = Some "B"
  /\ requestCount (snd (poll_once c s)) = 3
  /\ reports (log (net (snd (poll_once c s))))
     = ["Error checking for new entries: Error: handler failed"].
Proof.
  intros c s.
  destruct (throwing_onNewEntry_skips_entry c s "A"
              {| entry := Samples.entry_at "B"; data := Samples.data_at "B" |}
              (snd (getNextJournalEntry "A" (net s)))
              (Error "handler failed"))
    as (_ & Ho & Hc & _ & Hr);
    [reflexivity|reflexivity|discriminate|reflexivity|discriminate
    |reflexivity|reflexivity|reflexivity|].
  split; [exact Ho|split; [exact Hc|exact Hr]].
Defined.

(** *** Without a usable offset *)

Lemma poll_once_without_offset c s :
  truthy_string (lastOffset s) = false -> offline s (snd (poll_once c s)).
Proof.
  intros Hf. apply (offline_trans _ (reset s)); [apply offline_reset|].
  apply (offline_trans _ (snd (attempt c s (reset s))));
    [|apply poll_once_after_attempt;
      auto using offline_refl, offline_error, offline_sleep;
      exact offline_trans].
  unfold attempt. rewrite Hf.
  destruct (requestCount (reset s) <? MAX_REQUESTS_PER_MINUTE);
    [apply offline_refl|apply offline_status].
Qed.

(** X19.  While the held offset is absent or the empty string, the loop
    sends nothing, for every consumer and any number of iterations: no
    gateway call, no download, no delivery, and the held offset stays as it
    is; the iterations only sleep. *)
Theorem loop_without_offset_is_idle c turns s :
  truthy_string (lastOffset s) = false ->
  let s' := snd (poll_in_background c turns s) in
  lastOffset s' = lastOffset s
  /\ requests (log (net s')) = requests (log (net s))
  /\ downloads (log (net s')) = downloads (log (net s))
  /\ deliveries (log (net s')) = deliveries (log (net s)).
Proof.
  intros Hf.
  assert (Hloop : forall k s0,
             truthy_string (lastOffset s0) = false ->
             offline s0 (snd (pollForNewEntries c k s0))).
  { induction k as [|k IH]; intros s0 H0; [apply offline_refl|].
    cbn [pollForNewEntries]. unfold bind, gets.
    destruct (isRunning s0); [|apply offline_refl].
    pose proof (poll_once_without_offset c s0 H0) as H1.
    destruct (poll_once c s0) as [[u|e] s1]; cbn [snd] in *; [|exact H1].
    apply (offline_trans _ s1); [exact H1|].
    apply IH. destruct H1 as (Ho & _). rewrite Ho. exact H0. }
  change (offline s (snd (poll_in_background c turns s))).
  unfold poll_in_background, try_catch.
  pose proof (Hloop turns s Hf) as H1.
  destruct (pollForNewEntries c turns s) as [[u|e] s1]; cbn [snd] in *;
    [exact H1|].
  apply (offline_trans _ s1); [exact H1|].
  unfold bind, gets. destruct (isRunning s1);
    [apply offline_error|apply offline_refl].
Qed.

Lemma loop_without_offset_is_idle_witness :
  let s := snd (establish Samples.quiet
                  (fresh_stream
                     (Samples.net 1000
                        [Samples.entry_reply ""; Samples.entry_reply "B"]
                        [Samples.blob_reply ""; Samples.blob_reply "B"]))) in
  lastOffset s = Some ""
  /\ requests (log (net (snd (poll_in_background Samples.quiet 5 s))))
     = [(GET, JournalLatest)].
Proof.
  intros s. split; [reflexivity|].
  destruct (loop_without_offset_is_idle Samples.quiet 5 s eq_refl)
    as (_ & H & _).
  exact H.
Defined.

(** *** Stopping and failing to start *)












End CursorLoopMore.

(** ** Journal client: the earliest and the latest entry *)

Section FirstEntries.
Import Wire Remote JournalApi LoopView.

(** X22.  [getLatestJournalEntry] and [getEarliestJournalEntry] pass a
    failure of the gateway on unchanged and download nothing then; this
    includes the gateway's 204 error "No content available", which is not
    turned into the "already on the latest offset" error of
    [getNextJournalEntry].  On any body they attempt exactly one download,
    from the [url] of the body, without testing that it is present; they
    return the entry with the downloaded data when the download succeeds,
    and throw a plain [Error] when it does not. *)
Theorem first_entries_outcomes n x xs :
  api n = x :: xs ->
  (forall e,
     outcome x = Throw e ->
     fst (getLatestJournalEntry n) = Throw e
     /\ fst (getEarliestJournalEntry n) = Throw e
     /\ downloads (log (snd (getLatestJournalEntry n))) = downloads (log n)
     /\ downloads (log (snd (getEarliestJournalEntry n)))
        = downloads (log n))
  /\ (forall body,
        outcome x = Ok body ->
        downloads (log (snd (getLatestJournalEntry n)))
        = downloads (log n) ++ [url_of body]
        /\ downloads (log (snd (getEarliestJournalEntry n)))
           = downloads (log n) ++ [url_of body]
        /\ (forall b bs d,
              blobs n = b :: bs -> blob_outcome b = BlobOk d ->
              fst (getLatestJournalEntry n) = Ok (as_entry body, d)
              /\ fst (getEarliestJournalEntry n) = Ok (as_entry body, d))
        /\ (forall e,
              fst (getLatestJournalEntry n) = Throw e
              \/ fst (getEarliestJournalEntry n) = Throw e ->
              exists message, e = Error message)).
Proof.
  intros Hapi. split.
  - intros e Hx.
    unfold getLatestJournalEntry, getEarliestJournalEntry, bind, call.
    rewrite Hapi, Hx. cbn. rewrite !downloads_app. cbn.
    rewrite !app_nil_r. auto.
  - intros body Hx.
    assert (Hthrows : forall n0 e,
               fst ((d <- downloadJournalData (url_of body) ;;
                     ret (as_entry body, d)) n0) = Throw e ->
               exists message, e = Error message).
    { intros n0 e H. unfold bind in H.
      destruct (downloadJournalData (url_of body) n0) as [[d|err] n1] eqn:Hd;
        cbn in H; [discriminate|].
      injection H as <-.
      apply (downloadJournalData_throws (url_of body) n0).
      rewrite Hd. reflexivity. }
    split; [|split; [|split]].
    + unfold getLatestJournalEntry, bind, call. rewrite Hapi, Hx.
      unfold downloadJournalData, bind, fetch. cbn [blobs fst snd log].
      destruct (blobs n) as [|b bs];
        [|destruct (blob_outcome b) as [d|st message|cause]]; cbn;
        try (destruct (is_number st 404); cbn;
             try (destruct (is_number st 403); cbn));
        rewrite !downloads_app; cbn; rewrite !app_nil_r; reflexivity.
    + unfold getEarliestJournalEntry, bind, call. rewrite Hapi, Hx.
      unfold downloadJournalData, bind, fetch. cbn [blobs fst snd log].
      destruct (blobs n) as [|b bs];
        [|destruct (blob_outcome b) as [d|st message|cause]]; cbn;
        try (destruct (is_number st 404); cbn;
             try (destruct (is_number st 403); cbn));
        rewrite !downloads_app; cbn; rewrite !app_nil_r; reflexivity.
    + intros b bs d Hb Hd.
      unfold getLatestJournalEntry, getEarliestJournalEntry, bind, call.
      rewrite Hapi, Hx. unfold downloadJournalData, bind, fetch.
      cbn [blobs fst snd]. rewrite Hb, Hd. cbn. auto.
    + intros e [H|H].
      * unfold getLatestJournalEntry, bind, call in H.
        rewrite Hapi, Hx in H.
        apply (Hthrows _ e H).
      * unfold getEarliestJournalEntry, bind, call in H.
        rewrite Hapi, Hx in H.
        apply (Hthrows _ e H).
Qed.

Lemma first_entries_outcomes_witness :
  let n := Samples.net 1000 [Samples.no_content] [Samples.blob_reply "A"] in
  fst (getLatestJournalEntry n)
  = Throw (ApiClientError "No content available" (Some 204) None None)
  /\ fst (getEarliestJournalEntry n)
     = Throw (ApiClientError "No content available" (Some 204) None None).
Proof.
  intros n.
  destruct (first_entries_outcomes n Samples.no_content [] eq_refl)
    as (H & _).
  destruct (H _ eq_refl) as (A & B & _). split; [exact A|exact B].
Defined.

End FirstEntries.

(** ** Configuration *)

Section ConfigProperties.
Import Config.
Variable parses_as_url : string -> bool.



End ConfigProperties.


(** ** The rate budget *)

Section RateBudget.
Import Wire Remote JournalApi Observed LoopView.

(** What the rate check does to the loop variables. *)
Lemma checkRateLimit_rule s :
  (clock (net s) - lastMinuteTimestamp s >= 60000 ->
   fst (checkRateLimit s) = Ok true
   /\ requestCount (snd (checkRateLimit s)) = 0
   /\ lastMinuteTimestamp (snd (checkRateLimit s)) = clock (net s))
  /\ (clock (net s) - lastMinuteTimestamp s < 60000 ->
      checkRateLimit s
      = (Ok (requestCount s <? MAX_REQUESTS_PER_MINUTE), s)).
Proof.
  rewrite checkRateLimit_eq. cbn [fst snd].
  destruct (reset_rule s) as [Hover Hwithin]. split.
  - intros H. destruct (Hover H) as [H0 H1].
    rewrite H0, H1. repeat split.
  - intros H. rewrite (Hwithin H). reflexivity.
Qed.

(** The request of an iteration that passes the rate check with an offset
    held, for every consumer. *)
Lemma poll_once_allowed_sent c s held :
  requestCount (reset s) < MAX_REQUESTS_PER_MINUTE ->
  lastOffset s = Some held -> held <> "" ->
  requests (log (net (snd (poll_once c s))))
  = requests (log (net s)) ++ [(GET, JournalNext held)].
Proof.
  intros Hlt Hheld Hne.
  destruct (poll_once_after_attempt offline offline_refl offline_trans
              offline_error offline_sleep c s) as (_ & Hr & _).
  rewrite Hr. unfold attempt.
  destruct (reset_frame s) as (Hn & _ & _).
  apply Z.ltb_lt in Hlt. rewrite Hlt, Hheld.
  rewrite (truthy_some held Hne), (or_else_some held Hne).
  rewrite request_next_requests, Hn. reflexivity.
Qed.

(** C4.  The ceiling is 30 calls per window of 60000 ms.  An iteration that
    finds the counter at the ceiling inside the window issues no call: it
    announces the wait and sleeps exactly the rest of the window.  The rate
    check of the next iteration then finds the window over: it sets the
    counter to 0 and starts a new window at that instant, and that
    iteration sends the delayed request, the GET of the entry after the
    held offset, exactly 60000 ms after the start of the exhausted window.
    In general the rate check resets the counter, and restarts the window
    at the current time, when 60000 ms or more have passed since the window
    started, and leaves both alone otherwise; an iteration whose check
    fails issues no call, for any consumer.  Over any run of the stream,
    from the initial fetch on and for every consumer, the calls issued
    since the start of the current window, the initial fetch included,
    never number more than 30. *)
Theorem rate_budget c s :
  MAX_REQUESTS_PER_MINUTE <= requestCount s ->
  clock (net s) - lastMinuteTimestamp s < 60000 ->
  onStatusUpdate c
    (RateLimitReached
       (ceil_div (60000 - (clock (net s) - lastMinuteTimestamp s)) 1000))
  = None ->
  let wait := 60000 - (clock (net s) - lastMinuteTimestamp s) in
  let s' := snd (poll_once c s) in
  MAX_REQUESTS_PER_MINUTE = 30
  /\ fst (checkRateLimit s) = Ok false
  /\ log (net s')
     = log (net s)
       ++ [StatusUpdate (RateLimitReached (ceil_div wait 1000)); Slept wait]
  /\ api (net s') = api (net s)
  /\ requestCount s' = requestCount s
  /\ clock (net s') = lastMinuteTimestamp s + 60000
  /\ (fst (checkRateLimit s') = Ok true
      /\ requestCount (snd (checkRateLimit s')) = 0
      /\ lastMinuteTimestamp (snd (checkRateLimit s'))
         = lastMinuteTimestamp s + 60000
      /\ net (snd (checkRateLimit s')) = net s')
  /\ (forall held,
        lastOffset s = Some held -> held <> "" ->
        let s'' := snd (poll_once c s') in
        requests (log (net s''))
        = requests (log (net s)) ++ [(GET, JournalNext held)]
        /\ call_times (log (net s''))
           = call_times (log (net s)) ++ [lastMinuteTimestamp s + 60000]
        /\ lastMinuteTimestamp s'' = lastMinuteTimestamp s + 60000
        /\ 1 <= requestCount s'' <= 2)
  /\ (forall s0,
        (clock (net s0) - lastMinuteTimestamp s0 >= 60000 ->
         fst (checkRateLimit s0) = Ok true
         /\ requestCount (snd (checkRateLimit s0)) = 0
         /\ lastMinuteTimestamp (snd (checkRateLimit s0)) = clock (net s0))
        /\ (clock (net s0) - lastMinuteTimestamp s0 < 60000 ->
            checkRateLimit s0
            = (Ok (requestCount s0 <? MAX_REQUESTS_PER_MINUTE), s0)))
  /\ (forall c0 s0,
        fst (checkRateLimit s0) = Ok false ->
        call_times (log (net (snd (poll_once c0 s0))))
        = call_times (log (net s0))
        /\ api (net (snd (poll_once c0 s0))) = api (net s0))
  /\ (forall c0 turns n,
        call_times (log n) = [] -> punctual n ->
        let final := snd (streamJournalEntries c0 turns n) in
        (fst (establish c0 (fresh_stream n)) = Ok true ->
         requestCount (snd (establish c0 (fresh_stream n))) = 1)
        /\ count_since (lastMinuteTimestamp final)
                       (call_times (log (net final)))
           <= 30).
Proof.
  intros Hge Hwin Hcb wait s'.
  assert (Hs' : s' = snd (poll_once c s)) by reflexivity.
  rewrite (poll_once_blocked c s Hge Hwin Hcb) in Hs'. cbn [snd] in Hs'.
  assert (Hclk : clock (net s') = lastMinuteTimestamp s + 60000).
  { rewrite Hs'. cbn [net clock]. lia. }
  assert (Hts : lastMinuteTimestamp s' = lastMinuteTimestamp s)
    by (rewrite Hs'; reflexivity).
  assert (Hlo : lastOffset s' = lastOffset s) by (rewrite Hs'; reflexivity).
  assert (Hcalls : call_times (log (net s')) = call_times (log (net s))).
  { rewrite Hs'. cbn [net log]. rewrite !call_times_app. cbn.
    rewrite !app_nil_r. reflexivity. }
  assert (Hreqs : requests (log (net s')) = requests (log (net s))).
  { rewrite Hs'. cbn [net log]. rewrite !requests_app. cbn.
    rewrite !app_nil_r. reflexivity. }
  destruct (checkRateLimit_rule s') as [Hover _].
  destruct Hover as (Hc1 & Hc2 & Hc3); [lia|].
  destruct (reset_rule s') as [Hreset _].
  destruct Hreset as [Hr0 Hr1]; [lia|].
  split; [reflexivity|].
  split.
  { rewrite (proj2 (checkRateLimit_rule s) Hwin). cbn [fst].
    apply Z.ltb_ge in Hge. rewrite Hge. reflexivity. }
  split; [rewrite Hs'; cbn [net log]; rewrite <- app_assoc; reflexivity|].
  split; [rewrite Hs'; reflexivity|].
  split; [rewrite Hs'; reflexivity|].
  split; [exact Hclk|].
  split.
  { split; [exact Hc1|]. split; [exact Hc2|]. split; [lia|].
    rewrite checkRateLimit_eq. cbn [snd]. apply reset_frame. }
  split.
  { intros held Hheld Hne s''.
    assert (Hlt : requestCount (reset s') < MAX_REQUESTS_PER_MINUTE)
      by (rewrite Hr0; unfold MAX_REQUESTS_PER_MINUTE; lia).
    assert (Hheld' : lastOffset s' = Some held) by congruence.
    split.
    { unfold s''.
      rewrite (poll_once_allowed_sent c s' held Hlt Hheld' Hne), Hreqs.
      reflexivity. }
    destruct (reset_frame s') as (Hn & _ & _).
    destruct (poll_once_effect c s')
      as [[_ [Hblocked|Hidle]]|(_ & held' & _ & _ & Hq)].
    - lia.
    - rewrite Hheld', (truthy_some held Hne) in Hidle. discriminate.
    - destruct (request_next_effect c held' (reset s'))
        as (_ & Ht & Hcount & Hct & _).
      destruct Hq as (_ & _ & Hq3 & Hq4 & _ & _ & Hq7 & _).
      unfold s''. rewrite Hq7, Hq4, Hq3, Hct, Ht, Hn, Hcalls, Hr1, Hclk.
      repeat split; lia. }
  split; [exact checkRateLimit_rule|].
  split.
  { intros c0 s0 Hfalse. apply poll_once_blocked_silent.
    rewrite checkRateLimit_eq in Hfalse. cbn [fst] in Hfalse.
    injection Hfalse as Hfalse. apply Z.ltb_ge. exact Hfalse. }
  intros c0 turns n Hlog Hp final.
  destruct (establish_budget c0 n Hlog Hp) as [Hentered Hmax].
  split; [intros He; exact (proj2 (Hentered He))|].
  unfold final, streamJournalEntries, bind.
  destruct (establish c0 (fresh_stream n)) as [[entered|e] s0];
    cbn [fst snd] in *; [|exact Hmax].
  destruct entered; [|exact Hmax].
  destruct (Hentered eq_refl) as [Hb _].
  exact (proj2 (proj2 (proj2 (budgeted_poll_in_background c0 turns s0 Hb)))).
Qed.

Lemma rate_budget_witness :
  let s := Samples.polling "A" 30 1000
             (Samples.net 59000 [Samples.no_content] []) in
  let n := Samples.net 1000
             (Samples.entry_reply "A" :: repeat Samples.no_content 40)
             [Samples.blob_reply "A"] in
  let final := snd (streamJournalEntries Samples.quiet 40 n) in
  let blocked := snd (poll_once Samples.quiet s) in
  log (net blocked) = [StatusUpdate (RateLimitReached 2); Slept 2000]
  /\ clock (net blocked) = 61000
  /\ requestCount (snd (checkRateLimit blocked)) = 0
  /\ requests (log (net (snd (poll_once Samples.quiet blocked))))
     = [(GET, JournalNext "A")]
  /\ call_times (log (net (snd (poll_once Samples.quiet blocked))))
     = [61000]
  /\ count_since (lastMinuteTimestamp final) (call_times (log (net final)))
     <= 30.
Proof.
  intros s n final blocked.
  destruct (rate_budget Samples.quiet s)
    as (_ & _ & Hlog & _ & _ & Hclk & (_ & Hr & _) & Hnext & _ & _ & Hrun);
    [unfold MAX_REQUESTS_PER_MINUTE; cbn; lia|cbn; lia|reflexivity|].
  destruct (Hnext "A" eq_refl ltac:(discriminate)) as (Hreq & Hct & _).
  assert (Hp : punctual n).
  { split; cbn; repeat constructor; cbn; lia. }
  destruct (Hrun Samples.quiet 40%nat n eq_refl Hp) as [_ Hmax].
  split; [exact Hlog|]. split; [exact Hclk|]. split; [exact Hr|].
  split; [exact Hreq|]. split; [exact Hct|exact Hmax].
Defined.

End RateBudget.
